(** * better-grammy-menu: action tokens, layout builder and menu controller

    A shallow embedding of [index.ts] (token codec [buildAction] /
    [parseAction], class [LayoutBuilder], class [Menu], [createMenu],
    [createMenuFactory]) together with the properties the specification
    states about them, and further properties of the code.

    How the code is read:
    - [async] functions are functions of the world that end in a value, a
      thrown error, or unsettled ([Res]). The world has a clock. User code
      and the host take no time of their own, so time passes only while a
      timer is waited for: [Promise.race] against a timer ends as its first
      argument does if that settles, and with the timeout error once the
      timer has fired. Of two timers for the same instant the one set
      first fires first, and a delay is what Node's [setTimeout] makes of
      it. Inside a race, "unsettled" means not settled by the time the
      race's timer fires; what the loser of a race does after that is not
      followed.
    - [Menu] objects live in the world under a name, since their per-chat
      maps are mutated in place and handlers name other menus; sessions
      live there under the session key of the context.
    - User code (loader, [onEnter], state initialiser, generators of dynamic
      sections, callback handlers) reaches the session only through the
      state accessor; a callback handler may in addition call
      [ctx.menu.navigate] and [ctx.menu.refresh].
    - What [nanoid(6)] returns is an argument of the function that calls
      it.
    - An options object is read property by property, a property being
      absent, [undefined] or given, since a spread copies an [undefined]
      property too.
    - The state accessor's [get] and [set] take the engine's property read
      and write as parameters; what is stated about them assumes of the
      engine only what it does on plain objects. *)

From Stdlib Require Import ZArith Lia Ascii.
From stdpp Require Import base option list strings gmap fin_maps pretty.

Open Scope string_scope.
Open Scope list_scope.
Set Warnings "-register-all".

(** ** Token codec *)

Module Codec.

(** [type Action = "callback"] *)
Inductive Action := callback.

Global Instance Action_eq_dec : EqDecision Action.
Proof. solve_decision. Defined.

Definition MENU_PREFIX : string := "eijdfwof".

(** [ACTION_REPRESENTATION_MAPPING], as the list of its entries. *)
Definition ACTION_REPRESENTATION_MAPPING : list (Action * string) :=
  [(callback, "call")].

(** [ACTION_REPRESENTATION_MAPPING[action]] *)
Definition representation (action : Action) : string :=
  match action with callback => "call" end.

(** JavaScript truthiness of a [string | undefined]. *)
Definition truthy (s : option string) : bool :=
  match s with
  | Some (String _ _) => true
  | _ => false
  end.

Definition colon : ascii := ":"%char.

(** [buildAction]: the template string
    [`${MENU_PREFIX}:${sourceId}:${repr}${targetId ? `:${targetId}` : ""}`]. *)
Definition buildAction (action : Action) (sourceId : string)
    (targetId : option string) : string :=
  MENU_PREFIX +:+ ":" +:+ sourceId +:+ ":" +:+ representation action +:+
  (if truthy targetId then ":" +:+ default "" targetId else "").

(** [actionString.split(":")]: always at least one component. *)
Fixpoint split (s : string) : list string :=
  match s with
  | EmptyString => [EmptyString]
  | String c rest =>
      if decide (c = colon) then EmptyString :: split rest
      else match split rest with
           | hd :: tl => String c hd :: tl
           | [] => [String c EmptyString]
           end
  end.

Record Parsed := mkParsed {
  action : option Action;
  sourceId : string;
  targetId : option string
}.

Global Instance Parsed_eq_dec : EqDecision Parsed.
Proof. solve_decision. Defined.

(** [Object.values(ACTION_REPRESENTATION_MAPPING).includes(x)] *)
Definition includes (x : string) : bool :=
  bool_decide (x ∈ ACTION_REPRESENTATION_MAPPING.*2).

(** [Object.entries(MAPPING).find(([_, v]) => v === action)?.[0]] *)
Definition find_action (action : option string) : option Action :=
  fst <$> List.find (λ e, bool_decide (Some (snd e) = action))
                    ACTION_REPRESENTATION_MAPPING.

(** [parseAction]: the array destructuring takes the first four components
    of the split, each [undefined] when the array is too short. *)
Definition parseAction (actionString : string) : option Parsed :=
  let parts := split actionString in
  let menuPrefix := parts !! 0%nat in
  let sourceId := parts !! 1%nat in
  let action := parts !! 2%nat in
  let targetId := parts !! 3%nat in
  if bool_decide (menuPrefix ≠ Some MENU_PREFIX) then None
  else if negb (includes (default "" action)) then None
  else if negb (truthy sourceId) then None
  else Some (mkParsed (find_action action) (default "" sourceId) targetId).

(** A string that contains no delimiter. *)
Fixpoint no_colon (s : string) : Prop :=
  match s with
  | EmptyString => True
  | String c rest => c ≠ colon ∧ no_colon rest
  end.

Global Instance no_colon_dec s : Decision (no_colon s).
Proof. induction s; simpl; apply _. Defined.

End Codec.

(** ** JavaScript values and thrown errors *)

Module JS.

(** The values loader arguments, loader data and menu state range over.
    Strings are byte strings; on ASCII text their code units are the bytes. *)
Inductive value :=
| VUndefined
| VNull
| VBool (b : bool)
| VNum (n : Z)
| VStr (s : string)
| VArr (items : list value)
| VObj (props : gmap string value).

(** [x == null], the test behind [??] and [??=]. *)
Definition nullish (v : value) : bool :=
  match v with VUndefined | VNull => true | _ => false end.

(** [a ?? b] *)
Definition coalesce (a b : value) : value := if nullish a then b else a.

(** [!x] *)
Definition falsy (v : value) : bool :=
  match v with
  | VUndefined | VNull | VBool false | VNum 0 | VStr EmptyString => true
  | _ => false
  end.

(** [typeof x === "object" && x !== null] *)
Definition is_object (v : value) : bool :=
  match v with VArr _ | VObj _ => true | _ => false end.

(** Index-keyed properties of an array or a string. *)
Fixpoint indexed (i : nat) (items : list value) : gmap string value :=
  match items with
  | [] => ∅
  | x :: rest => <[pretty i := x]> (indexed (S i) rest)
  end.

Fixpoint chars (s : string) : list value :=
  match s with
  | EmptyString => []
  | String c rest => VStr (String c EmptyString) :: chars rest
  end.

(** The own enumerable properties an object spread [{...x}] copies. *)
Definition own_props (v : value) : gmap string value :=
  match v with
  | VObj props => props
  | VArr items => indexed 0 items
  | VStr s => indexed 0 (chars s)
  | _ => ∅
  end.

(** [{ ...a, ...b }]: the properties of [b] win. *)
Definition spread2 (a b : value) : value := VObj (own_props b ∪ own_props a).

(** A thrown value: an object whose [message] may be missing. *)
Record Error := mkError { message : option string }.

(** [new Error(text)] *)
Definition new_Error (text : string) : Error := mkError (Some text).

(** The engine's error for a property read or write on [undefined]. *)
Definition TypeError (prop : string) : Error :=
  new_Error ("Cannot read properties of undefined (reading '" +:+ prop +:+ "')").

(** How a promise made by user code ends: fulfilled or rejected, without
    taking any time worth counting, or not settled by the time anybody
    stops waiting for it. *)
Inductive Outcome (A : Type) :=
| Resolved (a : A)
| Rejected (e : Error)
| Pending.
Global Arguments Resolved {A} a.
Global Arguments Rejected {A} e.
Global Arguments Pending {A}.

End JS.

Import Codec JS.

(** ** The host framework's side: buttons, Bot API calls, the update context *)

Module Host.

(** [InlineKeyboard.text], [InlineKeyboard.copyText], [InlineKeyboard.url] *)
Inductive InlineKeyboardButton :=
| text_button (text callback_data : string)
| copy_text_button (text content : string)
| url_button (text url : string).

Global Instance InlineKeyboardButton_eq_dec : EqDecision InlineKeyboardButton.
Proof. solve_decision. Defined.

(** [{ parse_mode, reply_markup: { inline_keyboard } }] *)
Record MessageOther := mkOther {
  parse_mode : option string;
  inline_keyboard : list (list InlineKeyboardButton)
}.

(** [{ text, show_alert }] *)
Record AnswerOther := mkAnswer {
  answer_text : string;
  show_alert : bool
}.

(** What a run leaves behind: the Bot API calls it made, in order, and
    (for the statements only) which user functions it entered. *)
Inductive Event :=
| ev_reply (text : option string) (other : option MessageOther)
| ev_editMessageText (text : string) (other : MessageOther)
| ev_answerCallbackQuery (other : option AnswerOther)
| ev_loader (menu : string) (args : value)
| ev_callback (action : string) (data : value).

(** [ctx.callbackQuery]: [data] and [message?.message_id]. *)
Record CallbackQuery := mkCallbackQuery {
  data : option string;
  message_id : option Z
}.

(** The update context. The three Bot API methods always settle; what
    they answer may depend on everything that happened before. The session
    object behind [ctx.session] is the one the store keeps under
    [session_key]. *)
Record Context := mkContext {
  chat : option Z;
  callbackQuery : option CallbackQuery;
  session_key : string;
  reply : list Event → option string → option MessageOther → Error + Z;
  editMessageText : list Event → string → MessageOther → Error + unit;
  answerCallbackQuery : list Event → option AnswerOther → Error + unit
}.

(** [ctx.chat?.id.toString() ?? ""] *)
Definition chat_key (ctx : Context) : string :=
  match chat ctx with
  | Some id => pretty id
  | None => ""
  end.

End Host.

Import Host.

(** ** Layout builder *)

Module Layout.

(** A user function that may use the state accessor on [ctx.menu.state]: it
    sees the state object and leaves the state object it wrote. *)
Definition UserFn (A : Type) : Type := value → value * Outcome A.

(** The body of a callback handler, as the sequence of things it does with
    the context it is given: it returns, throws or never settles; it reads
    the state object through the accessor, writes one back and goes on; it
    awaits [ctx.menu.navigate] or [ctx.menu.refresh] and goes on with the
    error it caught, if any. Menus are referred to by the name the process
    holds them under. *)
Inductive Prog :=
| p_return
| p_throw (e : Error)
| p_pending
| p_state (update : value → value) (k : value → Prog)
| p_navigate (menu : string) (args : value) (k : option Error → Prog)
| p_refresh (args : value) (k : option Error → Prog).

(** [MenuCallbackFn]: [(ctx, data) => ...] *)
Definition MenuCallbackFn : Type := Context → value → Prog.

Record ActionHandler := mkHandler {
  action : string;
  callbackFn : option MenuCallbackFn
}.

(** An element of [buttons]: a button, or (for [row()]) an array. *)
Inductive ButtonItem :=
| a_button (b : InlineKeyboardButton)
| an_array (row : list InlineKeyboardButton).

(** [BuildStep]. A generator is given a fresh builder; what it returns here
    is the [steps] array of that builder once the generator has settled. *)
Inductive BuildStep :=
| static_step (buttons : list ButtonItem) (handler : option ActionHandler)
| dynamic_step (dynamicFn : Context → value → UserFn (list BuildStep)).

Definition MenuDynamicFn : Type := Context → value → UserFn (list BuildStep).

Record LayoutBuilder := mkBuilder {
  menuId : string;
  steps : list BuildStep
}.

(** The step [callback(text, callbackFn)] pushes; [targetId] is what
    [nanoid(6)] returned. *)
Definition callback_step (menuId text targetId : string)
    (callbackFn : option MenuCallbackFn) : BuildStep :=
  let action := buildAction callback menuId (Some targetId) in
  static_step [a_button (text_button text action)]
              (Some (mkHandler action callbackFn)).

(** The methods of [LayoutBuilder] other than [build]. *)
Module Builder.

(** [this.steps.push(step)] *)
Definition push (step : BuildStep) (b : LayoutBuilder) : LayoutBuilder :=
  mkBuilder (menuId b) (steps b ++ [step]).

Definition callback (text : string) (callbackFn : option MenuCallbackFn)
    (targetId : string) (b : LayoutBuilder) : LayoutBuilder :=
  push (callback_step (menuId b) text targetId callbackFn) b.

Definition copy (text content : string) (b : LayoutBuilder) : LayoutBuilder :=
  push (static_step [a_button (copy_text_button text content)] None) b.

Definition url (text url : string) (b : LayoutBuilder) : LayoutBuilder :=
  push (static_step [a_button (url_button text url)] None) b.

Definition row (b : LayoutBuilder) : LayoutBuilder :=
  push (static_step [an_array []] None) b.

Definition dynamic (dynamicFn : MenuDynamicFn) (b : LayoutBuilder)
    : LayoutBuilder :=
  push (dynamic_step dynamicFn) b.

(** [prepare()]: the handlers of the static steps that have one. *)
Definition prepare (b : LayoutBuilder) : list ActionHandler :=
  omap (λ step, match step with
                | static_step _ handler => handler
                | dynamic_step _ => None
                end) (steps b).

End Builder.

End Layout.

Import Layout.

(** ** Menu objects, sessions, and the effects of a run *)

Module Runtime.

(** What a loader returns: [{ text, data, parseMode }]. *)
Record LoaderResult := mkLoaded {
  text : string;
  loaded_data : value;
  parseMode : option string
}.

Definition LoaderFn : Type := Context → value → UserFn LoaderResult.

Record MenuOptions := mkOptions {
  staleErrorText : option string;
  timeoutErrorText : option string;
  timeoutMs : option Z
}.

(** [class Menu]. [initStateFn] takes no argument, so it is what it
    returns. *)
Record Menu := mkMenu {
  id : string;
  loaderFn : LoaderFn;
  initStateFn : option (Outcome value);
  onEnterFn : option (Context → UserFn unit);
  staticActionHandlersByAction : gmap string ActionHandler;
  dynamicActionHandlersByActionByChatId : gmap string (gmap string ActionHandler);
  builder : LayoutBuilder;
  options : option MenuOptions
}.

(** [defaultOptions] *)
Definition default_staleErrorText : string := "The menu is stalled".
Definition default_timeoutErrorText : string :=
  "The action took too long to execute".
Definition default_timeoutMs : Z := 10000.

(** [this.options?.staleErrorText ?? this.defaultOptions.staleErrorText] *)
Definition stale_text (this : Menu) : string :=
  default default_staleErrorText (options this ≫= staleErrorText).

(** [this.options?.timeoutErrorText ?? this.defaultOptions.timeoutErrorText] *)
Definition timeout_text (this : Menu) : string :=
  default default_timeoutErrorText (options this ≫= timeoutErrorText).

(** [this.options?.timeoutMs ?? this.defaultOptions.timeoutMs] *)
Definition timeout_ms (this : Menu) : Z :=
  default default_timeoutMs (options this ≫= timeoutMs).

(** [ctx.session._menu[id]] *)
Record MenuSlot := mkSlot { state : value }.

(** [ctx.session._menu]. Menu identifiers are six characters long, so the
    per-menu entries never meet the three fixed properties. *)
Record MenuSession := mkMenuSession {
  activeMessageId : option Z;
  activeMenuLoaderArgs : value;
  activeMenuLoaderData : value;
  slots : gmap string MenuSlot
}.

Record Session := mkSession { _menu : option MenuSession }.

(** [session({ initial: () => ({}) })] *)
Definition initial_session : Session := mkSession None.

(** The mutable world of the process: the [Menu] objects by name, the
    session store, the accessor installed as [ctx.menu.state] on the context
    of the update being handled (named by the menu that made it; a new
    update starts with none), the events so far, the time on the clock in
    milliseconds, and the instant at which the timer fires that the code
    now running is raced against, if it is raced (the earliest such
    instant, when races are nested). *)
Record World := mkWorld {
  menus : gmap string Menu;
  sessions : gmap string Session;
  ctx_menu_state : option string;
  log : list Event;
  now : Z;
  due : option Z
}.

(** How an awaited operation ends for the one awaiting it: with a value,
    with a thrown error, or unsettled -- for ever or, in code that is raced
    against a timer, when that timer fires. *)
Inductive Res (A : Type) :=
| Ok (a : A)
| Throw (e : Error)
| Hang.
Global Arguments Ok {A} a.
Global Arguments Throw {A} e.
Global Arguments Hang {A}.

Definition M (A : Type) : Type := World → Res A * World.

Definition ret {A} (a : A) : M A := λ w, (Ok a, w).
Definition throw {A} (e : Error) : M A := λ w, (Throw e, w).
Definition hang {A} : M A := λ w, (Hang, w).

Definition bind {A B} (m : M A) (k : A → M B) : M B :=
  λ w, match m w with
       | (Ok a, w') => k a w'
       | (Throw e, w') => (Throw e, w')
       | (Hang, w') => (Hang, w')
       end.

End Runtime.

Import Runtime.

Notation "'let*' x ':=' m 'in' k" := (bind m (λ x, k))
  (at level 10, x name, m at level 200, k at level 200,
   format "'[v' 'let*'  x  ':='  m  'in' '/' k ']'").

Module Effects.

(** [try { m } catch (e) { h e }] *)
Definition try_catch {A} (m : M A) (h : Error → M A) : M A :=
  λ w, match m w with
       | (Throw e, w') => h e w'
       | r => r
       end.

(** [m.catch(() => null)] *)
Definition swallow (m : M unit) : M unit := try_catch m (λ _, ret tt).

(** Awaiting inside the caller's own [try]: the error, if any, as a value. *)
Definition attempt (m : M unit) : M (option Error) :=
  try_catch (let* _ := m in ret None) (λ e, ret (Some e)).

(** The world with the clock at [t] and the timer due at [d]. *)
Definition with_timers (t : Z) (d : option Z) (w : World) : World :=
  mkWorld (menus w) (sessions w) (ctx_menu_state w) (log w) t d.

(** The delay of [setTimeout(f, ms)]: Node takes a delay that is not
    between 1 and 2^31 - 1 as 1. *)
Definition timer_delay (ms : Z) : Z :=
  if bool_decide (1 ≤ ms ≤ 2147483647)%Z then ms else 1%Z.

(** When a timer set now for [ms] fires. *)
Definition expiry (ms : Z) (w : World) : Z := (now w + timer_delay ms)%Z.

(** Whether a timer set now for [ms] fires before the timer that is due:
    it does when none is; one due at the same instant was set earlier and
    fires first. *)
Definition fires_first (ms : Z) (w : World) : bool :=
  match due w with
  | Some d => bool_decide (expiry ms w < d)%Z
  | None => true
  end.

(** The world the first argument of a race runs in, and the world the race
    leaves when that argument ended as [r] in [w']: the timer that was due
    is due again, and the clock shows when the race was settled. *)
Definition racing (ms : Z) (w : World) : World :=
  with_timers (now w) (Some (expiry ms w)) w.

Definition after_race {A} (ms : Z) (w : World) (r : Res A) (w' : World)
    : World :=
  with_timers (match r with Hang => expiry ms w | _ => now w' end) (due w) w'.

(** [Promise.race([m, new Promise((_, reject) => setTimeout(() =>
    reject(new Error(text)), ms))])]. When this timer fires before the one
    that is due, [m] runs with this timer due: if [m] settles, the race ends
    as [m] does, and if it has not settled when the timer fires, the race
    rejects with the timer's error at that instant. When the timer that is
    due fires no later than this one, the race ends as [m] does, unsettled
    if [m] is when the due timer fires. ([m] is called before the timer is
    set; it sets no timer of its own before its first [await], which comes
    after that.) *)
Definition race {A} (text : string) (ms : Z) (m : M A) : M A :=
  λ w,
    if fires_first ms w then
      let (r, w') := m (racing ms w) in
      (match r with
       | Hang => Throw (new_Error text)
       | _ => r
       end, after_race ms w r w')
    else m w.

Definition emit (ev : Event) : M unit :=
  λ w, (Ok tt, mkWorld (menus w) (sessions w) (ctx_menu_state w)
                       (log w ++ [ev]) (now w) (due w)).

Definition settle {A} (r : Error + A) : M A :=
  match r with
  | inr a => ret a
  | inl e => throw e
  end.

(** [ctx.reply(text, other)] *)
Definition call_reply (ctx : Context) (text : option string)
    (other : option MessageOther) : M Z :=
  λ w, (let* _ := emit (ev_reply text other) in
        settle (reply ctx (log w) text other)) w.

(** [ctx.editMessageText(text, other)] *)
Definition call_editMessageText (ctx : Context) (text : string)
    (other : MessageOther) : M unit :=
  λ w, (let* _ := emit (ev_editMessageText text other) in
        settle (editMessageText ctx (log w) text other)) w.

(** [ctx.answerCallbackQuery(other)] *)
Definition call_answerCallbackQuery (ctx : Context)
    (other : option AnswerOther) : M unit :=
  λ w, (let* _ := emit (ev_answerCallbackQuery other) in
        settle (answerCallbackQuery ctx (log w) other)) w.

(** [ctx.session] *)
Definition session_of (ctx : Context) (w : World) : Session :=
  default initial_session (sessions w !! session_key ctx).

Definition set_session (ctx : Context) (s : Session) (w : World) : World :=
  mkWorld (menus w) (<[session_key ctx := s]> (sessions w))
          (ctx_menu_state w) (log w) (now w) (due w).

(** [ctx.session._menu], for a property read or write that follows. *)
Definition the_menu_session (ctx : Context) (prop : string) : M MenuSession :=
  λ w, match _menu (session_of ctx w) with
       | Some ms => (Ok ms, w)
       | None => (Throw (TypeError prop), w)
       end.

Definition put_menu_session (ctx : Context) (ms : MenuSession) : M unit :=
  λ w, (Ok tt, set_session ctx (mkSession (Some ms)) w).

(** [ctx.menu.state = state] *)
Definition install_state (owner : option string) : M unit :=
  λ w, (Ok tt,
        mkWorld (menus w) (sessions w) owner (log w) (now w) (due w)).

(** The state object reachable through [ctx.menu.state]; [undefined] when
    no accessor is installed. *)
Definition visible_state (ctx : Context) (w : World) : value :=
  match ctx_menu_state w with
  | Some owner =>
      match _menu (session_of ctx w) with
      | Some ms =>
          match slots ms !! owner with
          | Some slot => state slot
          | None => VUndefined
          end
      | None => VUndefined
      end
  | None => VUndefined
  end.

(** What the accessor's [set] and [reset] leave in the session; without an
    accessor there is nothing to write to. *)
Definition store_state (ctx : Context) (v : value) (w : World) : World :=
  match ctx_menu_state w with
  | Some owner =>
      match _menu (session_of ctx w) with
      | Some ms =>
          match slots ms !! owner with
          | Some _ =>
              set_session ctx
                (mkSession (Some (mkMenuSession (activeMessageId ms)
                   (activeMenuLoaderArgs ms) (activeMenuLoaderData ms)
                   (<[owner := mkSlot v]> (slots ms))))) w
          | None => w
          end
      | None => w
      end
  | None => w
  end.

(** [await Promise.resolve(f(...))], continued by [k]. *)
Definition await_then {A B} (ctx : Context) (f : UserFn A) (k : A → M B)
    : M B :=
  λ w, match f (visible_state ctx w) with
       | (st, Resolved a) => k a (store_state ctx st w)
       | (st, Rejected e) => (Throw e, store_state ctx st w)
       | (st, Pending) => (Hang, store_state ctx st w)
       end.

Definition await_user {A} (ctx : Context) (f : UserFn A) : M A :=
  await_then ctx f ret.

(** Awaiting a value that was computed without the context. *)
Definition await_outcome {A} (o : Outcome A) : M A :=
  match o with
  | Resolved a => ret a
  | Rejected e => throw e
  | Pending => hang
  end.

(** [for (const x of l) body], threading the loop's variables. *)
Definition for_of {A S} (body : A → S → M S) : list A → S → M S :=
  fix go (l : list A) (s : S) : M S :=
    match l with
    | [] => ret s
    | x :: rest => let* s' := body x s in go rest s'
    end.

End Effects.

Import Effects.

(** ** [LayoutBuilder.build] *)

Module Build.

Definition Keyboard : Type := list (list InlineKeyboardButton).

(** The three locals of [build], and its result. *)
Record BuildResult := mkBuild {
  keyboard : Keyboard;
  staticHandlers : list ActionHandler;
  dynamicHandlers : list ActionHandler
}.

(** [keyboard[keyboard.length - 1]!.push(...row)]; the keyboard starts as
    [[[]]] and only grows, so the index is always in range. *)
Definition push_last (row : list InlineKeyboardButton) (keyboard : Keyboard)
    : Keyboard :=
  alter (λ last, last ++ row) (length keyboard - 1)%nat keyboard.

(** The body of [for (const button of buttons)]. *)
Definition add_item (keyboard : Keyboard) (button : ButtonItem) : Keyboard :=
  match button with
  | an_array row => keyboard ++ [row]
  | a_button b => push_last [b] keyboard
  end.

(** The splice at the end of a dynamic step. *)
Definition splice (keyboard dynamicKeyboard : Keyboard) : Keyboard :=
  match dynamicKeyboard with
  | [] => keyboard
  | row :: restRows => push_last row keyboard ++ restRows
  end.

Definition start : BuildResult := mkBuild [[]] [] [].

(** [keyboard.filter((row) => row.length > 0)] on the way out. *)
Definition finish (acc : BuildResult) : BuildResult :=
  mkBuild (filter (λ row, row ≠ []) (keyboard acc))
          (staticHandlers acc) (dynamicHandlers acc).

(** One turn of the loop over [this.steps]. *)
Fixpoint build_step (ctx : Context) (data : value) (step : BuildStep)
    (acc : BuildResult) {struct step} : M BuildResult :=
  match step with
  | static_step buttons handler =>
      ret (mkBuild (foldl add_item (keyboard acc) buttons)
                   (staticHandlers acc ++ option_list handler)
                   (dynamicHandlers acc))
  | dynamic_step dynamicFn =>
      await_then ctx (dynamicFn ctx data) (λ nested,
        let* built := for_of (build_step ctx data) nested start in
        let dynamicBuild := finish built in
        ret (mkBuild (splice (keyboard acc) (keyboard dynamicBuild))
                     (staticHandlers acc)
                     (dynamicHandlers acc ++ staticHandlers dynamicBuild
                                          ++ dynamicHandlers dynamicBuild)))
  end.

Definition build_steps (ctx : Context) (data : value) (steps : list BuildStep)
    : M BuildResult :=
  let* built := for_of (build_step ctx data) steps start in
  ret (finish built).

(** [builder.build(ctx, data)] *)
Definition build (b : LayoutBuilder) (ctx : Context) (data : value)
    : M BuildResult :=
  build_steps ctx data (steps b).

End Build.

Import Build.

(** ** [class Menu] *)

Module Controller.

(** [handlers.forEach((h) => map.set(h.action, h))] on a fresh [Map]. *)
Definition by_action (handlers : list ActionHandler)
    : gmap string ActionHandler :=
  foldl (λ map h, <[action h := h]> map) ∅ handlers.

(** The constructor. *)
Definition new_Menu (builder : LayoutBuilder) (id : string)
    (loader : LoaderFn) (state : option (Outcome value))
    (options : option MenuOptions) (onEnter : option (Context → UserFn unit))
    : Menu :=
  mkMenu id loader state onEnter (by_action (Builder.prepare builder)) ∅
         builder options.

(** [createMenu]; [id] is what [nanoid(6)] returned, and [layout] is what
    the layout function does to the builder it is handed. *)
Definition createMenu (loader : LoaderFn)
    (onEnter : option (Context → UserFn unit))
    (layout : LayoutBuilder → LayoutBuilder)
    (state : option (Outcome value)) (options : option MenuOptions)
    (id : string) : Menu :=
  new_Menu (layout (mkBuilder id [])) id loader state options onEnter.

(** The object a method is invoked on. *)
Definition this_menu (self : string) : M Menu :=
  λ w, match menus w !! self with
       | Some this => (Ok this, w)
       | None => (Throw (TypeError self), w)
       end.

(** The menu object [this] with [map] set under [key] in its per-chat
    map, every other field as it is. *)
Definition with_dynamic (this : Menu) (key : string)
    (map : gmap string ActionHandler) : Menu :=
  mkMenu (id this) (loaderFn this) (initStateFn this) (onEnterFn this)
         (staticActionHandlersByAction this)
         (<[key := map]> (dynamicActionHandlersByActionByChatId this))
         (builder this) (options this).

(** [this.dynamicActionHandlersByActionByChatId.set(key, map)] *)
Definition set_dynamic (self key : string) (map : gmap string ActionHandler)
    : M unit :=
  λ w, match menus w !! self with
       | Some this =>
           (Ok tt,
            mkWorld (<[self := with_dynamic this key map]> (menus w))
                    (sessions w) (ctx_menu_state w) (log w) (now w) (due w))
       | None => (Throw (TypeError self), w)
       end.

(** [initContext]. Its first line gives the context an empty [menu] object
    when it has none, which installs no accessor. *)
Definition initContext (self : string) (ctx : Context) : M unit :=
  let* this := this_menu self in
  λ w,
    let ms := default (mkMenuSession None VUndefined VUndefined ∅)
                      (_menu (session_of ctx w)) in
    let slots' := match slots ms !! id this with
                  | Some _ => slots ms
                  | None => <[id this := mkSlot VUndefined]> (slots ms)
                  end in
    put_menu_session ctx
      (mkMenuSession (activeMessageId ms) (activeMenuLoaderArgs ms)
                     (activeMenuLoaderData ms) slots') w.

(** [ctx.session._menu[id]], for a read or write of its [state]. *)
Definition the_slot (ctx : Context) (id : string) : M MenuSlot :=
  let* ms := the_menu_session ctx id in
  match slots ms !! id with
  | Some slot => ret slot
  | None => throw (TypeError "state")
  end.

(** [ctx.session._menu[id].state = v] *)
Definition set_slot_state (ctx : Context) (id : string) (v : value) : M unit :=
  let* ms := the_menu_session ctx id in
  match slots ms !! id with
  | Some _ =>
      put_menu_session ctx
        (mkMenuSession (activeMessageId ms) (activeMenuLoaderArgs ms)
                       (activeMenuLoaderData ms) (<[id := mkSlot v]> (slots ms)))
  | None => throw (TypeError "state")
  end.

(** [getState]: the accessor it returns is known by the menu it reads and
    writes the state of. *)
Definition getState (self : string) (ctx : Context) : M (option string) :=
  let* this := this_menu self in
  let* slot := the_slot ctx (id this) in
  match initStateFn this with
  | None =>
      if falsy (state slot) then ret None else ret (Some (id this))
  | Some initState =>
      if falsy (state slot) then
        let* v := await_outcome initState in
        let* _ := set_slot_state ctx (id this) v in
        ret (Some (id this))
      else ret (Some (id this))
  end.

(** [if (state) (ctx as any).menu.state = state] *)
Definition install_if (state : option string) : M unit :=
  match state with
  | Some owner => install_state (Some owner)
  | None => ret tt
  end.

(** What [buildLayout] returns. *)
Record Rendered := mkRendered {
  rendered_text : string;
  rendered_keyboard : Keyboard;
  rendered_parseMode : option string
}.

(** [buildLayout] *)
Definition buildLayout (self : string) (ctx : Context) (args : value)
    : M Rendered :=
  let* _ := initContext self ctx in
  let* state := getState self ctx in
  let* _ := install_if state in
  let* this := this_menu self in
  let* _ := match onEnterFn this with
            | Some onEnter => await_user ctx (onEnter ctx)
            | None => ret tt
            end in
  let* loaded := race (timeout_text this) (timeout_ms this)
                   (let* _ := emit (ev_loader self args) in
                    await_user ctx (loaderFn this ctx args)) in
  let* built := build (builder this) ctx (loaded_data loaded) in
  let* _ := set_dynamic self (chat_key ctx)
              (by_action (dynamicHandlers built)) in
  let* ms := the_menu_session ctx "activeMenuLoaderArgs" in
  let* _ := put_menu_session ctx
              (mkMenuSession (activeMessageId ms) args
                             (loaded_data loaded) (slots ms)) in
  ret (mkRendered (text loaded) (keyboard built) (parseMode loaded)).

(** [render] *)
Definition render (self : string) (ctx : Context) (args : value) : M unit :=
  let* r := buildLayout self ctx args in
  call_editMessageText ctx (rendered_text r)
    (mkOther (rendered_parseMode r) (rendered_keyboard r)).

(** The [try] block of [send]. *)
Definition send_try (self : string) (ctx : Context) (args : value) : M unit :=
  let* r := buildLayout self ctx args in
  let* message_id :=
    call_reply ctx (Some (rendered_text r))
      (Some (mkOther (rendered_parseMode r) (rendered_keyboard r))) in
  let* ms := the_menu_session ctx "activeMessageId" in
  put_menu_session ctx
    (mkMenuSession (Some message_id) (activeMenuLoaderArgs ms)
                   (activeMenuLoaderData ms) (slots ms)).

(** [send]; [args] is [args[0]]. *)
Definition send (self : string) (ctx : Context) (args : value) : M unit :=
  try_catch (send_try self ctx args)
    (λ error,
       let* _ := call_reply ctx (message error) None in
       ret tt).

(** The argument [refresh] hands to [render]. *)
Definition refresh_args (sessionArgs args : value) : value :=
  if is_object sessionArgs
  then spread2 sessionArgs (coalesce args (VObj ∅))
  else coalesce args sessionArgs.

(** [MenuCallbackActions] *)
Record MenuCallbackActions := mkActions {
  navigate : string → value → M unit;
  refresh : value → M unit
}.

(** [getCallbackActions] *)
Definition getCallbackActions (self : string) (ctx : Context)
    : MenuCallbackActions :=
  mkActions
    (λ menu args, render menu ctx args)
    (λ args,
       let* ms := the_menu_session ctx "activeMenuLoaderArgs" in
       let sessionArgs := activeMenuLoaderArgs ms in
       render self ctx (refresh_args sessionArgs args)).

(** Running the body of a callback handler against [ctx.menu]. *)
Fixpoint run_callback (actions : MenuCallbackActions) (ctx : Context)
    (p : Prog) {struct p} : M unit :=
  match p with
  | p_return => ret tt
  | p_throw e => throw e
  | p_pending => hang
  | p_state update k =>
      λ w, let st := visible_state ctx w in
           run_callback actions ctx (k st) (store_state ctx (update st) w)
  | p_navigate menu args k =>
      let* r := attempt (navigate actions menu args) in
      run_callback actions ctx (k r)
  | p_refresh args k =>
      let* r := attempt (refresh actions args) in
      run_callback actions ctx (k r)
  end.

(** How the middleware leaves: by [return next()] or by a plain return. *)
Inductive Left := via_next | returned.

(** [ctx.callbackQuery?.data ?? ""] *)
Definition pressed (ctx : Context) : string :=
  default "" (callbackQuery ctx ≫= data).

(** [this.staticActionHandlersByAction.get(q) ??
     this.dynamicActionHandlersByActionByChatId.get(key)?.get(q)] *)
Definition lookup_handler (this : Menu) (ctx : Context)
    : option ActionHandler :=
  match staticActionHandlersByAction this !! pressed ctx with
  | Some h => Some h
  | None =>
      dynamicActionHandlersByActionByChatId this !! chat_key ctx
        ≫= (λ map, map !! pressed ctx)
  end.

(** [ctx.callbackQuery?.message?.message_id !==
     ctx.session._menu?.activeMessageId] *)
Definition stale (ctx : Context) (w : World) : bool :=
  bool_decide (callbackQuery ctx ≫= message_id
               ≠ _menu (session_of ctx w) ≫= activeMessageId).

(** The statements of the [try] block that come before the handler is
    called; the value is the handler's second argument. *)
Definition enter_callback (self : string) (ctx : Context) : M value :=
  let* _ := install_state None in
  let* state := getState self ctx in
  let* _ := install_if state in
  let* ms := the_menu_session ctx "activeMenuLoaderData" in
  ret (activeMenuLoaderData ms).

(** The [try] block. *)
Definition try_block (self : string) (this : Menu) (ctx : Context)
    (act : Action) (actionHandler : ActionHandler) : M Left :=
  let* _ :=
    match act, callbackFn actionHandler with
    | callback, Some callbackFn =>
        let actions := getCallbackActions self ctx in
        let* data := enter_callback self ctx in
        race (timeout_text this) (timeout_ms this)
          (let* _ := emit (ev_callback (action actionHandler) data) in
           run_callback actions ctx (callbackFn ctx data))
    | _, None => ret tt
    end in
  let* _ := swallow (call_answerCallbackQuery ctx None) in
  ret returned.

(** The [catch] block. *)
Definition catch_block (ctx : Context) (error : Error) : M Left :=
  let* _ := swallow (call_answerCallbackQuery ctx
              (Some (mkAnswer (default "Unknown error" (message error))
                              true))) in
  throw error.

(** [middleware] *)
Definition middleware (self : string) (ctx : Context) : M Left :=
  let* this := this_menu self in
  let actionHandler := lookup_handler this ctx in
  let parsed := parseAction (default "" (action <$> actionHandler)) in
  match parsed ≫= Codec.action, actionHandler with
  | Some act, Some actionHandler =>
      if bool_decide (sourceId <$> parsed ≠ Some (id this)) then ret via_next
      else
        λ w,
        if stale ctx w then
          (let* _ := swallow (call_answerCallbackQuery ctx
                                (Some (mkAnswer (stale_text this) true))) in
           ret returned) w
        else
          try_catch (try_block self this ctx act actionHandler)
                    (catch_block ctx) w
  | _, _ => ret via_next
  end.

End Controller.

Import Controller.

(** ** Vocabulary of the statements *)

Module Props.

(** What the codec relies on in an identifier drawn by [nanoid(6)] (six
    characters out of [A-Za-z0-9_-]): it is not empty and holds no
    delimiter. *)
Definition well_formed_id (s : string) : Prop := s ≠ "" ∧ no_colon s.

Global Instance well_formed_id_dec s : Decision (well_formed_id s).
Proof. unfold well_formed_id. apply _. Defined.

(** The steps a builder for menu [menuId] can hold: each one pushed by one
    of the five builder methods, the generators of dynamic steps filling
    their nested builders in the same way. *)
Inductive built_by (menuId : string) : BuildStep → Prop :=
| by_callback text targetId callbackFn :
    well_formed_id targetId →
    built_by menuId (callback_step menuId text targetId callbackFn)
| by_copy text content :
    built_by menuId (static_step [a_button (copy_text_button text content)] None)
| by_url text url :
    built_by menuId (static_step [a_button (url_button text url)] None)
| by_row :
    built_by menuId (static_step [an_array []] None)
| by_dynamic dynamicFn :
    (∀ ctx data st st' nested,
       dynamicFn ctx data st = (st', Resolved nested) →
       Forall (built_by menuId) nested) →
    built_by menuId (dynamic_step dynamicFn).

(** A token that decodes to a recognised action of menu [menuId]. *)
Definition decodes_to (menuId token : string) : Prop :=
  ∃ targetId, parseAction token = Some (mkParsed (Some callback) menuId targetId).

(** [ctx.session._menu?.activeMessageId] of the session kept under [key]. *)
Definition active_of (key : string) (w : World) : option Z :=
  _menu (default initial_session (sessions w !! key)) ≫= activeMessageId.

(** The static map, and the dynamic map for a chat, of the menu [self]. *)
Definition static_of (self : string) (w : World)
    : option (gmap string ActionHandler) :=
  staticActionHandlersByAction <$> menus w !! self.

Definition dynamic_of (self key : string) (w : World)
    : option (gmap string ActionHandler) :=
  menus w !! self ≫= (λ this, dynamicActionHandlersByActionByChatId this !! key).

Definition is_reply (ev : Event) : bool :=
  match ev with ev_reply _ _ => true | _ => false end.

(** What a race against the timer throws at the one awaiting it, when
    its first argument has ended as [r] by the time the race is settled:
    the error of [r] or, when [r] is unsettled, the timer's. *)
Definition thrown (timeoutText : string) (r : Res unit) : option Error :=
  match r with
  | Ok _ => None
  | Throw e => Some e
  | Hang => Some (new_Error timeoutText)
  end.

(** A relation between the world before and the world after that every
    step of a run keeps, whichever way the run ends. *)
Definition keeps {A} (R : World → World → Prop) (m : M A) : Prop :=
  ∀ w, R w (snd (m w)).

(** A button whose token, if it has one, decodes to menu [menuId]. *)
Definition button_ok (menuId : string) (b : InlineKeyboardButton) : Prop :=
  match b with
  | text_button _ callback_data => decodes_to menuId callback_data
  | _ => True
  end.

(** A build result all of whose tokens decode to menu [menuId]. *)
Definition tokens_ok (menuId : string) (r : BuildResult) : Prop :=
  Forall (λ h, decodes_to menuId (action h))
         (staticHandlers r ++ dynamicHandlers r)
  ∧ Forall (Forall (button_ok menuId)) (keyboard r).

(** The handler of a step, as [prepare] picks it. *)
Definition handler_of (step : BuildStep) : option ActionHandler :=
  match step with
  | static_step _ handler => handler
  | dynamic_step _ => None
  end.

(** Relations between the world before and after: the active message of
    every session is the same; the static map of every menu is the same;
    neither a menu object nor the list of events changed. *)
Definition same_active (w w' : World) : Prop :=
  ∀ key, active_of key w' = active_of key w.

Definition same_static (w w' : World) : Prop :=
  ∀ self, static_of self w' = static_of self w.

Definition quiet (w w' : World) : Prop :=
  menus w' = menus w ∧ log w' = log w.

(** The menu objects are the same; and the session of [ctx], once it has
    its [_menu], still has it. *)
Definition same_menus (w w' : World) : Prop := menus w' = menus w.

Definition scaffold_stays (ctx : Context) (w w' : World) : Prop :=
  menus w' = menus w
  ∧ (is_Some (_menu (session_of ctx w)) → is_Some (_menu (session_of ctx w'))).

(** A run that neither reads nor sets the clock and the timer. *)
Definition untimed {A} (m : M A) : Prop :=
  ∀ t d w, m (with_timers t d w) = (fst (m w), with_timers t d (snd (m w))).

(** What the bot does with its menus, one thing after another. *)
Inductive Operation :=
| op_navigate (self : string) (ctx : Context) (args : value)
| op_interaction (self : string) (ctx : Context)
| op_send (self : string) (ctx : Context) (args : value).

Definition perform (w : World) (op : Operation) : World :=
  match op with
  | op_navigate self ctx args => snd (render self ctx args w)
  | op_interaction self ctx => snd (middleware self ctx w)
  | op_send self ctx args => snd (send self ctx args w)
  end.

Definition is_send (op : Operation) : bool :=
  match op with op_send _ _ _ => true | _ => false end.

(** The statements of [buildLayout] that come before the loader is
    called; the value is [this]. *)
Definition before_loader (self : string) (ctx : Context) : M Menu :=
  let* _ := initContext self ctx in
  let* state := getState self ctx in
  let* _ := install_if state in
  let* this := this_menu self in
  let* _ := match onEnterFn this with
            | Some onEnter => await_user ctx (onEnter ctx)
            | None => ret tt
            end in
  ret this.

End Props.

Import Props.

(** ** A small bot, for evaluating the definitions *)

Module Example.

(** A host whose Bot API calls all succeed; a sent message gets the number
    of events so far as its identifier. *)
Definition ctx_of (chat : option Z) (key : string)
    (query : option CallbackQuery) : Context :=
  mkContext chat query key
    (λ history _ _, inr (Z.of_nat (length history)))
    (λ _ _ _, inr tt)
    (λ _ _, inr tt).

(** The update of a command in chat 42, and of a button press there. *)
Definition ctx_command : Context := ctx_of (Some 42%Z) "42" None.

(** An update that belongs to no chat. *)
Definition ctx_anon : Context := ctx_of None "anon" None.

Definition ctx_press (token : string) (message : Z) : Context :=
  ctx_of (Some 42%Z) "42" (Some (mkCallbackQuery (Some token) (Some message))).

(** A host on which sending a message always fails. *)
Definition ctx_offline : Context :=
  mkContext (Some 42%Z) None "42"
    (λ _ _ _, inl (new_Error "network down"))
    (λ _ _ _, inl (new_Error "network down"))
    (λ _ _, inl (new_Error "network down")).

Definition reset_true : value := VObj {["resetCount" := VBool true]}.

Definition previous_args : value :=
  VObj (<["resetCount" := VBool false]> {["other" := VStr "x"]}).

Definition merged_args : value :=
  VObj (<["resetCount" := VBool true]> {["other" := VStr "x"]}).

(** Handlers: one navigates to the slow menu and lets its failure through,
    one refreshes with an override, one throws. *)
Definition go_slow : MenuCallbackFn :=
  λ _ _, p_navigate "slow00" VUndefined
           (λ r, match r with Some e => p_throw e | None => p_return end).

Definition do_refresh : MenuCallbackFn :=
  λ _ _, p_refresh reset_true
           (λ r, match r with Some e => p_throw e | None => p_return end).

Definition do_throw : MenuCallbackFn :=
  λ _ _, p_throw (new_Error "boom").

(** A generator that adds two buttons and no row break. *)
Definition two_buttons : MenuDynamicFn :=
  λ _ _ st,
    (st, Resolved [callback_step "main00" "X" "xxxxxx" (Some do_refresh);
                   callback_step "main00" "Y" "yyyyyy" (Some do_throw)]).

(** A generator that adds a button, a row break and a dynamic section of
    its own. *)
Definition nested_section : MenuDynamicFn :=
  λ _ _ st,
    (st, Resolved [callback_step "main00" "N" "nnnnnn" None;
                   static_step [an_array []] None;
                   dynamic_step two_buttons]).

Definition main_layout (b : LayoutBuilder) : LayoutBuilder :=
  Builder.dynamic two_buttons
    (Builder.callback "A" (Some go_slow) "aaaaaa" b).

(** The loader shows its arguments as data. *)
Definition main_menu : Menu :=
  createMenu (λ _ args st, (st, Resolved (mkLoaded "main" args None)))
             None main_layout None None "main00".

(** A menu whose loader never settles. *)
Definition slow_menu : Menu :=
  createMenu (λ _ _ st, (st, Pending)) None (λ b, b) None None "slow00".

Definition world0 : World :=
  mkWorld (<["main00" := main_menu]> {["slow00" := slow_menu]}) ∅ None []
          0 None.

(** The world after [main_menu.send(ctx, previous_args)]. *)
Definition world1 : World := snd (send "main00" ctx_command previous_args world0).

Definition main_keyboard : Keyboard :=
  [[text_button "A" "eijdfwof:main00:call:aaaaaa";
    text_button "X" "eijdfwof:main00:call:xxxxxx";
    text_button "Y" "eijdfwof:main00:call:yyyyyy"]].

End Example.

(** ** Vocabulary of the further statements *)

Module Shape.

(** The instance id as the template of [buildAction] sees it: an empty
    one is as good as none. *)
Definition effective (targetId : option string) : option string :=
  if truthy targetId then targetId else None.

(** The buttons an element of [buttons] stands for, in order. *)
Definition item_buttons (item : ButtonItem) : list InlineKeyboardButton :=
  match item with
  | a_button b => [b]
  | an_array row => row
  end.

(** A step with [scope: "static"]. *)
Definition is_static (step : BuildStep) : Prop :=
  match step with
  | static_step _ _ => True
  | dynamic_step _ => False
  end.

Global Instance is_static_dec step : Decision (is_static step).
Proof. destruct step; simpl; apply _. Defined.

(** The buttons a static step declares. *)
Definition step_buttons (step : BuildStep) : list InlineKeyboardButton :=
  match step with
  | static_step buttons _ => buttons ≫= item_buttons
  | dynamic_step _ => []
  end.

(** The button of a step that [callback], [copy] or [url] pushed. *)
Definition single_button (step : BuildStep) : option InlineKeyboardButton :=
  match step with
  | static_step [a_button b] _ => Some b
  | _ => None
  end.

(** A button that a step declares, itself or through what a generator of
    it, or of a section nested in it, can leave in its builder. *)
Inductive offers : BuildStep → InlineKeyboardButton → Prop :=
| offers_static buttons handler b :
    b ∈ buttons ≫= item_buttons →
    offers (static_step buttons handler) b
| offers_dynamic dynamicFn ctx data st st' nested step b :
    dynamicFn ctx data st = (st', Resolved nested) →
    step ∈ nested →
    offers step b →
    offers (dynamic_step dynamicFn) b.

(** One build result above another: the rows of the second under the rows
    of the first, its handlers after the handlers of the first. *)
Definition stack (above below : BuildResult) : BuildResult :=
  mkBuild (keyboard above ++ keyboard below)
          (staticHandlers above ++ staticHandlers below)
          (dynamicHandlers above ++ dynamicHandlers below).

(** A build result continued by another: the first row of the second goes
    on the last row of the first, as in the splice of a dynamic step. *)
Definition joined (above below : BuildResult) : BuildResult :=
  mkBuild (splice (keyboard above) (keyboard below))
          (staticHandlers above ++ staticHandlers below)
          (dynamicHandlers above ++ dynamicHandlers below).

(** The tokens on the buttons of a keyboard. *)
Definition button_token (b : InlineKeyboardButton) : option string :=
  match b with
  | text_button _ callback_data => Some callback_data
  | _ => None
  end.

Definition keyboard_tokens (keyboard : Keyboard) : list string :=
  omap button_token (concat keyboard).

(** A build result each of whose button tokens is the token of one of
    its handlers. *)
Definition covered (r : BuildResult) : Prop :=
  ∀ token,
    token ∈ keyboard_tokens (keyboard r) →
    token ∈ action <$> (staticHandlers r ++ dynamicHandlers r).

End Shape.

(** ** Menu objects as the constructor and the renders leave them *)

Module Sound.

(** A menu object whose identifier is well formed, whose layout was made
    with the builder's methods, whose static map is the one the constructor
    made of [prepare]'s handlers, and whose per-chat maps hold each handler
    under its own token, a token of this menu. *)
Definition sound_menu (this : Menu) : Prop :=
  well_formed_id (id this)
  ∧ Forall (built_by (id this)) (steps (builder this))
  ∧ staticActionHandlersByAction this
    = by_action (Builder.prepare (builder this))
  ∧ ∀ key map token h,
      dynamicActionHandlersByActionByChatId this !! key = Some map →
      map !! token = Some h →
      action h = token ∧ decodes_to (id this) token.

(** A world all of whose menu objects are such. *)
Definition sound (w : World) : Prop :=
  ∀ self this, menus w !! self = Some this → sound_menu this.

(** Going from [w] to [w'] keeps the world sound. *)
Definition keeps_sound (w w' : World) : Prop := sound w → sound w'.

(** A menu object as the constructor leaves it: every field but the
    per-chat maps, which start empty. *)
Definition as_constructed (this : Menu) : Menu :=
  mkMenu (id this) (loaderFn this) (initStateFn this) (onEnterFn this)
         (staticActionHandlersByAction this) ∅ (builder this) (options this).

(** From [w] to [w'] no menu object came or went, and each one is as it
    was but for its per-chat maps. *)
Definition same_objects (w w' : World) : Prop :=
  ∀ self, as_constructed <$> menus w' !! self
          = as_constructed <$> menus w !! self.

(** [ctx.session._menu?.[id]?.state]: the state object the session holds
    for menu [id], [undefined] when it holds none. *)
Definition state_of (id : string) (ctx : Context) (w : World) : value :=
  match _menu (session_of ctx w) with
  | Some ms =>
      match slots ms !! id with
      | Some slot => state slot
      | None => VUndefined
      end
  | None => VUndefined
  end.

(** The first two statements of [buildLayout]. *)
Definition resolve_state (self : string) (ctx : Context) : M (option string) :=
  let* _ := initContext self ctx in
  getState self ctx.

End Sound.

(** ** [createMenuFactory] *)

Module Factory.

(** A property in an object literal: not there, there with the value
    [undefined], or there with a value. A spread copies a property that is
    there, whatever its value. *)
Inductive Field (A : Type) :=
| absent
| undefined
| given (a : A).
Global Arguments absent {A}.
Global Arguments undefined {A}.
Global Arguments given {A} a.

(** An object of type [MenuOptions] as the caller writes it. *)
Record OptionsObject := mkOptionsObject {
  staleErrorText_field : Field string;
  timeoutErrorText_field : Field string;
  timeoutMs_field : Field Z
}.

(** [{}] *)
Definition empty_object : OptionsObject := mkOptionsObject absent absent absent.

(** One property of [{ ...a, ...b }]. *)
Definition spread_field {A} (a b : Field A) : Field A :=
  match b with
  | absent => a
  | _ => b
  end.

(** [{ ...a, ...b }] *)
Definition spread_options (a b : OptionsObject) : OptionsObject :=
  mkOptionsObject
    (spread_field (staleErrorText_field a) (staleErrorText_field b))
    (spread_field (timeoutErrorText_field a) (timeoutErrorText_field b))
    (spread_field (timeoutMs_field a) (timeoutMs_field b)).

(** What [o.x ?? d] gets from a property. *)
Definition read_field {A} (f : Field A) : option A :=
  match f with
  | given a => Some a
  | _ => None
  end.

(** The object as [Menu] reads it, which is only ever by [?.x ?? d]. *)
Definition as_read (o : OptionsObject) : MenuOptions :=
  mkOptions (read_field (staleErrorText_field o))
            (read_field (timeoutErrorText_field o))
            (read_field (timeoutMs_field o)).

(** [createMenuFactory(defaultOptions)(data)] *)
Definition createMenuFactory (defaultOptions : option OptionsObject)
    (loader : LoaderFn) (onEnter : option (Context → UserFn unit))
    (layout : LayoutBuilder → LayoutBuilder)
    (state : option (Outcome value)) (options : option OptionsObject)
    (id : string) : Menu :=
  createMenu loader onEnter layout state
    (Some (as_read (spread_options (default empty_object defaultOptions)
                                   (default empty_object options))))
    id.

(** The older [createMenuFactory]: [mergedOptions] is
    [defaultOptions || data.options ? { ...(defaultOptions ?? {}),
    ...(data.options ?? {}) } : undefined]. Its menus have no [onEnter]. *)
Definition createMenuFactory_older (defaultOptions : option OptionsObject)
    (loader : LoaderFn) (layout : LayoutBuilder → LayoutBuilder)
    (initState : option (Outcome value)) (options : option OptionsObject)
    (id : string) : Menu :=
  let mergedOptions :=
    match defaultOptions, options with
    | None, None => None
    | _, _ =>
        Some (as_read (spread_options (default empty_object defaultOptions)
                                      (default empty_object options)))
    end in
  createMenu loader None layout initState mergedOptions id.

(** The value of an option: the menu's own if it gives one; the built-in
    default if its own is there but [undefined]; else the factory's if it
    gives one; else the built-in default. *)
Definition resolved {A} (own factory : Field A) (builtin : A) : A :=
  match own with
  | given a => a
  | undefined => builtin
  | absent =>
      match factory with
      | given a => a
      | _ => builtin
      end
  end.

(** A property of an options object that may not be given at all. *)
Definition field_of {A} (o : option OptionsObject)
    (field : OptionsObject → Field A) : Field A :=
  match o with
  | Some o => field o
  | None => absent
  end.

End Factory.

(** ** The state accessor *)

Module Accessor.

Section Engine.

(** [o[key]] and [o[key] = v] as the engine evaluates them on the value of
    [ctx.session._menu[id].state]; the second returns the object as the
    write leaves it. *)
Variable get_property : value → string → Error + value.
Variable set_property : value → string → value → Error + value.

(** [get: (key) => ctx.session._menu[this.id].state[key]] *)
Definition get (id : string) (ctx : Context) (key : string) : M value :=
  let* slot := the_slot ctx id in
  settle (get_property (state slot) key).

(** [set: (key, value) => ...]; [value] is a function or it is not. The
    state object is the one the session holds when [set] is called; a
    function is called on what that object holds under [key], and what it
    returns is written; an error of the read, of the function or of the
    write is thrown on. *)
Definition set (id : string) (ctx : Context) (key : string)
    (value : JS.value + (JS.value → Error + JS.value)) : M unit :=
  match value with
  | inr updater =>
      let* slot := the_slot ctx id in
      let* previous := settle (get_property (state slot) key) in
      let* next := settle (updater previous) in
      let* written := settle (set_property (state slot) key next) in
      set_slot_state ctx id written
  | inl v =>
      let* slot := the_slot ctx id in
      let* written := settle (set_property (state slot) key v) in
      set_slot_state ctx id written
  end.

End Engine.

(** [reset: async () => { ctx.session._menu[this.id].state =
     await Promise.resolve(this.initStateFn?.()) }]: [ctx.session._menu] is
    read before the initialiser is awaited, the entry is written after. *)
Definition reset (self : string) (ctx : Context) : M unit :=
  let* this := this_menu self in
  let* _ := the_menu_session ctx (id this) in
  let* v := match initStateFn this with
            | Some initState => await_outcome initState
            | None => ret VUndefined
            end in
  set_slot_state ctx (id this) v.

(** The older [reset: () => delete ctx.session._menu[this.id].state]: the
    entry is left without its [state] property. *)
Definition reset_older (id : string) (ctx : Context) : M unit :=
  set_slot_state ctx id VUndefined.

(** The engine on a plain object: reading a property it has, and writing
    a property other than [__proto__]. *)
Definition reads_own (get_property : value → string → Error + value) : Prop :=
  ∀ props key v,
    props !! key = Some v → get_property (VObj props) key = inr v.

Definition writes_own
    (set_property : value → string → value → Error + value) : Prop :=
  ∀ props key v,
    key ≠ "__proto__" →
    set_property (VObj props) key v = inr (VObj (<[key := v]> props)).

(** An engine for the examples, which only use plain objects. *)
Definition plain_get (o : value) (key : string) : Error + value :=
  match o with
  | VObj props => inr (default VUndefined (props !! key))
  | _ => inl (TypeError key)
  end.

Definition plain_set (o : value) (key : string) (v : value) : Error + value :=
  match o with
  | VObj props => inr (VObj (<[key := v]> props))
  | _ => inl (TypeError key)
  end.

End Accessor.

(** ** A second small bot: a menu with a state *)

Module Sample.

Definition initial_count : value := VObj {["count" := VNum 0]}.

(** A handler that adds one to the count through the accessor. *)
Definition increment : MenuCallbackFn :=
  λ _ _,
    p_state (λ st, match st with
                   | VObj props =>
                       match props !! "count" with
                       | Some (VNum n) => VObj (<["count" := VNum (n + 1)]> props)
                       | _ => st
                       end
                   | _ => st
                   end)
            (λ _, p_return).

(** The layout: a button that increments, and a button without a handler
    function. *)
Definition counter_layout (b : LayoutBuilder) : LayoutBuilder :=
  Builder.callback "noop" None "noop00"
    (Builder.callback "+" (Some increment) "incr00" b).

(** The loader shows the state it sees as data. *)
Definition counter_menu : Menu :=
  createMenu (λ _ _ st, (st, Resolved (mkLoaded "count" st None)))
             None counter_layout (Some (Resolved initial_count)) None "count0".

Definition world : World :=
  mkWorld {["count0" := counter_menu]} ∅ None [] 0 None.

(** The world after [counter_menu.send(ctx)]. *)
Definition world_sent : World :=
  snd (send "count0" Example.ctx_command VUndefined world).

(** A press on a button of an inline message: no [message] comes with it. *)
Definition ctx_inline (token : string) : Context :=
  Example.ctx_of (Some 42%Z) "42" (Some (mkCallbackQuery (Some token) None)).

End Sample.

(** ** A third small bot: menus with timers of their own *)

Module Timers.

(** Two menus whose loaders never settle, with timers of five seconds and
    of one second. *)
Definition inner_menu : Menu :=
  createMenu (λ _ _ st, (st, Pending)) None (λ b, b) None
    (Some (mkOptions None (Some "inner too slow") (Some 5000%Z))) "inner0".

Definition brisk_menu : Menu :=
  createMenu (λ _ _ st, (st, Pending)) None (λ b, b) None
    (Some (mkOptions None (Some "brisk too slow") (Some 1000%Z))) "brisk0".

(** Handlers: one awaits [navigate] and lets its failure through, one
    awaits it in a [try] and returns whatever happened. *)
Definition go (menu : string) : MenuCallbackFn :=
  λ _ _, p_navigate menu VUndefined
           (λ r, match r with Some e => p_throw e | None => p_return end).

Definition try_go (menu : string) : MenuCallbackFn :=
  λ _ _, p_navigate menu VUndefined (λ _, p_return).

Definition outer_layout (b : LayoutBuilder) : LayoutBuilder :=
  Builder.callback "try brisk" (Some (try_go "brisk0")) "trybrk"
    (Builder.callback "try inner" (Some (try_go "inner0")) "tryinn"
       (Builder.callback "brisk" (Some (go "brisk0")) "gobrsk"
          (Builder.callback "inner" (Some (go "inner0")) "goinnr" b))).

(** The menu the handlers belong to; its timer is set for three seconds. *)
Definition outer_menu : Menu :=
  createMenu (λ _ _ st, (st, Resolved (mkLoaded "outer" VUndefined None)))
             None outer_layout None
             (Some (mkOptions None (Some "outer too slow") (Some 3000%Z)))
             "outer0".

(** Menus that wait for ever before their loader is called or after it
    has answered: for the state initialiser, for [onEnter], for a dynamic
    section. *)
Definition answers : LoaderFn :=
  λ _ _ st, (st, Resolved (mkLoaded "stuck" VUndefined None)).

Definition stuck_state_menu : Menu :=
  createMenu answers None (λ b, b) (Some Pending) None "stuck0".

Definition stuck_enter_menu : Menu :=
  createMenu answers (Some (λ _ st, (st, Pending))) (λ b, b) None None
             "stuck1".

Definition stuck_section_menu : Menu :=
  createMenu answers None (Builder.dynamic (λ _ _ st, (st, Pending))) None
             None "stuck2".

Definition world : World :=
  mkWorld (<["outer0" := outer_menu]>
          (<["inner0" := inner_menu]>
          (<["brisk0" := brisk_menu]>
          (<["stuck0" := stuck_state_menu]>
          (<["stuck1" := stuck_enter_menu]>
          {["stuck2" := stuck_section_menu]})))))
          ∅ None [] 0 None.

(** The world after [outer_menu.send(ctx)]. *)
Definition world_sent : World :=
  snd (send "outer0" Example.ctx_command VUndefined world).

End Timers.

(** ** A fourth small bot: a menu that lists what it is asked for *)

Module Listing.

Definition open_item : MenuCallbackFn := λ _ _, p_return.

(** The instance id of the one button: the loader's data, when it is a
    string. *)
Definition item_of (data : value) : string :=
  match data with
  | VStr s => s
  | _ => "none00"
  end.

Definition items : MenuDynamicFn :=
  λ _ data st,
    (st, Resolved [callback_step "list00" "item" (item_of data)
                                 (Some open_item)]).

(** The loader shows its arguments as data; asked to "wait", it never
    settles. *)
Definition list_loader : LoaderFn :=
  λ _ args st,
    (st, match args with
         | VStr "wait" => Pending
         | _ => Resolved (mkLoaded "list" args None)
         end).

Definition list_menu : Menu :=
  createMenu list_loader None (Builder.dynamic items) None None "list00".

Definition world : World :=
  mkWorld {["list00" := list_menu]} ∅ None [] 0 None.

(** The world after [list_menu.send(ctx, "first1")], and the token on the
    button of that message. *)
Definition world_first : World :=
  snd (send "list00" Example.ctx_command (VStr "first1") world).

Definition first_token : string := "eijdfwof:list00:call:first1".

End Listing.

(** * Properties *)

(** ** The codec *)

Section CodecFacts.

Lemma split_not_nil s : split s ≠ [].
Proof.
  destruct s as [|c s]; cbn [split]; [discriminate|].
  case_decide; [discriminate|].
  destruct (split s); discriminate.
Qed.

Lemma split_no_colon s : no_colon s → split s = [s].
Proof.
  induction s as [|c s IH]; cbn [split no_colon]; [done|].
  intros [Hc Hs]. case_decide; [done|].
  by rewrite (IH Hs).
Qed.

Lemma append_nil (s : string) : "" +:+ s = s.
Proof. reflexivity. Qed.

Lemma append_cons c (a b : string) : String c a +:+ b = String c (a +:+ b).
Proof. reflexivity. Qed.

Lemma split_app s rest :
  no_colon s → split (s +:+ String colon rest) = s :: split rest.
Proof.
  induction s as [|c s IH].
  - intros _. rewrite append_nil. cbn [split]. by case_decide.
  - intros [Hc Hs]. rewrite append_cons. cbn [split].
    case_decide; [done|]. by rewrite (IH Hs).
Qed.

(** Every component is free of the delimiter, and joining the components
    with the delimiter gives the string back. *)
Lemma split_inv s :
  match split s with
  | [] => False
  | [a] => s = a ∧ no_colon a
  | a :: b :: tl =>
      ∃ s', s = a +:+ String colon s' ∧ split s' = b :: tl ∧ no_colon a
  end.
Proof.
  induction s as [|c s IH]; cbn [split]; [done|].
  case_decide as Hc.
  - subst c. pose proof (split_not_nil s) as Hne.
    destruct (split s) as [|b tl] eqn:E; [done|].
    exists s. rewrite E. by repeat split.
  - destruct (split s) as [|a [|b tl]] eqn:E; [done| |].
    + destruct IH as [-> Ha]. by repeat split.
    + destruct IH as (s' & -> & Hs' & Ha). exists s'. by repeat split.
Qed.

Lemma no_colon_prefix : no_colon MENU_PREFIX.
Proof. unfold MENU_PREFIX, colon; simpl. repeat split; discriminate. Qed.

Lemma no_colon_representation a : no_colon (representation a).
Proof. destruct a; unfold colon; simpl. repeat split; discriminate. Qed.

Lemma truthy_Some s : s ≠ "" → truthy (Some s) = true.
Proof. by destruct s. Qed.

Lemma truthy_inv o : truthy o = true → ∃ s, o = Some s ∧ s ≠ "".
Proof. destruct o as [[|c s]|]; try done. intros _. by eexists. Qed.

Lemma split_buildAction a s t :
  no_colon s →
  (∀ x, t = Some x → no_colon x) →
  split (buildAction a s t) =
    MENU_PREFIX :: s :: representation a ::
      (if truthy t then [default "" t] else []).
Proof.
  intros Hs Ht. unfold buildAction.
  change (split (MENU_PREFIX +:+ String colon
           (s +:+ String colon (representation a +:+
              (if truthy t then String colon (default "" t) else ""))))
    = MENU_PREFIX :: s :: representation a ::
        (if truthy t then [default "" t] else [])).
  rewrite split_app by apply no_colon_prefix.
  rewrite split_app by done.
  destruct (truthy t) eqn:E.
  - rewrite split_app by apply no_colon_representation.
    apply truthy_inv in E as (x & -> & _). simpl.
    by rewrite split_no_colon by by apply Ht.
  - replace (representation a +:+ "") with (representation a)
      by by destruct a.
    by rewrite split_no_colon by apply no_colon_representation.
Qed.

(** The owner and the action kind survive the round trip whatever the
    instance id is, as long as no field holds the delimiter. *)
Lemma parse_buildAction_owner s targetId :
  s ≠ "" → no_colon s → no_colon targetId →
  decodes_to s (buildAction callback s (Some targetId)).
Proof.
  intros Hne Hs Ht. unfold decodes_to, parseAction.
  rewrite split_buildAction; [|done|by intros x [= <-]].
  destruct s as [|c s]; [done|].
  destruct targetId; simpl; eauto.
Qed.

Lemma string_app_length (a b : string) :
  String.length (a +:+ b) = (String.length a + String.length b)%nat.
Proof. induction a; simpl; auto. Qed.

(** A token with an empty fourth field is never minted. *)
Lemma not_an_output a s t : buildAction a s t ≠ "eijdfwof:m:call:".
Proof.
  destruct a. unfold buildAction, MENU_PREFIX. simpl. intros H.
  injection H as H.
  destruct s as [|c1 [|c2 [|c3 s]]]; simpl in H.
  - discriminate.
  - injection H as -> H.
    destruct (truthy t) eqn:E; [|discriminate].
    apply truthy_inv in E as (x & -> & Hx). simpl in H.
    injection H as H. by destruct x.
  - injection H as -> -> H. discriminate.
  - injection H as -> -> -> H.
    apply (f_equal String.length) in H.
    rewrite string_app_length in H. simpl in H. lia.
Qed.

End CodecFacts.

(** Decoding an encoded token gives back what was encoded. *)
Lemma decode_encode a s t :
  s ≠ "" → no_colon s →
  (∀ x, t = Some x → x ≠ "" ∧ no_colon x) →
  parseAction (buildAction a s t) = Some (mkParsed (Some a) s t).
Proof.
  intros Hne Hs Ht. unfold parseAction.
  rewrite split_buildAction; [|done|by intros x [_ ?]%Ht].
  destruct s as [|c s]; [done|].
  destruct a. destruct t as [x|]; simpl.
  - destruct (Ht x eq_refl) as [Hx _]. by destruct x.
  - done.
Qed.

(** ** Running effects: inversion and unfolding *)

Section MonadFacts.

Context {A B : Type}.

Lemma bind_ok (m : M A) (k : A → M B) w a w1 :
  m w = (Ok a, w1) → bind m k w = k a w1.
Proof. unfold bind. by intros ->. Qed.

Lemma bind_throw (m : M A) (k : A → M B) w e w1 :
  m w = (Throw e, w1) → bind m k w = (Throw e, w1).
Proof. unfold bind. by intros ->. Qed.

Lemma bind_hang (m : M A) (k : A → M B) w w1 :
  m w = (Hang, w1) → bind m k w = (Hang, w1).
Proof. unfold bind. by intros ->. Qed.

Lemma bind_Ok_inv (m : M A) (k : A → M B) w b w' :
  bind m k w = (Ok b, w') →
  ∃ a w1, m w = (Ok a, w1) ∧ k a w1 = (Ok b, w').
Proof.
  unfold bind. destruct (m w) as [[a|e|] w1]; intros H; try done.
  by exists a, w1.
Qed.

Lemma await_then_Ok_inv ctx (f : UserFn A) (k : A → M B) w b w' :
  await_then ctx f k w = (Ok b, w') →
  ∃ st a, f (visible_state ctx w) = (st, Resolved a)
          ∧ k a (store_state ctx st w) = (Ok b, w').
Proof.
  unfold await_then.
  destruct (f (visible_state ctx w)) as [st [a|e|]]; intros H; try done.
  by exists st, a.
Qed.

Lemma await_then_resolved ctx (f : UserFn A) (k : A → M B) w st a :
  f (visible_state ctx w) = (st, Resolved a) →
  await_then ctx f k w = k a (store_state ctx st w).
Proof. unfold await_then. by intros ->. Qed.

Lemma bind_ret (a : A) (k : A → M B) w : bind (ret a) k w = k a w.
Proof. reflexivity. Qed.

End MonadFacts.

Lemma bind_emit {B} ev (k : unit → M B) w :
  bind (emit ev) k w = k tt (snd (emit ev w)).
Proof. reflexivity. Qed.

Lemma for_of_nil {A S} (body : A → S → M S) s : for_of body [] s = ret s.
Proof. reflexivity. Qed.

Lemma for_of_cons {A S} (body : A → S → M S) x l s :
  for_of body (x :: l) s = bind (body x s) (λ s', for_of body l s').
Proof. reflexivity. Qed.

Lemma build_step_static ctx data buttons handler acc :
  build_step ctx data (static_step buttons handler) acc =
    ret (mkBuild (foldl add_item (keyboard acc) buttons)
                 (staticHandlers acc ++ option_list handler)
                 (dynamicHandlers acc)).
Proof. reflexivity. Qed.

Ltac inv_bind H :=
  let a := fresh "a" in
  let w1 := fresh "w" in
  let H1 := fresh H in
  apply bind_Ok_inv in H as (a & w1 & H1 & H).

Tactic Notation "unbind" hyp(H) "as" ident(a) ident(w1) ident(H1) :=
  apply bind_Ok_inv in H as (a & w1 & H1 & H).

Ltac inv_ret H :=
  unfold ret in H; injection H as ? ?; subst.

Section Keeps.

Context (R : World → World → Prop) `{!Reflexive R, !Transitive R}.

Lemma keeps_ret {A} (a : A) : keeps R (ret a).
Proof. by intros w. Qed.

Lemma keeps_throw {A} e : keeps R (@throw A e).
Proof. by intros w. Qed.

Lemma keeps_hang {A} : keeps R (@hang A).
Proof. by intros w. Qed.

Lemma keeps_bind {A B} (m : M A) (k : A → M B) :
  keeps R m → (∀ a, keeps R (k a)) → keeps R (bind m k).
Proof.
  intros Hm Hk w. unfold bind. specialize (Hm w).
  destruct (m w) as [[a|e|] w1]; simpl in *; try done.
  etrans; [exact Hm|]. apply Hk.
Qed.

Lemma keeps_try_catch {A} (m : M A) h :
  keeps R m → (∀ e, keeps R (h e)) → keeps R (try_catch m h).
Proof.
  intros Hm Hh w. unfold try_catch. specialize (Hm w).
  destruct (m w) as [[a|e|] w1]; simpl in *; try done.
  etrans; [exact Hm|]. apply Hh.
Qed.

Lemma keeps_swallow m : keeps R m → keeps R (swallow m).
Proof. intros Hm. apply keeps_try_catch; [done|]. intros _. apply keeps_ret. Qed.

Lemma keeps_attempt m : keeps R m → keeps R (attempt m).
Proof.
  intros Hm. apply keeps_try_catch.
  - apply keeps_bind; [done|]. intros _. apply keeps_ret.
  - intros e. apply keeps_ret.
Qed.

Lemma keeps_race {A} text ms (m : M A) :
  (∀ t d w, R w (with_timers t d w)) →
  keeps R m → keeps R (race text ms m).
Proof.
  intros Ht Hm w. unfold race. destruct (fires_first ms w); [|apply Hm].
  specialize (Hm (racing ms w)).
  destruct (m (racing ms w)) as [r w1]. simpl in *.
  etrans; [apply (Ht (now w) (Some (expiry ms w)))|].
  etrans; [exact Hm|]. apply Ht.
Qed.

Lemma keeps_settle {A} (r : Error + A) : keeps R (settle r).
Proof. destruct r; [apply keeps_throw|apply keeps_ret]. Qed.

Lemma keeps_await_outcome {A} (o : Outcome A) : keeps R (await_outcome o).
Proof.
  destruct o; [apply keeps_ret|apply keeps_throw|apply keeps_hang].
Qed.

Lemma keeps_if {A} (b : World → bool) (m1 m2 : M A) :
  keeps R m1 → keeps R m2 → keeps R (λ w, if b w then m1 w else m2 w).
Proof. intros H1 H2 w. destruct (b w); [apply H1|apply H2]. Qed.

Lemma keeps_await_then {A B} ctx (f : UserFn A) (k : A → M B) :
  (∀ v w, R w (store_state ctx v w)) →
  (∀ a, keeps R (k a)) → keeps R (await_then ctx f k).
Proof.
  intros Hs Hk w. unfold await_then.
  destruct (f (visible_state ctx w)) as [st [a|e|]]; simpl; try apply Hs.
  etrans; [apply (Hs st)|]. apply Hk.
Qed.

Lemma keeps_for_of {A S} (body : A → S → M S) l :
  (∀ x, x ∈ l → ∀ s, keeps R (body x s)) →
  ∀ s, keeps R (for_of body l s).
Proof.
  induction l as [|x l IH]; intros Hb s; simpl.
  - apply keeps_ret.
  - apply keeps_bind.
    + apply Hb. by left.
    + intros s'. apply IH. intros y Hy. apply Hb. by right.
Qed.

End Keeps.

(** ** The clock and the timer *)

Section TimerFacts.

Lemma with_timers_same w : with_timers (now w) (due w) w = w.
Proof. by destruct w. Qed.

Lemma visible_state_timers ctx t d w :
  visible_state ctx (with_timers t d w) = visible_state ctx w.
Proof. reflexivity. Qed.

Lemma store_state_timers ctx v t d w :
  store_state ctx v (with_timers t d w) = with_timers t d (store_state ctx v w).
Proof.
  unfold store_state. simpl. destruct (ctx_menu_state w) as [owner|]; [|done].
  change (session_of ctx (with_timers t d w)) with (session_of ctx w).
  destruct (_menu (session_of ctx w)) as [ms|]; [|done].
  by destruct (slots ms !! owner).
Qed.

(** A run that is not timed leaves the clock and the timer as they are. *)
Lemma untimed_timers {A} (m : M A) w :
  untimed m → with_timers (now w) (due w) (snd (m w)) = snd (m w).
Proof.
  intros Hm. specialize (Hm (now w) (due w) w).
  rewrite with_timers_same in Hm. by rewrite Hm at 2.
Qed.

Lemma untimed_ret {A} (a : A) : untimed (ret a).
Proof. by intros t d w. Qed.

Lemma untimed_emit ev : untimed (emit ev).
Proof. by intros t d w. Qed.

Lemma untimed_bind {A B} (m : M A) (k : A → M B) :
  untimed m → (∀ a, untimed (k a)) → untimed (bind m k).
Proof.
  intros Hm Hk t d w. unfold bind. rewrite Hm.
  destruct (m w) as [[a|e|] w1]; simpl; try done. apply Hk.
Qed.

Lemma untimed_await_user {A} ctx (f : UserFn A) : untimed (await_user ctx f).
Proof.
  intros t d w. unfold await_user, await_then.
  rewrite visible_state_timers.
  destruct (f (visible_state ctx w)) as [st [a|e|]]; simpl;
    by rewrite store_state_timers.
Qed.

(** The first argument of the race in [buildLayout]. *)
Lemma untimed_loader {A} ev ctx (f : UserFn A) :
  untimed (let* _ := emit ev in await_user ctx f).
Proof.
  apply untimed_bind; [apply untimed_emit|].
  intros _. apply untimed_await_user.
Qed.

(** A race whose first argument is not timed: the timer matters only when
    that argument has not settled. *)
Lemma race_untimed {A} text ms (m : M A) w :
  untimed m →
  race text ms m w =
    match m w with
    | (Hang, w') =>
        if fires_first ms w
        then (Throw (new_Error text), with_timers (expiry ms w) (due w) w')
        else (Hang, w')
    | r => r
    end.
Proof.
  intros Hm. unfold race.
  destruct (fires_first ms w); [|by destruct (m w) as [[a|e|] w']].
  unfold racing. rewrite Hm.
  pose proof (untimed_timers m w Hm) as Hsame.
  destruct (m w) as [[a|e|] w']; unfold after_race; simpl in *;
    [by rewrite <- Hsame at 2..|done].
Qed.

Lemma race_Ok_inv {A} text ms (m : M A) w a w' :
  untimed m → race text ms m w = (Ok a, w') → m w = (Ok a, w').
Proof.
  intros Hm. rewrite race_untimed by done.
  destruct (m w) as [[?|?|] ?]; [done|done|]. by destruct (fires_first ms w).
Qed.

End TimerFacts.

(** ** The layout builder *)

Section LayoutFacts.

(** Induction over the steps a builder can hold, with the nested builders
    of dynamic steps as induction hypotheses. *)
Lemma built_by_induction (menuId : string) (P : BuildStep → Prop) :
  (∀ text targetId callbackFn,
     well_formed_id targetId →
     P (callback_step menuId text targetId callbackFn)) →
  (∀ text content,
     P (static_step [a_button (copy_text_button text content)] None)) →
  (∀ text url, P (static_step [a_button (url_button text url)] None)) →
  P (static_step [an_array []] None) →
  (∀ dynamicFn,
     (∀ ctx data st st' nested,
        dynamicFn ctx data st = (st', Resolved nested) → Forall P nested) →
     P (dynamic_step dynamicFn)) →
  ∀ step, built_by menuId step → P step.
Proof.
  intros Hcb Hcopy Hurl Hrow Hdyn.
  fix IH 2. intros step [text targetId fn Hid|text content|text url| |f Hf].
  - by apply Hcb.
  - apply Hcopy.
  - apply Hurl.
  - apply Hrow.
  - apply Hdyn. intros ctx data st st' nested Heq.
    specialize (Hf ctx data st st' nested Heq). clear Heq.
    induction Hf as [|x l Hx _ IHl].
    + constructor.
    + constructor; [by apply IH|done].
Qed.

Lemma Forall_push_last (Q : InlineKeyboardButton → Prop) row keyboard :
  Forall Q row → Forall (Forall Q) keyboard →
  Forall (Forall Q) (push_last row keyboard).
Proof.
  intros Hrow Hkb. unfold push_last. apply Forall_alter; [done|].
  intros last _ Hlast. by apply Forall_app.
Qed.

Lemma Forall_add_item (Q : InlineKeyboardButton → Prop) item keyboard :
  match item with a_button b => Q b | an_array row => Forall Q row end →
  Forall (Forall Q) keyboard →
  Forall (Forall Q) (add_item keyboard item).
Proof.
  destruct item as [b|row]; simpl; intros Hi Hkb.
  - apply Forall_push_last; [by constructor|done].
  - apply Forall_app. split; [done|by constructor].
Qed.

Lemma Forall_splice (Q : InlineKeyboardButton → Prop) keyboard dynamicKeyboard :
  Forall (Forall Q) keyboard → Forall (Forall Q) dynamicKeyboard →
  Forall (Forall Q) (splice keyboard dynamicKeyboard).
Proof.
  intros Hkb Hdyn. destruct dynamicKeyboard as [|row rest]; simpl; [done|].
  apply Forall_cons in Hdyn as [Hrow Hrest].
  apply Forall_app. split; [by apply Forall_push_last|done].
Qed.

Lemma tokens_ok_start menuId : tokens_ok menuId start.
Proof. split; simpl; repeat constructor. Qed.

Lemma tokens_ok_finish menuId acc :
  tokens_ok menuId acc → tokens_ok menuId (finish acc).
Proof.
  intros [Hh Hk]. split; simpl; [done|].
  rewrite Forall_forall in Hk. apply Forall_forall.
  intros row [_ Hrow]%list_elem_of_filter. by apply Hk.
Qed.

(** The loop keeps an invariant of the accumulator that each turn keeps. *)
Lemma for_of_invariant {A S} (I : S → Prop) (body : A → S → M S) l :
  (∀ x, x ∈ l → ∀ s w s' w', I s → body x s w = (Ok s', w') → I s') →
  ∀ s w s' w', I s → for_of body l s w = (Ok s', w') → I s'.
Proof.
  induction l as [|x l IH]; intros Hb s w s' w' Hs H; simpl in H.
  - inv_ret H. done.
  - inv_bind H. eapply IH; [|eapply Hb; [by left|exact Hs|exact H0]|exact H].
    intros y Hy. apply Hb. by right.
Qed.

(** Every token a build leaves in its result, on a button or in a handler,
    decodes to the builder's menu. *)
Lemma build_step_tokens menuId ctx data step :
  well_formed_id menuId →
  built_by menuId step →
  ∀ acc w r w',
    tokens_ok menuId acc →
    build_step ctx data step acc w = (Ok r, w') →
    tokens_ok menuId r.
Proof.
  intros [Hne Hnc] Hstep. revert step Hstep.
  apply (built_by_induction menuId
    (λ step, ∀ acc w r w', tokens_ok menuId acc →
       build_step ctx data step acc w = (Ok r, w') → tokens_ok menuId r)).
  - intros text targetId fn [_ Hid] acc w r w' [Hh Hk] H.
    simpl in H. inv_ret H. split; simpl.
    + rewrite <- (assoc_L (++)). rewrite (comm (++) _ (dynamicHandlers acc)).
      rewrite (assoc_L (++)). apply Forall_app. split; [done|].
      repeat constructor. simpl. by apply parse_buildAction_owner.
    + apply Forall_push_last; [|done].
      repeat constructor. simpl. by apply parse_buildAction_owner.
  - intros text content acc w r w' [Hh Hk] H. simpl in H. inv_ret H.
    split; simpl; [by rewrite app_nil_r|].
    apply Forall_push_last; [by repeat constructor|done].
  - intros text url acc w r w' [Hh Hk] H. simpl in H. inv_ret H.
    split; simpl; [by rewrite app_nil_r|].
    apply Forall_push_last; [by repeat constructor|done].
  - intros acc w r w' [Hh Hk] H. simpl in H. inv_ret H.
    split; simpl; [by rewrite app_nil_r|].
    apply Forall_app. split; [done|by repeat constructor].
  - intros f IH acc w r w' [Hh Hk] H. simpl in H.
    apply await_then_Ok_inv in H as (st & nested & Hf & H).
    inv_bind H. inv_ret H.
    assert (tokens_ok menuId (finish a)) as [Hh' Hk'].
    { apply tokens_ok_finish.
      eapply (for_of_invariant (tokens_ok menuId));
        [|apply tokens_ok_start|exact H0].
      intros x Hx s w0 s' w0' Hs Hb.
      specialize (IH _ _ _ _ _ Hf).
      rewrite Forall_forall in IH. by eapply IH. }
    split; simpl.
    + rewrite (assoc_L (++)). apply Forall_app. split; [done|].
      simpl in Hh'. done.
    + by apply Forall_splice.
Qed.

Lemma build_steps_tokens menuId ctx data steps w r w' :
  well_formed_id menuId →
  Forall (built_by menuId) steps →
  build_steps ctx data steps w = (Ok r, w') →
  tokens_ok menuId r.
Proof.
  intros Hid Hsteps H. unfold build_steps in H. inv_bind H. inv_ret H.
  apply tokens_ok_finish.
  eapply (for_of_invariant (tokens_ok menuId));
    [|apply tokens_ok_start|exact H0].
  intros x Hx s w0 s' w0' Hs Hb.
  rewrite Forall_forall in Hsteps.
  by eapply build_step_tokens; [| apply Hsteps | |].
Qed.

(** The five methods keep the builder's menu id and keep its steps among
    those [built_by] describes. *)
Lemma builder_methods_built_by (b : LayoutBuilder) :
  Forall (built_by (menuId b)) (steps b) →
  (∀ text callbackFn targetId,
     well_formed_id targetId →
     let b' := Builder.callback text callbackFn targetId b in
     menuId b' = menuId b ∧ Forall (built_by (menuId b)) (steps b'))
  ∧ (∀ text content,
       let b' := Builder.copy text content b in
       menuId b' = menuId b ∧ Forall (built_by (menuId b)) (steps b'))
  ∧ (∀ text url,
       let b' := Builder.url text url b in
       menuId b' = menuId b ∧ Forall (built_by (menuId b)) (steps b'))
  ∧ (let b' := Builder.row b in
     menuId b' = menuId b ∧ Forall (built_by (menuId b)) (steps b'))
  ∧ (∀ dynamicFn,
       (∀ ctx data st st' nested,
          dynamicFn ctx data st = (st', Resolved nested) →
          Forall (built_by (menuId b)) nested) →
       let b' := Builder.dynamic dynamicFn b in
       menuId b' = menuId b ∧ Forall (built_by (menuId b)) (steps b')).
Proof.
  intros Hb.
  assert (∀ step, built_by (menuId b) step →
            Forall (built_by (menuId b)) (steps (Builder.push step b)))
    as Hpush.
  { intros step Hstep. simpl. apply Forall_app. split; [done|].
    by constructor. }
  split; [|split; [|split; [|split]]]; intros; split; try done; apply Hpush.
  - by apply by_callback.
  - apply by_copy.
  - apply by_url.
  - apply by_row.
  - by apply by_dynamic.
Qed.

Lemma prepare_tokens menuId steps :
  well_formed_id menuId →
  Forall (built_by menuId) steps →
  Forall (λ h, decodes_to menuId (action h))
         (Builder.prepare (mkBuilder menuId steps)).
Proof.
  intros [Hne Hnc] Hsteps. unfold Builder.prepare. simpl.
  induction Hsteps as [|step l Hstep _ IH]; simpl; [constructor|].
  destruct Hstep as [text targetId fn [_ Hid]| | | |]; simpl; try done.
  constructor; [|done]. simpl. by apply parse_buildAction_owner.
Qed.

End LayoutFacts.

(** ** Handler maps *)

Section MapFacts.

Lemma by_action_foldl (handlers : list ActionHandler)
    (map0 : gmap string ActionHandler) token h :
  foldl (λ map h, <[action h := h]> map) map0 handlers !! token = Some h →
  (h ∈ handlers ∧ action h = token) ∨ map0 !! token = Some h.
Proof.
  revert map0. induction handlers as [|x l IH]; intros map0 H; simpl in H.
  - by right.
  - apply IH in H as [[Hin Ha]|H].
    + left. split; [by right|done].
    + destruct (decide (action x = token)) as [<-|Hne].
      * rewrite lookup_insert_eq in H. injection H as <-.
        left. split; [by left|done].
      * rewrite lookup_insert_ne in H by done. by right.
Qed.

(** A map built by [Map.set] in a loop holds only handlers of the list,
    each under its own token. *)
Lemma by_action_lookup handlers token h :
  by_action handlers !! token = Some h → h ∈ handlers ∧ action h = token.
Proof.
  intros H. apply by_action_foldl in H as [H|H]; [done|].
  by rewrite lookup_empty in H.
Qed.

Lemma by_action_foldl_None (handlers : list ActionHandler)
    (map0 : gmap string ActionHandler) token :
  token ∉ action <$> handlers → map0 !! token = None →
  foldl (λ map h, <[action h := h]> map) map0 handlers !! token = None.
Proof.
  revert map0. induction handlers as [|x l IH]; intros map0 Hn H0; simpl.
  - done.
  - rewrite fmap_cons, not_elem_of_cons in Hn. destruct Hn as [Hx Hl].
    apply IH; [done|]. by rewrite lookup_insert_ne.
Qed.

(** A token no handler of the list carries is not a key of the map. *)
Lemma by_action_None handlers token :
  token ∉ action <$> handlers → by_action handlers !! token = None.
Proof. intros H. by apply by_action_foldl_None. Qed.

Lemma by_action_foldl_Some (handlers : list ActionHandler)
    (map0 : gmap string ActionHandler) token :
  token ∈ action <$> handlers ∨ is_Some (map0 !! token) →
  is_Some (foldl (λ map h, <[action h := h]> map) map0 handlers !! token).
Proof.
  revert map0. induction handlers as [|x l IH]; intros map0 H; simpl.
  - destruct H as [H|H]; [|done]. by apply elem_of_nil in H.
  - apply IH. rewrite fmap_cons, elem_of_cons in H.
    destruct (decide (token = action x)) as [->|Hne].
    + right. by rewrite lookup_insert_eq.
    + destruct H as [[H|H]|H]; [done|by left|].
      right. by rewrite lookup_insert_ne.
Qed.

(** The keys of the map are the tokens of the handlers. *)
Lemma by_action_None_iff handlers token :
  by_action handlers !! token = None ↔ token ∉ action <$> handlers.
Proof.
  split; [|apply by_action_None].
  intros Hnone Hin.
  destruct (by_action_foldl_Some handlers ∅ token) as [h Hh]; [by left|].
  unfold by_action in Hnone. congruence.
Qed.

End MapFacts.

(** C3. Decoding an encoded token returns exactly the action kind, the owner
    menu id and the instance id that were encoded, for every action kind,
    every non-empty owner id without the delimiter and every instance id
    that is absent or non-empty without the delimiter. In particular, for a
    menu made by [createMenu] whose layout uses the builder's methods with
    well-formed identifiers, every key of its static handler map, and every
    token a build of its layout puts on a button or in a handler (static or
    dynamic, at any nesting depth), decodes to a recognised action kind and
    to the menu's own id. *)
Theorem C3_decode_inverts_encode :
  (∀ a s t,
     s ≠ "" → no_colon s →
     (∀ x, t = Some x → x ≠ "" ∧ no_colon x) →
     parseAction (buildAction a s t) = Some (mkParsed (Some a) s t))
  ∧ (∀ loader onEnter layout state options menuId,
       well_formed_id menuId →
       Forall (built_by menuId) (steps (layout (mkBuilder menuId []))) →
       let m := createMenu loader onEnter layout state options menuId in
       (∀ token h,
          staticActionHandlersByAction m !! token = Some h →
          decodes_to (id m) token)
       ∧ (∀ ctx data w r w',
            build (builder m) ctx data w = (Ok r, w') →
            tokens_ok (id m) r)).
Proof.
  split; [exact decode_encode|].
  intros loader onEnter layout state options menuId Hid Hsteps m.
  split.
  - intros token h Hlook. simpl in Hlook.
    apply by_action_lookup in Hlook as [Hin <-].
    pose proof (prepare_tokens menuId _ Hid Hsteps) as Hall.
    rewrite Forall_forall in Hall. by apply Hall.
  - intros ctx data w r w' Hb. simpl.
    by eapply build_steps_tokens.
Qed.

Section DecodeFacts.

(** The strings [parseAction] accepts: marker, a non-empty owner id, the
    code of the one action kind, and then nothing or a further delimiter
    followed by anything. *)
Lemma parseAction_Some_shape s :
  is_Some (parseAction s) ↔
  ∃ owner rest,
    s = MENU_PREFIX +:+ ":" +:+ owner +:+ ":call" +:+ rest
    ∧ owner ≠ "" ∧ no_colon owner
    ∧ (rest = "" ∨ ∃ r, rest = String colon r).
Proof.
  split.
  - unfold parseAction. intros [p Hp].
    case_bool_decide as H0; [done|].
    destruct (includes _) eqn:H2; [|done]. simpl in Hp.
    destruct (truthy _) eqn:H1; [|done]. simpl in Hp. clear Hp p.
    apply truthy_inv in H1 as (owner & H1 & Hne).
    unfold includes in H2. apply bool_decide_eq_true in H2.
    simpl in H2. apply list_elem_of_singleton in H2.
    pose proof (split_inv s) as Hs.
    destruct (split s) as [|p0 [|p1 tl]] eqn:E; try done.
    simpl in H0, H1. injection H0 as ->. injection H1 as ->.
    destruct Hs as (s1 & -> & E1 & _).
    pose proof (split_inv s1) as Hs1. rewrite E1 in Hs1.
    destruct tl as [|p2 tl]; [done|]. simpl in H2. subst p2.
    destruct Hs1 as (s2 & -> & E2 & Hown).
    pose proof (split_inv s2) as Hs2. rewrite E2 in Hs2.
    exists owner. destruct tl as [|p3 tl].
    + destruct Hs2 as [-> _]. exists "". repeat split; auto.
    + destruct Hs2 as (s3 & -> & _ & _). exists (String colon s3).
      repeat split; eauto.
  - intros (owner & rest & -> & Hne & Hown & Hrest).
    unfold parseAction.
    change (MENU_PREFIX +:+ ":" +:+ owner +:+ ":call" +:+ rest)
      with (MENU_PREFIX +:+ String colon (owner +:+ String colon ("call" +:+ rest))).
    rewrite split_app by apply no_colon_prefix.
    rewrite split_app by done.
    assert (∃ tl, split ("call" +:+ rest) = "call" :: tl) as [tl ->].
    { destruct Hrest as [->|[r ->]].
      - by exists [].
      - exists (split r). apply split_app. unfold colon. simpl.
        repeat split; discriminate. }
    destruct owner; [done|]. simpl. eauto.
Qed.

(** Whatever [parseAction] returns names the one action kind. *)
Lemma parseAction_action s p :
  parseAction s = Some p → Codec.action p = Some callback.
Proof.
  unfold parseAction. case_bool_decide as H0; [done|].
  destruct (includes _) eqn:H2; [|done]. simpl.
  destruct (truthy _); [|done]. simpl. intros [= <-]. simpl.
  unfold includes in H2. apply bool_decide_eq_true in H2.
  simpl in H2. apply list_elem_of_singleton in H2.
  destruct (split s !! 2%nat) as [x|]; simpl in H2; [|done].
  by subst x.
Qed.

End DecodeFacts.

(** C4, as the code has it. [parseAction] is total (it never throws) and
    returns null exactly when the first field is not the namespace marker,
    the third field is not the code of a recognised action kind, or the
    second field (the owner menu id) is missing or empty; in terms of the
    string, it returns a result exactly on the marker, a non-empty owner id
    and the action code, followed by nothing or by a delimiter and anything
    at all. *)
Theorem C4_decode_null_exactly_when s :
  (parseAction s = None ↔
     split s !! 0%nat ≠ Some MENU_PREFIX
     ∨ default "" (split s !! 2%nat) ∉ ACTION_REPRESENTATION_MAPPING.*2
     ∨ default "" (split s !! 1%nat) = "")
  ∧ (parseAction s = None ↔
     ¬ ∃ owner rest,
         s = MENU_PREFIX +:+ ":" +:+ owner +:+ ":call" +:+ rest
         ∧ owner ≠ "" ∧ no_colon owner
         ∧ (rest = "" ∨ ∃ r, rest = String colon r)).
Proof.
  split.
  - unfold parseAction, includes.
    case_bool_decide as H0; [by intuition|].
    case_bool_decide as H2; simpl; [|by intuition].
    destruct (split s !! 1%nat) as [[|c owner]|] eqn:H1; simpl.
    + by intuition.
    + split; [done|]. intros [?|[?|?]]; done.
    + by intuition.
  - rewrite <- parseAction_Some_shape. rewrite <- eq_None_not_Some. done.
Qed.

(** C4, as stated, fails: a token with an empty fourth field is accepted
    although no call of [buildAction] produces it. *)
Lemma C4_counterexample :
  ¬ (∀ s, (∀ a sourceId targetId, buildAction a sourceId targetId ≠ s) →
          parseAction s = None).
Proof.
  intros H. specialize (H "eijdfwof:m:call:" not_an_output). discriminate.
Qed.

Ltac by_evaluation := apply (bool_decide_unpack _); vm_compute; exact I.

Lemma C3_decode_inverts_encode_witness :
  parseAction (buildAction callback "main00" (Some "aaaaaa"))
    = Some (mkParsed (Some callback) "main00" (Some "aaaaaa"))
  ∧ (∀ token h,
       staticActionHandlersByAction Example.main_menu !! token = Some h →
       decodes_to "main00" token)
  ∧ tokens_ok "main00"
      (mkBuild Example.main_keyboard
         [mkHandler "eijdfwof:main00:call:aaaaaa" (Some Example.go_slow)]
         [mkHandler "eijdfwof:main00:call:xxxxxx" (Some Example.do_refresh);
          mkHandler "eijdfwof:main00:call:yyyyyy" (Some Example.do_throw)]).
Proof.
  assert (well_formed_id "main00") as Hid by by_evaluation.
  assert (Forall (built_by "main00")
            (steps (Example.main_layout (mkBuilder "main00" [])))) as Hsteps.
  { simpl. constructor; [apply by_callback; by_evaluation|].
    constructor; [|constructor].
    apply by_dynamic. intros ctx data st st' nested [= _ <-].
    constructor; [apply by_callback; by_evaluation|].
    constructor; [apply by_callback; by_evaluation|constructor]. }
  split; [|split].
  - apply (proj1 C3_decode_inverts_encode).
    + discriminate.
    + by_evaluation.
    + intros x [= <-]. by_evaluation.
  - exact (proj1 (proj2 C3_decode_inverts_encode
                    (λ _ args st, (st, Resolved (mkLoaded "main" args None)))
                    None Example.main_layout
                    None None "main00" Hid Hsteps)).
  - apply (proj2 (proj2 C3_decode_inverts_encode
                    (λ _ args st, (st, Resolved (mkLoaded "main" args None)))
                    None Example.main_layout None None "main00" Hid Hsteps)
             Example.ctx_command VNull Example.world0 _ Example.world0).
    reflexivity.
Defined.

Section BuildFacts.

Lemma filter_all {A} (P : A → Prop) `{∀ x, Decision (P x)} (l : list A) :
  Forall P l → filter P l = l.
Proof.
  induction 1 as [|x l Hx _ IH]; [done|].
  rewrite filter_cons_True by done. by rewrite IH.
Qed.

Lemma finish_rows acc : Forall (λ row, row ≠ []) (keyboard (finish acc)).
Proof.
  simpl. apply Forall_forall. by intros row [? _]%list_elem_of_filter.
Qed.

Lemma build_steps_rows ctx data steps w r w' :
  build_steps ctx data steps w = (Ok r, w') →
  Forall (λ row, row ≠ []) (keyboard r).
Proof.
  unfold build_steps. intros H. inv_bind H. inv_ret H. apply finish_rows.
Qed.

(** One dynamic step, given what its generator left in the nested builder
    and what building that nested builder gave. *)
Lemma build_step_dynamic ctx data dynamicFn acc w st nested nb w' :
  dynamicFn ctx data (visible_state ctx w) = (st, Resolved nested) →
  build_steps ctx data nested (store_state ctx st w) = (Ok nb, w') →
  build_step ctx data (dynamic_step dynamicFn) acc w =
    (Ok (mkBuild (splice (keyboard acc) (keyboard nb))
                 (staticHandlers acc)
                 (dynamicHandlers acc ++ staticHandlers nb
                                      ++ dynamicHandlers nb)), w').
Proof.
  intros Hf Hb. cbn [build_step].
  rewrite (await_then_resolved _ _ _ _ _ _ Hf).
  unfold build_steps in Hb. inv_bind Hb. inv_ret Hb.
  by rewrite (bind_ok _ _ _ _ _ Hb0).
Qed.

(** The handlers a build reports as static are those of its own static
    steps, whatever its dynamic steps generate. *)
Lemma build_step_static_handlers ctx data step acc w r w' :
  build_step ctx data step acc w = (Ok r, w') →
  staticHandlers r = staticHandlers acc ++ option_list (handler_of step).
Proof.
  destruct step as [buttons handler|f]; cbn [build_step handler_of]; intros H.
  - by inv_ret H.
  - apply await_then_Ok_inv in H as (st & nested & _ & H).
    inv_bind H. inv_ret H. simpl. by rewrite app_nil_r.
Qed.

Lemma for_of_static_handlers ctx data steps acc w r w' :
  for_of (build_step ctx data) steps acc w = (Ok r, w') →
  staticHandlers r = staticHandlers acc ++ omap handler_of steps.
Proof.
  revert acc w. induction steps as [|step l IH]; intros acc w H; simpl in H.
  - inv_ret H. by rewrite app_nil_r.
  - inv_bind H. apply IH in H. apply build_step_static_handlers in H0.
    rewrite H, H0. rewrite <- (assoc_L (++)). f_equal.
    simpl. by destruct (handler_of step).
Qed.

Lemma build_static_handlers b ctx data w r w' :
  build b ctx data w = (Ok r, w') →
  staticHandlers r = Builder.prepare b.
Proof.
  unfold build, build_steps. intros H. inv_bind H. inv_ret H.
  apply for_of_static_handlers in H0. simpl. by rewrite H0.
Qed.

End BuildFacts.

(** C5. A builder holding a static one-button step [A] and then a dynamic
    step whose generator adds buttons [X] and [Y] without a row break
    builds to the single row [A X Y]. More generally the first row of the
    nested build continues the current row and its other rows follow as new
    rows, and every handler the nested build reports, static or dynamic,
    is reported as dynamic by the outer build; the handlers the outer build
    and [prepare] report as static are those of the static step alone. *)
Theorem C5_dynamic_section_splices ctx data menuId A hA dynamicFn w st :
  (∀ X hX Y hY,
     dynamicFn ctx data (visible_state ctx w)
       = (st, Resolved [static_step [a_button X] hX;
                        static_step [a_button Y] hY]) →
     build (mkBuilder menuId [static_step [a_button A] hA;
                              dynamic_step dynamicFn]) ctx data w
       = (Ok (mkBuild [[A; X; Y]] (option_list hA)
                      (option_list hX ++ option_list hY)),
          store_state ctx st w))
  ∧ (∀ nested nb w',
       dynamicFn ctx data (visible_state ctx w) = (st, Resolved nested) →
       build (mkBuilder menuId nested) ctx data (store_state ctx st w)
         = (Ok nb, w') →
       build (mkBuilder menuId [static_step [a_button A] hA;
                                dynamic_step dynamicFn]) ctx data w
         = (Ok (mkBuild (match keyboard nb with
                         | [] => [[A]]
                         | row :: restRows => (A :: row) :: restRows
                         end)
                        (option_list hA)
                        (staticHandlers nb ++ dynamicHandlers nb)), w'))
  ∧ Builder.prepare (mkBuilder menuId [static_step [a_button A] hA;
                                       dynamic_step dynamicFn])
      = option_list hA.
Proof.
  assert (∀ nested nb w',
       dynamicFn ctx data (visible_state ctx w) = (st, Resolved nested) →
       build (mkBuilder menuId nested) ctx data (store_state ctx st w)
         = (Ok nb, w') →
       build (mkBuilder menuId [static_step [a_button A] hA;
                                dynamic_step dynamicFn]) ctx data w
         = (Ok (mkBuild (match keyboard nb with
                         | [] => [[A]]
                         | row :: restRows => (A :: row) :: restRows
                         end)
                        (option_list hA)
                        (staticHandlers nb ++ dynamicHandlers nb)), w'))
    as Hgeneral.
  { intros nested nb w' Hf Hb. unfold build in *. cbn [steps] in *.
    pose proof (build_steps_rows _ _ _ _ _ _ Hb) as Hrows.
    unfold build_steps at 1.
    rewrite (bind_ok _ _ w
      (mkBuild (splice [[A]] (keyboard nb)) (option_list hA)
               (staticHandlers nb ++ dynamicHandlers nb)) w').
    - unfold ret, finish. cbn [keyboard staticHandlers dynamicHandlers].
      do 2 f_equal. f_equal.
      destruct (keyboard nb) as [|row restRows]; [done|].
      apply Forall_cons in Hrows as [Hrow Hrest].
      change (splice [[A]] (row :: restRows)) with ((A :: row) :: restRows).
      apply filter_all. by constructor.
    - rewrite for_of_cons, build_step_static, bind_ret, for_of_cons.
      erewrite bind_ok; [|by eapply build_step_dynamic].
      by rewrite for_of_nil. }
  split; [|split; [exact Hgeneral|]].
  - intros X hX Y hY Hf.
    rewrite (Hgeneral _
      (mkBuild [[X; Y]] (option_list hX ++ option_list hY) [])
      (store_state ctx st w) Hf); [by rewrite app_nil_r|done].
  - simpl. by destruct hA.
Qed.

Lemma C5_dynamic_section_splices_witness :
  build (builder Example.main_menu) Example.ctx_command VNull Example.world0
    = (Ok (mkBuild Example.main_keyboard
             [mkHandler "eijdfwof:main00:call:aaaaaa" (Some Example.go_slow)]
             [mkHandler "eijdfwof:main00:call:xxxxxx" (Some Example.do_refresh);
              mkHandler "eijdfwof:main00:call:yyyyyy" (Some Example.do_throw)]),
       Example.world0)
  ∧ Builder.prepare (builder Example.main_menu)
    = [mkHandler "eijdfwof:main00:call:aaaaaa" (Some Example.go_slow)]
  ∧ build (mkBuilder "main00"
             [static_step [a_button (url_button "A" "https://example.org")] None;
              dynamic_step Example.nested_section])
          Example.ctx_command VNull Example.world0
    = (Ok (mkBuild
             [[url_button "A" "https://example.org";
               text_button "N" "eijdfwof:main00:call:nnnnnn"];
              [text_button "X" "eijdfwof:main00:call:xxxxxx";
               text_button "Y" "eijdfwof:main00:call:yyyyyy"]]
             []
             [mkHandler "eijdfwof:main00:call:nnnnnn" None;
              mkHandler "eijdfwof:main00:call:xxxxxx" (Some Example.do_refresh);
              mkHandler "eijdfwof:main00:call:yyyyyy" (Some Example.do_throw)]),
       Example.world0).
Proof.
  pose proof (C5_dynamic_section_splices Example.ctx_command VNull "main00"
    (text_button "A" "eijdfwof:main00:call:aaaaaa")
    (Some (mkHandler "eijdfwof:main00:call:aaaaaa" (Some Example.go_slow)))
    Example.two_buttons Example.world0 VUndefined) as (H1 & _ & H3).
  pose proof (C5_dynamic_section_splices Example.ctx_command VNull "main00"
    (url_button "A" "https://example.org") None
    Example.nested_section Example.world0 VUndefined) as (_ & H2 & _).
  split; [|split].
  - apply (H1 (text_button "X" "eijdfwof:main00:call:xxxxxx")
              (Some (mkHandler "eijdfwof:main00:call:xxxxxx"
                               (Some Example.do_refresh)))
              (text_button "Y" "eijdfwof:main00:call:yyyyyy")
              (Some (mkHandler "eijdfwof:main00:call:yyyyyy"
                               (Some Example.do_throw)))).
    reflexivity.
  - exact H3.
  - apply (H2 [callback_step "main00" "N" "nnnnnn" None;
               static_step [an_array []] None;
               dynamic_step Example.two_buttons]
              (mkBuild
                 [[text_button "N" "eijdfwof:main00:call:nnnnnn"];
                  [text_button "X" "eijdfwof:main00:call:xxxxxx";
                   text_button "Y" "eijdfwof:main00:call:yyyyyy"]]
                 [mkHandler "eijdfwof:main00:call:nnnnnn" None]
                 [mkHandler "eijdfwof:main00:call:xxxxxx"
                            (Some Example.do_refresh);
                  mkHandler "eijdfwof:main00:call:yyyyyy"
                            (Some Example.do_throw)])
              Example.world0).
    + reflexivity.
    + reflexivity.
Defined.

(** ** Induction over steps and handler bodies *)

Section Induction.

(** Induction over build steps: for a dynamic step, the property may be
    assumed of every step its generator can leave in the nested builder. *)
Lemma BuildStep_induction (P : BuildStep → Prop) :
  (∀ buttons handler, P (static_step buttons handler)) →
  (∀ dynamicFn,
     (∀ ctx data st st' nested,
        dynamicFn ctx data st = (st', Resolved nested) → Forall P nested) →
     P (dynamic_step dynamicFn)) →
  ∀ step, P step.
Proof.
  intros Hstatic Hdynamic. fix IH 1. intros [buttons handler|f].
  - apply Hstatic.
  - apply Hdynamic.
    assert (∀ ctx data st,
              match f ctx data st with
              | (_, Resolved nested) => Forall P nested
              | _ => True
              end) as Hall.
    { intros ctx data st.
      destruct (f ctx data st) as [st' [nested|e|]]; [|done|done].
      induction nested as [|x l IHl]; constructor; [apply IH|apply IHl]. }
    intros ctx data st st' nested Heq.
    specialize (Hall ctx data st). by rewrite Heq in Hall.
Qed.

End Induction.

(** ** What a run leaves untouched *)

Global Instance same_active_refl : Reflexive same_active.
Proof. by intros w key. Qed.
Global Instance same_active_trans : Transitive same_active.
Proof. intros w1 w2 w3 H1 H2 key. by rewrite H2, H1. Qed.
Global Instance same_static_refl : Reflexive same_static.
Proof. by intros w self. Qed.
Global Instance same_static_trans : Transitive same_static.
Proof. intros w1 w2 w3 H1 H2 self. by rewrite H2, H1. Qed.
Global Instance quiet_refl : Reflexive quiet.
Proof. by intros w. Qed.
Global Instance quiet_trans : Transitive quiet.
Proof.
  intros w1 w2 w3 [H1 H1'] [H2 H2']. split; [by rewrite H2|by rewrite H2'].
Qed.

Lemma keeps_apply {A} R (m : M A) w r w' : keeps R m → m w = (r, w') → R w w'.
Proof. intros Hk Hm. specialize (Hk w). by rewrite Hm in Hk. Qed.

Section Frame.

Context (R : World → World → Prop) `{!Reflexive R, !Transitive R}.

(** What the relation must allow: accessor writes, installing an accessor,
    and session writes that leave [activeMessageId] as it was. *)
Hypothesis R_store : ∀ ctx v w, R w (store_state ctx v w).
Hypothesis R_install : ∀ owner w, R w (snd (install_state owner w)).
Hypothesis R_put : ∀ ctx ms' w,
  activeMessageId ms' = _menu (session_of ctx w) ≫= activeMessageId →
  R w (snd (put_menu_session ctx ms' w)).

Lemma frame_this_menu self : keeps R (this_menu self).
Proof. intros w. unfold this_menu. by destruct (menus w !! self). Qed.

Lemma frame_the_menu_session {A} ctx prop (k : MenuSession → M A) :
  (∀ ms w, _menu (session_of ctx w) = Some ms → R w (snd (k ms w))) →
  keeps R (bind (the_menu_session ctx prop) k).
Proof.
  intros Hk w. unfold bind, the_menu_session.
  destruct (_menu (session_of ctx w)) as [ms|] eqn:E; simpl; [|done].
  by apply Hk.
Qed.

Lemma frame_initContext self ctx : keeps R (initContext self ctx).
Proof.
  unfold initContext. apply keeps_bind; [done|apply frame_this_menu|].
  intros this w. apply R_put. simpl.
  by destruct (_menu (session_of ctx w)).
Qed.

Lemma frame_the_slot ctx id : keeps R (the_slot ctx id).
Proof.
  unfold the_slot. apply frame_the_menu_session. intros ms w _.
  destruct (slots ms !! id); done.
Qed.

Lemma frame_set_slot_state ctx id v : keeps R (set_slot_state ctx id v).
Proof.
  unfold set_slot_state. apply frame_the_menu_session. intros ms w Hms.
  destruct (slots ms !! id); [|done].
  apply R_put. simpl. by rewrite Hms.
Qed.

Lemma frame_getState self ctx : keeps R (getState self ctx).
Proof.
  unfold getState. apply keeps_bind; [done|apply frame_this_menu|].
  intros this. apply keeps_bind; [done|apply frame_the_slot|].
  intros slot. destruct (initStateFn this) as [initState|].
  - destruct (falsy (state slot)); [|by apply keeps_ret].
    apply keeps_bind; [done|by apply keeps_await_outcome|].
    intros v. apply keeps_bind; [done|apply frame_set_slot_state|].
    intros _. by apply keeps_ret.
  - destruct (falsy (state slot)); by apply keeps_ret.
Qed.

Lemma frame_install_if state : keeps R (install_if state).
Proof.
  destruct state; simpl; [|by apply keeps_ret]. intros w. apply R_install.
Qed.

Lemma frame_await_user {A} ctx (f : UserFn A) : keeps R (await_user ctx f).
Proof.
  unfold await_user. apply keeps_await_then; [done|apply R_store|].
  intros a. by apply keeps_ret.
Qed.

Lemma frame_build_step ctx data step :
  ∀ acc, keeps R (build_step ctx data step acc).
Proof.
  induction step as [buttons handler|f IH] using BuildStep_induction;
    intros acc.
  - rewrite build_step_static. by apply keeps_ret.
  - intros w. cbn [build_step]. unfold await_then.
    destruct (f ctx data (visible_state ctx w)) as [st [nested|e|]] eqn:Hf;
      simpl; try apply R_store.
    etrans; [apply (R_store ctx st)|].
    apply keeps_bind; [done| |intros built; by apply keeps_ret].
    apply keeps_for_of; [done|done|].
    intros x Hx s. specialize (IH _ _ _ _ _ Hf).
    rewrite Forall_forall in IH. by apply IH.
Qed.

Lemma frame_build b ctx data : keeps R (build b ctx data).
Proof.
  unfold build, build_steps.
  apply keeps_bind; [done| |intros built; by apply keeps_ret].
  apply keeps_for_of; [done|done|]. intros x _ s. apply frame_build_step.
Qed.

(** The statements of [buildLayout] before the loader is called. *)
Lemma frame_enter self ctx :
  keeps R (let* _ := initContext self ctx in
           let* state := getState self ctx in
           let* _ := install_if state in
           this_menu self).
Proof.
  apply keeps_bind; [done|apply frame_initContext|]. intros _.
  apply keeps_bind; [done|apply frame_getState|]. intros state.
  apply keeps_bind; [done|apply frame_install_if|]. intros _.
  apply frame_this_menu.
Qed.

(** With events, the per-chat maps and the clock allowed to change as
    well, whole renders and whole interactions are covered. *)
Hypothesis R_emit : ∀ ev w, R w (snd (emit ev w)).
Hypothesis R_dynamic : ∀ self key map w, R w (snd (set_dynamic self key map w)).
Hypothesis R_timers : ∀ t d w, R w (with_timers t d w).

Lemma frame_call_reply ctx text other : keeps R (call_reply ctx text other).
Proof.
  intros w. unfold call_reply.
  apply keeps_bind; [done|intros w0; apply R_emit|].
  intros _. by apply keeps_settle.
Qed.

Lemma frame_call_edit ctx text other :
  keeps R (call_editMessageText ctx text other).
Proof.
  intros w. unfold call_editMessageText.
  apply keeps_bind; [done|intros w0; apply R_emit|].
  intros _. by apply keeps_settle.
Qed.

Lemma frame_call_answer ctx other :
  keeps R (call_answerCallbackQuery ctx other).
Proof.
  intros w. unfold call_answerCallbackQuery.
  apply keeps_bind; [done|intros w0; apply R_emit|].
  intros _. by apply keeps_settle.
Qed.

Lemma frame_buildLayout self ctx args : keeps R (buildLayout self ctx args).
Proof.
  unfold buildLayout.
  apply keeps_bind; [done|apply frame_initContext|]. intros _.
  apply keeps_bind; [done|apply frame_getState|]. intros state.
  apply keeps_bind; [done|apply frame_install_if|]. intros _.
  apply keeps_bind; [done|apply frame_this_menu|]. intros this.
  apply keeps_bind; [done| |].
  { destruct (onEnterFn this); [apply frame_await_user|by apply keeps_ret]. }
  intros _. apply keeps_bind; [done| |].
  { apply (keeps_race R); [apply R_timers|].
    apply keeps_bind; [done|intros w; apply R_emit|].
    intros _. apply frame_await_user. }
  intros loaded. apply keeps_bind; [done|apply frame_build|].
  intros built. apply keeps_bind; [done|intros w; apply R_dynamic|].
  intros _. apply frame_the_menu_session. intros ms w Hms.
  apply (R_put ctx (mkMenuSession (activeMessageId ms) args
                                  (loaded_data loaded) (slots ms)) w).
  simpl. by rewrite Hms.
Qed.

Lemma frame_render self ctx args : keeps R (render self ctx args).
Proof.
  unfold render. apply keeps_bind; [done|apply frame_buildLayout|].
  intros r. apply frame_call_edit.
Qed.

Lemma frame_actions self ctx :
  (∀ menu args, keeps R (navigate (getCallbackActions self ctx) menu args))
  ∧ (∀ args, keeps R (refresh (getCallbackActions self ctx) args)).
Proof.
  split; simpl.
  - intros menu args. apply frame_render.
  - intros args. apply frame_the_menu_session. intros ms w _.
    apply frame_render.
Qed.

Lemma frame_run_callback actions ctx p :
  (∀ menu args, keeps R (navigate actions menu args)) →
  (∀ args, keeps R (refresh actions args)) →
  keeps R (run_callback actions ctx p).
Proof.
  intros Hnav Href.
  induction p as [|e| |update k IH|menu args k IH|args k IH]; cbn [run_callback].
  - by apply keeps_ret.
  - by apply keeps_throw.
  - by apply keeps_hang.
  - intros w. etrans; [apply (R_store ctx (update (visible_state ctx w)))|].
    apply IH.
  - apply keeps_bind; [done|by apply keeps_attempt|]. intros r. apply IH.
  - apply keeps_bind; [done|by apply keeps_attempt|]. intros r. apply IH.
Qed.

Lemma frame_enter_callback self ctx : keeps R (enter_callback self ctx).
Proof.
  unfold enter_callback.
  apply keeps_bind; [done|intros w; apply R_install|]. intros _.
  apply keeps_bind; [done|apply frame_getState|]. intros state.
  apply keeps_bind; [done|apply frame_install_if|]. intros _.
  apply frame_the_menu_session. intros ms w _. done.
Qed.

Lemma frame_try_block self this ctx act actionHandler :
  keeps R (try_block self this ctx act actionHandler).
Proof.
  unfold try_block. apply keeps_bind; [done| |].
  - destruct act. destruct (callbackFn actionHandler) as [f|];
      [|by apply keeps_ret].
    apply keeps_bind; [done|apply frame_enter_callback|]. intros data.
    apply (keeps_race R); [apply R_timers|].
    apply keeps_bind; [done|intros w; apply R_emit|].
    intros _. destruct (frame_actions self ctx) as [Hnav Href].
    by apply frame_run_callback.
  - intros _. apply keeps_bind; [done| |intros _; by apply keeps_ret].
    apply keeps_swallow; [done|done|]. apply frame_call_answer.
Qed.

Lemma frame_catch_block ctx error : keeps R (catch_block ctx error).
Proof.
  unfold catch_block.
  apply keeps_bind; [done| |intros _; by apply keeps_throw].
  apply keeps_swallow; [done|done|]. apply frame_call_answer.
Qed.

Lemma frame_middleware self ctx : keeps R (middleware self ctx).
Proof.
  unfold middleware. apply keeps_bind; [done|apply frame_this_menu|].
  intros this.
  destruct (parseAction _ ≫= Codec.action) as [act|]; [|by apply keeps_ret].
  destruct (lookup_handler this ctx) as [actionHandler|];
    [|by apply keeps_ret].
  destruct (bool_decide _); [by apply keeps_ret|].
  apply keeps_if.
  - apply keeps_bind; [done| |intros _; by apply keeps_ret].
    apply keeps_swallow; [done|done|]. apply frame_call_answer.
  - apply keeps_try_catch; [done|apply frame_try_block|].
    intros error. apply frame_catch_block.
Qed.

End Frame.

Section Relations.

Lemma active_of_session ctx w :
  active_of (session_key ctx) w = _menu (session_of ctx w) ≫= activeMessageId.
Proof. reflexivity. Qed.

Lemma active_of_set_session key ctx s w :
  active_of key (set_session ctx s w) =
    if decide (key = session_key ctx) then _menu s ≫= activeMessageId
    else active_of key w.
Proof.
  unfold active_of, set_session. simpl. case_decide as Hk.
  - subst key. by rewrite lookup_insert_eq.
  - by rewrite lookup_insert_ne.
Qed.

Lemma same_active_put ctx ms' w :
  activeMessageId ms' = _menu (session_of ctx w) ≫= activeMessageId →
  same_active w (snd (put_menu_session ctx ms' w)).
Proof.
  intros H key. simpl. rewrite active_of_set_session. case_decide; [|done].
  subst key. by rewrite active_of_session, <- H.
Qed.

Lemma same_active_store ctx v w : same_active w (store_state ctx v w).
Proof.
  unfold store_state. destruct (ctx_menu_state w) as [owner|]; [|done].
  destruct (_menu (session_of ctx w)) as [ms|] eqn:E; [|done].
  destruct (slots ms !! owner); [|done].
  apply (same_active_put ctx (mkMenuSession _ _ _ _) w). simpl. by rewrite E.
Qed.

Lemma same_active_menus w menus' owner log' t d :
  same_active w (mkWorld menus' (sessions w) owner log' t d).
Proof. by intros key. Qed.

Lemma same_active_dynamic self key map w :
  same_active w (snd (set_dynamic self key map w)).
Proof.
  unfold set_dynamic. destruct (menus w !! self); [|done].
  apply same_active_menus.
Qed.

Lemma same_static_sessions w sessions' owner log' t d :
  same_static w (mkWorld (menus w) sessions' owner log' t d).
Proof. by intros self. Qed.

Lemma same_static_store ctx v w : same_static w (store_state ctx v w).
Proof.
  unfold store_state. destruct (ctx_menu_state w) as [owner|]; [|done].
  destruct (_menu (session_of ctx w)) as [ms|]; [|done].
  destruct (slots ms !! owner); [|done]. apply same_static_sessions.
Qed.

Lemma same_static_dynamic self key map w :
  same_static w (snd (set_dynamic self key map w)).
Proof.
  unfold set_dynamic. destruct (menus w !! self) as [this|] eqn:E; [|done].
  intros self'. unfold static_of. simpl.
  destruct (decide (self = self')) as [<-|Hne].
  - by rewrite lookup_insert_eq, E.
  - by rewrite lookup_insert_ne.
Qed.

Lemma quiet_store ctx v w : quiet w (store_state ctx v w).
Proof.
  unfold store_state. destruct (ctx_menu_state w) as [owner|]; [|done].
  destruct (_menu (session_of ctx w)) as [ms|]; [|done].
  destruct (slots ms !! owner); done.
Qed.

Lemma quiet_sessions w sessions' owner t d :
  quiet w (mkWorld (menus w) sessions' owner (log w) t d).
Proof. done. Qed.

End Relations.

(** No render, and no interaction, writes [activeMessageId]. *)
Lemma render_same_active self ctx args :
  keeps same_active (render self ctx args).
Proof.
  apply frame_render; try apply _.
  - apply same_active_store.
  - intros owner w. apply same_active_menus.
  - apply same_active_put.
  - intros ev w. apply same_active_menus.
  - apply same_active_dynamic.
  - intros t d w. apply same_active_menus.
Qed.

Lemma middleware_same_active self ctx :
  keeps same_active (middleware self ctx).
Proof.
  apply frame_middleware; try apply _.
  - apply same_active_store.
  - intros owner w. apply same_active_menus.
  - apply same_active_put.
  - intros ev w. apply same_active_menus.
  - apply same_active_dynamic.
  - intros t d w. apply same_active_menus.
Qed.

Lemma run_callback_same_active self ctx p :
  keeps same_active (run_callback (getCallbackActions self ctx) ctx p).
Proof.
  assert (∀ menu args, keeps same_active (render menu ctx args)) as Hr
    by (intros; apply render_same_active).
  apply frame_run_callback; try apply _.
  - apply same_active_store.
  - intros menu args. apply Hr.
  - intros args. simpl. intros w. unfold bind, the_menu_session.
    destruct (_menu (session_of ctx w)); simpl; [apply Hr|done].
Qed.

(** No operation writes a static handler map. *)
Lemma buildLayout_same_static self ctx args :
  keeps same_static (buildLayout self ctx args).
Proof.
  apply frame_buildLayout; try apply _.
  - apply same_static_store.
  - intros owner w. apply same_static_sessions.
  - intros ctx' ms' w _. apply same_static_sessions.
  - intros ev w. apply same_static_sessions.
  - apply same_static_dynamic.
  - intros t d w. apply same_static_sessions.
Qed.

Lemma render_same_static self ctx args :
  keeps same_static (render self ctx args).
Proof.
  apply frame_render; try apply _.
  - apply same_static_store.
  - intros owner w. apply same_static_sessions.
  - intros ctx' ms' w _. apply same_static_sessions.
  - intros ev w. apply same_static_sessions.
  - apply same_static_dynamic.
  - intros t d w. apply same_static_sessions.
Qed.

Lemma middleware_same_static self ctx :
  keeps same_static (middleware self ctx).
Proof.
  apply frame_middleware; try apply _.
  - apply same_static_store.
  - intros owner w. apply same_static_sessions.
  - intros ctx' ms' w _. apply same_static_sessions.
  - intros ev w. apply same_static_sessions.
  - apply same_static_dynamic.
  - intros t d w. apply same_static_sessions.
Qed.

Lemma send_same_static self ctx args :
  keeps same_static (send self ctx args).
Proof.
  unfold send, send_try. apply keeps_try_catch; [apply _| |].
  - apply keeps_bind; [apply _|apply buildLayout_same_static|]. intros r.
    apply keeps_bind; [apply _| |].
    + apply frame_call_reply; try apply _.
      intros ev w. apply same_static_sessions.
    + intros message_id w. unfold bind, the_menu_session.
      destruct (_menu (session_of ctx w)); simpl; [|done].
      apply same_static_sessions.
  - intros error. apply keeps_bind; [apply _| |intros _; by apply keeps_ret].
    apply frame_call_reply; try apply _.
    intros ev w. apply same_static_sessions.
Qed.

(** ** What a successful [buildLayout] did *)

Section BuildLayoutFacts.

Lemma this_menu_Ok_inv self w this w' :
  this_menu self w = (Ok this, w') → w' = w ∧ menus w !! self = Some this.
Proof.
  unfold this_menu. destruct (menus w !! self); intros [= <- <-]; done.
Qed.

Lemma the_menu_session_Ok_inv ctx prop w ms w' :
  the_menu_session ctx prop w = (Ok ms, w') →
  w' = w ∧ _menu (session_of ctx w) = Some ms.
Proof.
  unfold the_menu_session.
  destruct (_menu (session_of ctx w)); intros [= <- <-]; done.
Qed.

Lemma set_dynamic_Ok_inv self key map w u w' :
  set_dynamic self key map w = (Ok u, w') →
  ∃ this, menus w !! self = Some this
          ∧ w' = mkWorld (<[self := with_dynamic this key map]> (menus w))
                         (sessions w) (ctx_menu_state w) (log w)
                         (now w) (due w).
Proof.
  unfold set_dynamic. destruct (menus w !! self) as [this|]; [|done].
  intros [= _ <-]. by exists this.
Qed.

Lemma session_of_set_session ctx s w :
  session_of ctx (set_session ctx s w) = s.
Proof. unfold session_of, set_session. simpl. by rewrite lookup_insert_eq. Qed.

Lemma quiet_enter self ctx :
  keeps quiet (let* _ := initContext self ctx in
               let* state := getState self ctx in
               let* _ := install_if state in
               this_menu self).
Proof.
  apply frame_enter; try apply _.
  - intros owner w. done.
  - intros ctx' ms' w _. done.
Qed.

Lemma quiet_await_user {A} ctx (f : UserFn A) : keeps quiet (await_user ctx f).
Proof. apply frame_await_user; try apply _. apply quiet_store. Qed.

Lemma quiet_build b ctx data : keeps quiet (build b ctx data).
Proof. apply frame_build; try apply _. apply quiet_store. Qed.

(** A [buildLayout] that returns has called the loader with its arguments,
    built the layout with the loader's data, put exactly the dynamic
    handlers of that build in the chat's map, and recorded the loader's
    arguments and data in the session. *)
Lemma buildLayout_Ok_inv self ctx args w r w1 :
  buildLayout self ctx args w = (Ok r, w1) →
  ∃ this loaded built wa wb,
    menus w !! self = Some this
    ∧ build (builder this) ctx (loaded_data loaded) wa = (Ok built, wb)
    ∧ r = mkRendered (text loaded) (keyboard built) (parseMode loaded)
    ∧ menus w1 = <[self := with_dynamic this (chat_key ctx)
                              (by_action (dynamicHandlers built))]> (menus w)
    ∧ log w1 = log w ++ [ev_loader self args]
    ∧ ∃ ms, _menu (session_of ctx w1) = Some ms
            ∧ activeMenuLoaderArgs ms = args
            ∧ activeMenuLoaderData ms = loaded_data loaded.
Proof.
  intros H. unfold buildLayout in H.
  assert (∃ this w4, (let* _ := initContext self ctx in
                      let* state := getState self ctx in
                      let* _ := install_if state in
                      this_menu self) w = (Ok this, w4)
            ∧ (let* _ := match onEnterFn this with
                         | Some onEnter => await_user ctx (onEnter ctx)
                         | None => ret tt
                         end in
               let* loaded := race (timeout_text this) (timeout_ms this)
                   (let* _ := emit (ev_loader self args) in
                    await_user ctx (loaderFn this ctx args)) in
               let* built := build (builder this) ctx (loaded_data loaded) in
               let* _ := set_dynamic self (chat_key ctx)
                           (by_action (dynamicHandlers built)) in
               let* ms := the_menu_session ctx "activeMenuLoaderArgs" in
               let* _ := put_menu_session ctx
                           (mkMenuSession (activeMessageId ms) args
                              (loaded_data loaded) (slots ms)) in
               ret (mkRendered (text loaded) (keyboard built)
                               (parseMode loaded))) w4 = (Ok r, w1))
    as (this & w4 & Henter & Hrest).
  { unbind H as u1 wi H1. unbind H as state ws H2.
    unbind H as u3 wj H3. unbind H as this w4 H4.
    exists this, w4. split; [|exact H].
    rewrite (bind_ok _ _ _ _ _ H1), (bind_ok _ _ _ _ _ H2).
    by rewrite (bind_ok _ _ _ _ _ H3). }
  clear H.
  pose proof (keeps_apply _ _ _ _ _ (quiet_enter self ctx) Henter)
    as [Hm4 Hl4].
  assert (menus w4 !! self = Some this) as Hthis.
  { unbind Henter as u1 wi H1. unbind Henter as state ws H2.
    unbind Henter as u3 wj H3.
    by apply this_menu_Ok_inv in Henter as [-> ?]. }
  unbind Hrest as u5 w5 HonEnter.
  assert (quiet w4 w5) as [Hm5 Hl5].
  { destruct (onEnterFn this).
    - by apply (keeps_apply _ _ _ _ _ (quiet_await_user ctx _) HonEnter).
    - by inv_ret HonEnter. }
  unbind Hrest as loaded w6 Hload.
  apply race_Ok_inv in Hload; [|apply untimed_loader].
  unbind Hload as u6 w5' Hemit.
  pose proof (keeps_apply _ _ _ _ _ (quiet_await_user ctx _) Hload)
    as [Hm6 Hl6].
  unfold emit in Hemit. injection Hemit as _ <-. simpl in Hm6, Hl6.
  unbind Hrest as built w7 Hbuild.
  pose proof (keeps_apply _ _ _ _ _ (quiet_build _ _ _) Hbuild) as [Hm7 Hl7].
  unbind Hrest as u8 w8 Hset.
  apply set_dynamic_Ok_inv in Hset as (this' & Hthis' & ->).
  unbind Hrest as ms w9 Hms.
  apply the_menu_session_Ok_inv in Hms as [-> Hms].
  unbind Hrest as u10 w10 Hput. unfold put_menu_session in Hput.
  injection Hput as _ <-. inv_ret Hrest.
  assert (this' = this) as ->.
  { rewrite Hm7, Hm6, Hm5 in Hthis'. congruence. }
  exists this, loaded, built, w6, w7.
  split; [by rewrite <- Hm4|]. split; [done|]. split; [done|].
  split; [simpl; by rewrite Hm7, Hm6, Hm5, Hm4|].
  split; [simpl; by rewrite Hl7, Hl6, Hl5, Hl4|].
  rewrite session_of_set_session. simpl. eauto.
Qed.

End BuildLayoutFacts.

(** ** Interactions *)

Section MiddlewareFacts.

Lemma stale_true ctx w :
  callbackQuery ctx ≫= message_id ≠ active_of (session_key ctx) w →
  stale ctx w = true.
Proof. intros H. unfold stale. by apply bool_decide_eq_true. Qed.

Lemma stale_false ctx w :
  callbackQuery ctx ≫= message_id = active_of (session_key ctx) w →
  stale ctx w = false.
Proof. intros H. unfold stale. apply bool_decide_eq_false. by intros ?. Qed.

(** An awaited [answerCallbackQuery] whose rejection is dropped: one event,
    and no failure. *)
Lemma swallow_answer ctx other w :
  swallow (call_answerCallbackQuery ctx other) w =
    (Ok tt, snd (emit (ev_answerCallbackQuery other) w)).
Proof.
  unfold swallow, try_catch, call_answerCallbackQuery, bind, emit. simpl.
  by destruct (answerCallbackQuery ctx (log w) other) as [e|[]].
Qed.

(** The middleware past its first test, for a handler of this menu. *)
Lemma middleware_owned self ctx w this h p a :
  menus w !! self = Some this →
  lookup_handler this ctx = Some h →
  parseAction (action h) = Some p →
  Codec.action p = Some a →
  sourceId p = id this →
  middleware self ctx w =
    if stale ctx w then
      (let* _ := swallow (call_answerCallbackQuery ctx
                            (Some (mkAnswer (stale_text this) true))) in
       ret returned) w
    else try_catch (try_block self this ctx a h) (catch_block ctx) w.
Proof.
  intros Hthis Hh Hp Ha Hs. unfold middleware.
  erewrite bind_ok; [|unfold this_menu; by rewrite Hthis].
  rewrite Hh. simpl. rewrite Hp. simpl. rewrite Ha, Hs.
  by rewrite bool_decide_eq_false_2 by (by intros ?).
Qed.

End MiddlewareFacts.

(** C1. When the pressed token resolves (static map first, then the chat's
    dynamic map) to a handler whose own token decodes to a recognised action
    of this menu, and the message the interaction targets is not the
    session's active message, the middleware makes exactly one Bot API
    call, answering the interaction with the configured stale text as an
    alert, and returns normally: the handler is not called, nothing is
    thrown, and apart from that one event the world is as it was. *)
Theorem C1_stale_interaction_is_answered self ctx w this h p :
  menus w !! self = Some this →
  lookup_handler this ctx = Some h →
  parseAction (action h) = Some p →
  sourceId p = id this →
  callbackQuery ctx ≫= message_id ≠ active_of (session_key ctx) w →
  middleware self ctx w =
    (Ok returned,
     mkWorld (menus w) (sessions w) (ctx_menu_state w)
       (log w ++ [ev_answerCallbackQuery
                    (Some (mkAnswer (stale_text this) true))])
       (now w) (due w)).
Proof.
  intros Hthis Hh Hp Hs Hstale.
  pose proof (parseAction_action _ _ Hp) as Ha.
  rewrite (middleware_owned _ _ _ _ _ _ _ Hthis Hh Hp Ha Hs).
  rewrite (stale_true _ _ Hstale).
  erewrite bind_ok; [|apply swallow_answer]. done.
Qed.

Lemma C1_stale_interaction_is_answered_witness :
  middleware "main00"
    (Example.ctx_press "eijdfwof:main00:call:xxxxxx" 7) Example.world1
  = (Ok returned,
     mkWorld (menus Example.world1) (sessions Example.world1)
       (ctx_menu_state Example.world1)
       (log Example.world1 ++
          [ev_answerCallbackQuery
             (Some (mkAnswer "The menu is stalled" true))])
       (now Example.world1) (due Example.world1)).
Proof.
  refine (C1_stale_interaction_is_answered "main00"
    (Example.ctx_press "eijdfwof:main00:call:xxxxxx" 7) Example.world1
    (with_dynamic Example.main_menu "42"
       (by_action
          [mkHandler "eijdfwof:main00:call:xxxxxx" (Some Example.do_refresh);
           mkHandler "eijdfwof:main00:call:yyyyyy" (Some Example.do_throw)]))
    (mkHandler "eijdfwof:main00:call:xxxxxx" (Some Example.do_refresh))
    (mkParsed (Some callback) "main00" (Some "xxxxxx"))
    _ _ _ _ _).
  - vm_compute. reflexivity.
  - vm_compute. reflexivity.
  - reflexivity.
  - reflexivity.
  - vm_compute. discriminate.
Defined.

(** C8. When the interaction is for this menu and not stale and the handler
    is called, whatever the awaited race throws is answered to the user as
    an alert whose text is the error's message ("Unknown error" if it has
    none), and then the same error is thrown on to the host. The race
    throws the error the handler threw, if it threw before the menu's timer
    fired; it throws the menu's timeout error if the handler had not
    settled by then -- be it that it waits for something that never
    settles, or for a render whose own timer fires no earlier than the
    menu's. The handler runs with the menu's timer due; the clock then
    shows when the race was settled. *)
Theorem C8_handler_error_is_shown_and_rethrown
    self ctx w this h p callbackFn data w1 res w2 e :
  menus w !! self = Some this →
  lookup_handler this ctx = Some h →
  parseAction (action h) = Some p →
  sourceId p = id this →
  callbackQuery ctx ≫= message_id = active_of (session_key ctx) w →
  Layout.callbackFn h = Some callbackFn →
  enter_callback self ctx w = (Ok data, w1) →
  fires_first (timeout_ms this) w1 = true →
  run_callback (getCallbackActions self ctx) ctx (callbackFn ctx data)
    (snd (emit (ev_callback (action h) data) (racing (timeout_ms this) w1)))
    = (res, w2) →
  thrown (timeout_text this) res = Some e →
  middleware self ctx w =
    (Throw e,
     snd (emit (ev_answerCallbackQuery
                  (Some (mkAnswer (default "Unknown error" (message e)) true)))
               (after_race (timeout_ms this) w1 res w2))).
Proof.
  intros Hthis Hh Hp Hs Hfresh Hfn Henter Hfirst Hrun Hthrown.
  pose proof (parseAction_action _ _ Hp) as Ha.
  rewrite (middleware_owned _ _ _ _ _ _ _ Hthis Hh Hp Ha Hs).
  rewrite (stale_false _ _ Hfresh).
  assert (try_block self this ctx callback h w
          = (Throw e, after_race (timeout_ms this) w1 res w2)) as Htry.
  { unfold try_block. rewrite Hfn.
    apply bind_throw. rewrite (bind_ok _ _ _ _ _ Henter).
    unfold race. rewrite Hfirst, bind_emit, Hrun.
    destruct res as [[]|e'|]; simpl in Hthrown; [done| |];
      by injection Hthrown as ->. }
  unfold try_catch. rewrite Htry. unfold catch_block.
  erewrite bind_ok; [|apply swallow_answer]. done.
Qed.

(** Three presses. On the first bot, a handler that throws. On the message
    of a menu whose timer is set for three seconds, a handler that awaits
    the navigation to a menu whose loader never settles and whose timer is
    set for one second, and throws what that threw; and the same with a
    menu whose timer is set for five seconds, where the timer of the menu
    that was pressed fires first. *)
Lemma C8_handler_error_is_shown_and_rethrown_witness :
  middleware "main00"
    (Example.ctx_press "eijdfwof:main00:call:yyyyyy" 1) Example.world1
  = (Throw (new_Error "boom"),
     mkWorld (menus Example.world1) (sessions Example.world1) None
       (log Example.world1 ++
          [ev_callback "eijdfwof:main00:call:yyyyyy" Example.previous_args;
           ev_answerCallbackQuery (Some (mkAnswer "boom" true))])
       0 None)
  ∧ (let after :=
       middleware "outer0"
         (Example.ctx_press "eijdfwof:outer0:call:gobrsk" 1)
         Timers.world_sent in
     fst after = Throw (new_Error "brisk too slow")
     ∧ log (snd after)
       = log Timers.world_sent ++
           [ev_callback "eijdfwof:outer0:call:gobrsk" VUndefined;
            ev_loader "brisk0" VUndefined;
            ev_answerCallbackQuery (Some (mkAnswer "brisk too slow" true))]
     ∧ now (snd after) = 1000%Z)
  ∧ (let after :=
       middleware "outer0"
         (Example.ctx_press "eijdfwof:outer0:call:goinnr" 1)
         Timers.world_sent in
     fst after = Throw (new_Error "outer too slow")
     ∧ log (snd after)
       = log Timers.world_sent ++
           [ev_callback "eijdfwof:outer0:call:goinnr" VUndefined;
            ev_loader "inner0" VUndefined;
            ev_answerCallbackQuery (Some (mkAnswer "outer too slow" true))]
     ∧ now (snd after) = 3000%Z).
Proof.
  split; [|split].
  - refine (C8_handler_error_is_shown_and_rethrown "main00"
      (Example.ctx_press "eijdfwof:main00:call:yyyyyy" 1) Example.world1
      (with_dynamic Example.main_menu "42"
         (by_action
            [mkHandler "eijdfwof:main00:call:xxxxxx" (Some Example.do_refresh);
             mkHandler "eijdfwof:main00:call:yyyyyy" (Some Example.do_throw)]))
      (mkHandler "eijdfwof:main00:call:yyyyyy" (Some Example.do_throw))
      (mkParsed (Some callback) "main00" (Some "yyyyyy"))
      Example.do_throw Example.previous_args
      (mkWorld (menus Example.world1) (sessions Example.world1) None
               (log Example.world1) 0 None)
      (Throw (new_Error "boom"))
      (mkWorld (menus Example.world1) (sessions Example.world1) None
         (log Example.world1 ++
            [ev_callback "eijdfwof:main00:call:yyyyyy" Example.previous_args])
         0 (Some 10000%Z))
      (new_Error "boom")
      _ _ _ _ _ _ _ _ _ _).
    + vm_compute. reflexivity.
    + vm_compute. reflexivity.
    + reflexivity.
    + reflexivity.
    + vm_compute. reflexivity.
    + reflexivity.
    + vm_compute. reflexivity.
    + reflexivity.
    + reflexivity.
    + reflexivity.
  - rewrite (C8_handler_error_is_shown_and_rethrown "outer0"
      (Example.ctx_press "eijdfwof:outer0:call:gobrsk" 1) Timers.world_sent
      (with_dynamic Timers.outer_menu "42" (by_action []))
      (mkHandler "eijdfwof:outer0:call:gobrsk" (Some (Timers.go "brisk0")))
      (mkParsed (Some callback) "outer0" (Some "gobrsk"))
      (Timers.go "brisk0") VUndefined
      (snd (enter_callback "outer0"
              (Example.ctx_press "eijdfwof:outer0:call:gobrsk" 1)
              Timers.world_sent))
      (Throw (new_Error "brisk too slow")) _ (new_Error "brisk too slow")
      ltac:(vm_compute; reflexivity) ltac:(vm_compute; reflexivity)
      eq_refl eq_refl ltac:(vm_compute; reflexivity) eq_refl
      ltac:(vm_compute; reflexivity) ltac:(vm_compute; reflexivity)
      ltac:(vm_compute; reflexivity) eq_refl).
    vm_compute. done.
  - rewrite (C8_handler_error_is_shown_and_rethrown "outer0"
      (Example.ctx_press "eijdfwof:outer0:call:goinnr" 1) Timers.world_sent
      (with_dynamic Timers.outer_menu "42" (by_action []))
      (mkHandler "eijdfwof:outer0:call:goinnr" (Some (Timers.go "inner0")))
      (mkParsed (Some callback) "outer0" (Some "goinnr"))
      (Timers.go "inner0") VUndefined
      (snd (enter_callback "outer0"
              (Example.ctx_press "eijdfwof:outer0:call:goinnr" 1)
              Timers.world_sent))
      Hang _ (new_Error "outer too slow")
      ltac:(vm_compute; reflexivity) ltac:(vm_compute; reflexivity)
      eq_refl eq_refl ltac:(vm_compute; reflexivity) eq_refl
      ltac:(vm_compute; reflexivity) ltac:(vm_compute; reflexivity)
      ltac:(vm_compute; reflexivity) eq_refl).
    vm_compute. done.
Defined.

(** ** Sending and rendering *)

Section SendFacts.

Lemma call_reply_unfold ctx text other w :
  call_reply ctx text other w =
    (match reply ctx (log w) text other with
     | inr message_id => Ok message_id
     | inl e => Throw e
     end, snd (emit (ev_reply text other) w)).
Proof.
  unfold call_reply. rewrite bind_emit.
  by destruct (reply ctx (log w) text other).
Qed.

Lemma call_edit_unfold ctx text other w :
  call_editMessageText ctx text other w =
    (match editMessageText ctx (log w) text other with
     | inr u => Ok u
     | inl e => Throw e
     end, snd (emit (ev_editMessageText text other) w)).
Proof.
  unfold call_editMessageText. rewrite bind_emit.
  by destruct (editMessageText ctx (log w) text other).
Qed.

(** A [send] whose layout was built and whose message was sent. *)
Lemma send_try_ok self ctx args w r w1 message_id :
  buildLayout self ctx args w = (Ok r, w1) →
  reply ctx (log w1) (Some (rendered_text r))
        (Some (mkOther (rendered_parseMode r) (rendered_keyboard r)))
    = inr message_id →
  ∃ ms,
    _menu (session_of ctx w1) = Some ms
    ∧ send_try self ctx args w =
        (Ok tt,
         set_session ctx
           (mkSession (Some (mkMenuSession (Some message_id)
              (activeMenuLoaderArgs ms) (activeMenuLoaderData ms) (slots ms))))
           (snd (emit (ev_reply (Some (rendered_text r))
                   (Some (mkOther (rendered_parseMode r)
                                  (rendered_keyboard r)))) w1))).
Proof.
  intros Hb Hr.
  destruct (buildLayout_Ok_inv _ _ _ _ _ _ Hb)
    as (this & loaded & built & wa & wb & _ & _ & _ & _ & _ & ms & Hms & _).
  exists ms. split; [done|]. unfold send_try.
  rewrite (bind_ok _ _ _ _ _ Hb).
  erewrite bind_ok; [|rewrite call_reply_unfold, Hr; reflexivity].
  erewrite bind_ok; [done|].
  unfold the_menu_session.
  change (session_of ctx (snd (emit _ w1))) with (session_of ctx w1).
  by rewrite Hms.
Qed.

End SendFacts.

(** C2. No render writes [activeMessageId]: whatever way [render] ends --
    and so whatever [ctx.menu.navigate] or [ctx.menu.refresh] does, to this
    menu or another -- the active message of every session is what it was;
    the same holds for running any handler body, for a whole pass through
    the middleware, and so for any sequence of navigations and
    interactions. A [send] that builds its layout and gets its
    message sent returns normally and leaves the identifier of that message
    as the session's [activeMessageId], whatever was there before (so also
    after a previous [send] of the same menu), and leaves the other
    sessions alone. *)
Theorem C2_only_send_moves_the_active_message :
  (∀ self ctx args w key,
     active_of key (snd (render self ctx args w)) = active_of key w)
  ∧ (∀ self ctx p w key,
       active_of key
         (snd (run_callback (getCallbackActions self ctx) ctx p w))
       = active_of key w)
  ∧ (∀ self ctx w key,
       active_of key (snd (middleware self ctx w)) = active_of key w)
  ∧ (∀ ops w key,
       Forall (λ op, is_send op = false) ops →
       active_of key (foldl perform w ops) = active_of key w)
  ∧ (∀ self ctx args w r w1 message_id,
       buildLayout self ctx args w = (Ok r, w1) →
       reply ctx (log w1) (Some (rendered_text r))
             (Some (mkOther (rendered_parseMode r) (rendered_keyboard r)))
         = inr message_id →
       fst (send self ctx args w) = Ok tt
       ∧ active_of (session_key ctx) (snd (send self ctx args w))
         = Some message_id
       ∧ ∀ key, key ≠ session_key ctx →
           active_of key (snd (send self ctx args w)) = active_of key w).
Proof.
  split; [|split; [|split; [|split]]].
  - intros self ctx args w key. apply render_same_active.
  - intros self ctx p w key. apply run_callback_same_active.
  - intros self ctx w key. apply middleware_same_active.
  - intros ops w key Hops. revert w.
    induction Hops as [|op ops Hop _ IH]; intros w; simpl; [done|].
    rewrite IH. destruct op as [self ctx args|self ctx|self ctx args]; simpl.
    + apply render_same_active.
    + apply middleware_same_active.
    + done.
  - intros self ctx args w r w1 message_id Hb Hr.
    destruct (send_try_ok _ _ _ _ _ _ _ Hb Hr) as (ms & Hms & Htry).
    unfold send, try_catch. rewrite Htry. simpl.
    split; [done|]. split.
    + rewrite active_of_set_session. by rewrite decide_True.
    + intros key Hkey. rewrite active_of_set_session.
      rewrite decide_False by done.
      pose proof (keeps_apply _ _ _ _ _
        (frame_buildLayout same_active same_active_store
           (λ owner w, same_active_menus w _ _ _ _ _) same_active_put
           (λ ev w, same_active_menus w _ _ _ _ _) same_active_dynamic
           (λ t d w, same_active_menus w _ _ _ _ _)
           self ctx args) Hb) as Hsame.
      apply Hsame.
Qed.

Lemma C2_only_send_moves_the_active_message_witness :
  fst (send "main00" Example.ctx_command Example.previous_args Example.world1)
    = Ok tt
  ∧ active_of "42" Example.world1 = Some 1%Z
  ∧ active_of "42"
      (snd (send "main00" Example.ctx_command Example.previous_args
              Example.world1)) = Some 3%Z
  ∧ active_of "42"
      (foldl perform Example.world1
         [op_interaction "main00"
            (Example.ctx_press "eijdfwof:main00:call:aaaaaa" 1);
          op_navigate "main00" Example.ctx_command VNull;
          op_interaction "main00"
            (Example.ctx_press "eijdfwof:main00:call:xxxxxx" 1)])
    = Some 1%Z.
Proof.
  pose proof C2_only_send_moves_the_active_message as (_ & _ & _ & Hops & Hs).
  pose proof (Hs
    "main00" Example.ctx_command Example.previous_args Example.world1
    (mkRendered "main" Example.main_keyboard None)
    (snd (buildLayout "main00" Example.ctx_command Example.previous_args
            Example.world1))
    3%Z) as H.
  destruct H as (H1 & H2 & _).
  - vm_compute. reflexivity.
  - vm_compute. reflexivity.
  - split; [exact H1|]. split; [vm_compute; reflexivity|].
    split; [exact H2|].
    rewrite Hops; [vm_compute; reflexivity|].
    repeat constructor.
Defined.

(** ** The per-chat handler maps *)

Section DynamicFacts.

(** After a [buildLayout] that returns, the menu object is the old one
    with the chat's map set to the dynamic handlers of this build. *)
Lemma buildLayout_dynamic self ctx args w r w1 :
  buildLayout self ctx args w = (Ok r, w1) →
  ∃ this loaded built wa wb,
    menus w !! self = Some this
    ∧ build (builder this) ctx (loaded_data loaded) wa = (Ok built, wb)
    ∧ rendered_keyboard r = keyboard built
    ∧ menus w1 !! self
      = Some (with_dynamic this (chat_key ctx)
                (by_action (dynamicHandlers built))).
Proof.
  intros Hb.
  destruct (buildLayout_Ok_inv _ _ _ _ _ _ Hb)
    as (this & loaded & built & wa & wb & Hthis & Hbuild & -> & Hm & _).
  exists this, loaded, built, wa, wb. repeat split; [done|done|].
  by rewrite Hm, lookup_insert_eq.
Qed.

Lemma dynamic_of_with_dynamic self key map this w :
  menus w !! self = Some (with_dynamic this key map) →
  dynamic_of self key w = Some map.
Proof.
  intros H. unfold dynamic_of. rewrite H. simpl. by rewrite lookup_insert_eq.
Qed.

Lemma render_menus self ctx args w r w1 :
  buildLayout self ctx args w = (Ok r, w1) →
  menus (snd (render self ctx args w)) = menus w1.
Proof.
  intros Hb. unfold render. rewrite (bind_ok _ _ _ _ _ Hb).
  by rewrite call_edit_unfold.
Qed.

Lemma send_menus self ctx args w r w1 :
  buildLayout self ctx args w = (Ok r, w1) →
  menus (snd (send self ctx args w)) = menus w1.
Proof.
  intros Hb. unfold send, send_try, try_catch.
  rewrite (bind_ok _ _ _ _ _ Hb).
  unfold bind, call_reply, emit, settle, the_menu_session, put_menu_session,
    ret, throw. simpl.
  destruct (reply ctx (log w1) _ _) as [e|message_id]; simpl.
  - by destruct (reply ctx _ _ _).
  - destruct (_menu (session_of ctx _)); simpl; [done|].
    by destruct (reply ctx _ _ _).
Qed.

(** A token that is in neither map is passed on. *)
Lemma middleware_unresolved self ctx w this :
  menus w !! self = Some this →
  lookup_handler this ctx = None →
  middleware self ctx w = (Ok via_next, w).
Proof.
  intros Hthis Hh. unfold middleware.
  erewrite bind_ok; [|unfold this_menu; by rewrite Hthis].
  by rewrite Hh.
Qed.

Lemma lookup_handler_with_dynamic this key map ctx :
  chat_key ctx = key →
  lookup_handler (with_dynamic this key map) ctx =
    match staticActionHandlersByAction this !! pressed ctx with
    | Some h => Some h
    | None => map !! pressed ctx
    end.
Proof.
  intros <-. unfold lookup_handler. simpl. by rewrite lookup_insert_eq.
Qed.

End DynamicFacts.

(** ** Renders that fail *)

Global Instance same_menus_refl : Reflexive same_menus.
Proof. intros w. reflexivity. Qed.
Global Instance same_menus_trans : Transitive same_menus.
Proof. intros w1 w2 w3 H1 H2. unfold same_menus in *. congruence. Qed.
Global Instance scaffold_stays_refl ctx : Reflexive (scaffold_stays ctx).
Proof. intros w. by split. Qed.
Global Instance scaffold_stays_trans ctx : Transitive (scaffold_stays ctx).
Proof.
  intros w1 w2 w3 [H1 H1'] [H2 H2']. split; [congruence|]. intros H.
  by apply H2', H1'.
Qed.

Section ScaffoldFacts.

Lemma store_state_menus ctx v w : menus (store_state ctx v w) = menus w.
Proof. by destruct (quiet_store ctx v w). Qed.

Lemma session_of_set_session_is_Some ctx ctx' ms w :
  is_Some (_menu (session_of ctx w)) →
  is_Some (_menu (session_of ctx (set_session ctx' (mkSession (Some ms)) w))).
Proof.
  intros H. unfold session_of, set_session in *. cbn.
  destruct (decide (session_key ctx' = session_key ctx)) as [->|Hne].
  - by rewrite lookup_insert_eq.
  - by rewrite lookup_insert_ne.
Qed.

Lemma scaffold_stays_store ctx ctx' v w :
  scaffold_stays ctx w (store_state ctx' v w).
Proof.
  split; [apply store_state_menus|]. unfold store_state.
  destruct (ctx_menu_state w) as [owner|]; [|done].
  destruct (_menu (session_of ctx' w)) as [ms|]; [|done].
  destruct (slots ms !! owner); [|done].
  apply session_of_set_session_is_Some.
Qed.

Lemma scaffold_stays_put ctx ctx' ms w :
  scaffold_stays ctx w (snd (put_menu_session ctx' ms w)).
Proof. split; [done|]. apply session_of_set_session_is_Some. Qed.

Lemma scaffold_stays_install ctx owner w :
  scaffold_stays ctx w (snd (install_state owner w)).
Proof. by split. Qed.

Lemma scaffold_stays_emit ctx ev w : scaffold_stays ctx w (snd (emit ev w)).
Proof. by split. Qed.

(** The statements of [buildLayout] before the loader is called leave the
    menu objects alone; when they are through, [this] is the menu object
    and the session has its [_menu]. *)
Lemma before_loader_menus self ctx : keeps same_menus (before_loader self ctx).
Proof.
  unfold before_loader.
  apply keeps_bind; [apply _| |].
  { apply frame_initContext; try apply _. by intros. }
  intros _. apply keeps_bind; [apply _| |].
  { apply frame_getState; try apply _. by intros. }
  intros state. apply keeps_bind; [apply _| |].
  { apply frame_install_if; try apply _. by intros. }
  intros _. apply keeps_bind; [apply _|by apply frame_this_menu|].
  intros this. apply keeps_bind; [apply _| |intros _; by apply keeps_ret].
  destruct (onEnterFn this); [|by apply keeps_ret].
  apply frame_await_user; try apply _. apply store_state_menus.
Qed.

Lemma before_loader_Ok_inv self ctx w this w1 :
  before_loader self ctx w = (Ok this, w1) →
  menus w !! self = Some this
  ∧ menus w1 = menus w
  ∧ is_Some (_menu (session_of ctx w1)).
Proof.
  intros H.
  pose proof (keeps_apply _ _ _ _ _ (before_loader_menus self ctx) H) as Hm.
  unfold before_loader in H.
  unbind H as u1 wi H1. unbind H as state ws H2. unbind H as u3 wj H3.
  unbind H as this' w4 H4. unbind H as u5 w5 H5. inv_ret H.
  assert (is_Some (_menu (session_of ctx wi))) as Hi.
  { unfold initContext in H1. unbind H1 as this0 w0 H0.
    unfold put_menu_session in H1. injection H1 as _ <-.
    rewrite session_of_set_session. by eexists. }
  assert (scaffold_stays ctx wi w1) as [_ Hsc].
  { etrans.
    { eapply (keeps_apply _ _ _ _ _
        (frame_getState (scaffold_stays ctx)
           (λ ctx' ms' w _, scaffold_stays_put ctx ctx' ms' w) self ctx) H2). }
    etrans.
    { eapply (keeps_apply _ _ _ _ _
        (frame_install_if (scaffold_stays ctx)
           (scaffold_stays_install ctx) state) H3). }
    etrans.
    { eapply (keeps_apply _ _ _ _ _
        (frame_this_menu (scaffold_stays ctx) self) H4). }
    destruct (onEnterFn this).
    - eapply (keeps_apply _ _ _ _ _
        (frame_await_user (scaffold_stays ctx)
           (scaffold_stays_store ctx) ctx _) H5).
    - by inv_ret H5. }
  split; [|split; [done|by apply Hsc]].
  apply this_menu_Ok_inv in H4 as [-> H4].
  assert (same_menus w wj) as Hj.
  { etrans.
    { eapply (keeps_apply _ _ _ _ _
        (frame_initContext same_menus (λ ctx' ms' w _, eq_refl) self ctx) H1). }
    etrans.
    { eapply (keeps_apply _ _ _ _ _
        (frame_getState same_menus (λ ctx' ms' w _, eq_refl) self ctx) H2). }
    eapply (keeps_apply _ _ _ _ _
        (frame_install_if same_menus (λ owner w, eq_refl) state) H3). }
  unfold same_menus in Hj. by rewrite <- Hj.
Qed.

End ScaffoldFacts.

Section RenderOutcomes.

Lemma buildLayout_unfold self ctx args w :
  buildLayout self ctx args w =
    (let* this := before_loader self ctx in
     let* loaded := race (timeout_text this) (timeout_ms this)
                      (let* _ := emit (ev_loader self args) in
                       await_user ctx (loaderFn this ctx args)) in
     let* built := build (builder this) ctx (loaded_data loaded) in
     let* _ := set_dynamic self (chat_key ctx)
                 (by_action (dynamicHandlers built)) in
     let* ms := the_menu_session ctx "activeMenuLoaderArgs" in
     let* _ := put_menu_session ctx
                 (mkMenuSession (activeMessageId ms) args
                                (loaded_data loaded) (slots ms)) in
     ret (mkRendered (text loaded) (keyboard built) (parseMode loaded))) w.
Proof.
  unfold buildLayout, before_loader, bind.
  destruct (initContext self ctx w) as [[u1|e|] w1]; try done.
  destruct (getState self ctx w1) as [[state|e|] w2]; try done.
  destruct (install_if state w2) as [[u3|e|] w3]; try done.
  destruct (this_menu self w3) as [[this|e|] w4]; try done.
  by destruct (match onEnterFn this with
               | Some onEnter => await_user ctx (onEnter ctx)
               | None => ret tt
               end w4) as [[u5|e|] w5].
Qed.

Lemma loader_scaffold ctx text ms ev (f : UserFn LoaderResult) :
  keeps (scaffold_stays ctx)
    (race text ms (let* _ := emit ev in await_user ctx f)).
Proof.
  apply (keeps_race (scaffold_stays ctx)); [by intros|].
  apply keeps_bind; [apply _| |].
  - intros w. apply scaffold_stays_emit.
  - intros _. apply frame_await_user; try apply _.
    apply scaffold_stays_store.
Qed.

Lemma build_scaffold b ctx data : keeps (scaffold_stays ctx) (build b ctx data).
Proof. apply frame_build; try apply _. apply scaffold_stays_store. Qed.

(** [buildLayout] returns, or it has left every menu object as it was. *)
Lemma buildLayout_returns_or_leaves_menus self ctx args w :
  (∃ r, fst (buildLayout self ctx args w) = Ok r)
  ∨ menus (snd (buildLayout self ctx args w)) = menus w.
Proof.
  destruct (buildLayout self ctx args w) as [res w'] eqn:Hb. cbn.
  rewrite buildLayout_unfold in Hb. unfold bind at 1 in Hb.
  pose proof (before_loader_menus self ctx w) as Hm1.
  destruct (before_loader self ctx w) as [[this|e|] w1] eqn:H1;
    cbn in Hm1; unfold same_menus in Hm1;
    [|injection Hb as <- <-; by right|injection Hb as <- <-; by right].
  destruct (before_loader_Ok_inv _ _ _ _ _ H1) as (Hthis & _ & Hs1).
  unfold bind at 1 in Hb.
  pose proof (loader_scaffold ctx (timeout_text this) (timeout_ms this)
                (ev_loader self args) (loaderFn this ctx args) w1)
    as [Hm2 Hs2].
  destruct (race _ _ _ w1) as [[loaded|e|] w2] eqn:H2; cbn in Hm2, Hs2;
    [|injection Hb as <- <-; right; congruence
     |injection Hb as <- <-; right; congruence].
  unfold bind at 1 in Hb.
  pose proof (build_scaffold (builder this) ctx (loaded_data loaded) w2)
    as [Hm3 Hs3].
  destruct (build _ _ _ w2) as [[built|e|] w3] eqn:H3; cbn in Hm3, Hs3;
    [|injection Hb as <- <-; right; congruence
     |injection Hb as <- <-; right; congruence].
  left. unfold bind, set_dynamic in Hb.
  rewrite Hm3, Hm2, Hm1, Hthis in Hb.
  unfold the_menu_session, session_of in *. cbn in Hb.
  destruct (Hs3 (Hs2 Hs1)) as [ms Hms]. rewrite Hms in Hb.
  injection Hb as <- _. by eexists.
Qed.

End RenderOutcomes.

(** C6, as the code has it. A render that gets as far as compiling its
    layout puts, under the chat's key, the map made of exactly the dynamic
    handlers of that compile, whatever map was there before; this is the
    map after [buildLayout], after [render] and after [send], and its keys
    are the tokens of those handlers and no others. A token that is not a
    key of the static map and that this compile did not mint is then passed
    on by the middleware for that chat, whether an earlier render had
    minted it or not. The maps of the other chats stay as they were. A
    render that does not get that far -- because the state initialiser,
    [onEnter], the loader or a dynamic section fails or is not settled, or
    the loader's timer fires -- leaves every menu object as it was, after
    [render] and after [send]: the chat's map is still the one of the
    render before, whose tokens go on resolving. No render, send or
    interaction changes the static map of any menu. *)
Theorem C6_dynamic_map_is_replaced_by_a_render_that_compiles :
  (∀ self ctx args w r w1,
     buildLayout self ctx args w = (Ok r, w1) →
     ∃ this loaded built wa wb,
       menus w !! self = Some this
       ∧ build (builder this) ctx (loaded_data loaded) wa = (Ok built, wb)
       ∧ rendered_keyboard r = keyboard built
       ∧ dynamic_of self (chat_key ctx) w1
         = Some (by_action (dynamicHandlers built))
       ∧ dynamic_of self (chat_key ctx) (snd (render self ctx args w))
         = Some (by_action (dynamicHandlers built))
       ∧ dynamic_of self (chat_key ctx) (snd (send self ctx args w))
         = Some (by_action (dynamicHandlers built))
       ∧ (∀ token,
            by_action (dynamicHandlers built) !! token = None
            ↔ token ∉ action <$> dynamicHandlers built)
       ∧ (∀ key, key ≠ chat_key ctx →
            dynamic_of self key w1 = dynamic_of self key w)
       ∧ ∀ ctx' w',
           menus w' = menus w1 →
           chat_key ctx' = chat_key ctx →
           staticActionHandlersByAction this !! pressed ctx' = None →
           pressed ctx' ∉ action <$> dynamicHandlers built →
           middleware self ctx' w' = (Ok via_next, w'))
  ∧ (∀ self ctx args w,
       (∀ r, fst (buildLayout self ctx args w) ≠ Ok r) →
       menus (snd (buildLayout self ctx args w)) = menus w
       ∧ menus (snd (render self ctx args w)) = menus w
       ∧ menus (snd (send self ctx args w)) = menus w)
  ∧ (∀ self ctx args w menu,
       static_of menu (snd (render self ctx args w)) = static_of menu w
       ∧ static_of menu (snd (send self ctx args w)) = static_of menu w
       ∧ static_of menu (snd (middleware self ctx w)) = static_of menu w).
Proof.
  split; [|split].
  - intros self ctx args w r w1 Hb.
    destruct (buildLayout_dynamic _ _ _ _ _ _ Hb)
      as (this & loaded & built & wa & wb & Hthis & Hbuild & Hk & Hm).
    exists this, loaded, built, wa, wb.
    split; [done|]. split; [done|]. split; [done|].
    split; [by eapply dynamic_of_with_dynamic|].
    split.
    { eapply dynamic_of_with_dynamic.
      by rewrite (render_menus _ _ _ _ _ _ Hb). }
    split.
    { eapply dynamic_of_with_dynamic.
      by rewrite (send_menus _ _ _ _ _ _ Hb). }
    split; [intros token; apply by_action_None_iff|].
    split.
    { intros key Hne. unfold dynamic_of. rewrite Hm, Hthis. simpl.
      by rewrite lookup_insert_ne. }
    intros ctx' w' Hw' Hkey Hstatic Hfresh.
    eapply middleware_unresolved; [by rewrite Hw'|].
    rewrite lookup_handler_with_dynamic by done. rewrite Hstatic.
    by apply by_action_None.
  - intros self ctx args w Hfail.
    destruct (buildLayout_returns_or_leaves_menus self ctx args w)
      as [[r Hr]|Hm]; [by destruct (Hfail r)|].
    split; [done|]. unfold render, send, send_try, try_catch, bind.
    destruct (buildLayout self ctx args w) as [[r|e|] w1];
      [by destruct (Hfail r)| |by split].
    split; [done|]. rewrite call_reply_unfold. cbn in *.
    by destruct (reply ctx (log w1) (message e) None).
  - intros self ctx args w menu. split; [|split].
    + apply render_same_static.
    + apply send_same_static.
    + apply middleware_same_static.
Qed.

(** C10. A context without a chat has the empty string as its key. A
    [buildLayout] for such a context stores the dynamic handlers of its
    compile under the empty string, replacing what any other chat-less
    context stored there, and the middleware for any chat-less context
    looks the pressed token up in the static map and then in the map under
    the empty string: the one registry all chat-less contexts share. *)
Theorem C10_chatless_contexts_share_one_registry :
  (∀ ctx, chat ctx = None → chat_key ctx = "")
  ∧ (∀ self ctx args w r w1,
       chat ctx = None →
       buildLayout self ctx args w = (Ok r, w1) →
       ∃ this loaded built wa wb,
         menus w !! self = Some this
         ∧ build (builder this) ctx (loaded_data loaded) wa = (Ok built, wb)
         ∧ dynamic_of self "" w1 = Some (by_action (dynamicHandlers built))
         ∧ ∀ ctx' this1,
             chat ctx' = None →
             menus w1 !! self = Some this1 →
             lookup_handler this1 ctx' =
               match staticActionHandlersByAction this !! pressed ctx' with
               | Some h => Some h
               | None => by_action (dynamicHandlers built) !! pressed ctx'
               end)
  ∧ (∀ this ctx,
       chat ctx = None →
       lookup_handler this ctx =
         match staticActionHandlersByAction this !! pressed ctx with
         | Some h => Some h
         | None =>
             dynamicActionHandlersByActionByChatId this !! ""
               ≫= (λ map, map !! pressed ctx)
         end).
Proof.
  assert (∀ ctx, chat ctx = None → chat_key ctx = "") as Hkey.
  { intros ctx H. unfold chat_key. by rewrite H. }
  split; [exact Hkey|]. split.
  - intros self ctx args w r w1 Hchat Hb.
    destruct (buildLayout_dynamic _ _ _ _ _ _ Hb)
      as (this & loaded & built & wa & wb & Hthis & Hbuild & Hk & Hm).
    rewrite (Hkey _ Hchat) in Hm.
    exists this, loaded, built, wa, wb.
    split; [done|]. split; [done|].
    split; [by eapply dynamic_of_with_dynamic|].
    intros ctx' this1 Hchat' Hthis1.
    rewrite Hm in Hthis1. injection Hthis1 as <-.
    apply lookup_handler_with_dynamic. by apply Hkey.
  - intros this ctx Hchat. unfold lookup_handler. by rewrite (Hkey _ Hchat).
Qed.

(** The menu that lists what it is asked for, after it was sent for
    "first1". Rendered again for "second", it has for the chat the map of
    that second compile, and a press on the first button is passed on;
    rendered again with a loader that does not settle, it is as it was. *)
Lemma C6_dynamic_map_is_replaced_by_a_render_that_compiles_witness :
  (dynamic_of "list00" "42" Listing.world_first
     ≫= (λ map, map !! Listing.first_token)
   = Some (mkHandler Listing.first_token (Some Listing.open_item)))
  ∧ (∃ built,
       keyboard built = [[text_button "item" "eijdfwof:list00:call:second"]]
       ∧ dynamic_of "list00" "42"
           (snd (render "list00" Example.ctx_command (VStr "second")
                   Listing.world_first))
         = Some (by_action (dynamicHandlers built)))
  ∧ middleware "list00" (Example.ctx_press Listing.first_token 1)
      (snd (render "list00" Example.ctx_command (VStr "second")
              Listing.world_first))
    = (Ok via_next,
       snd (render "list00" Example.ctx_command (VStr "second")
              Listing.world_first))
  ∧ menus (snd (render "list00" Example.ctx_command (VStr "wait")
                  Listing.world_first))
    = menus Listing.world_first.
Proof.
  split; [vm_compute; reflexivity|].
  destruct C6_dynamic_map_is_replaced_by_a_render_that_compiles
    as (Hok & Hfail & _).
  destruct (Hok "list00" Example.ctx_command (VStr "second")
    Listing.world_first
    (mkRendered "list" [[text_button "item" "eijdfwof:list00:call:second"]]
                None)
    (snd (buildLayout "list00" Example.ctx_command (VStr "second")
            Listing.world_first)))
    as (this & loaded & built & wa & wb & Hthis & _ & Hk & Hd & Hrender & _
        & Hiff & _ & Hnext).
  { vm_compute. reflexivity. }
  split; [exists built; split; [by rewrite <- Hk|exact Hrender]|].
  split.
  - assert (this = with_dynamic Listing.list_menu "42"
              (by_action [mkHandler Listing.first_token
                                    (Some Listing.open_item)])) as ->.
    { assert (menus Listing.world_first !! "list00"
              = Some (with_dynamic Listing.list_menu "42"
                        (by_action [mkHandler Listing.first_token
                                              (Some Listing.open_item)])))
        as Hm by (vm_compute; reflexivity).
      congruence. }
    assert (by_action (dynamicHandlers built) !! Listing.first_token = None)
      as Hnone.
    { assert (dynamic_of "list00" (chat_key Example.ctx_command)
                (snd (buildLayout "list00" Example.ctx_command (VStr "second")
                        Listing.world_first))
                ≫= (λ map, map !! Listing.first_token) = None)
        as Hc by (vm_compute; reflexivity).
      by rewrite Hd in Hc. }
    apply Hnext.
    + vm_compute. reflexivity.
    + reflexivity.
    + vm_compute. reflexivity.
    + by apply Hiff.
  - apply (Hfail "list00" Example.ctx_command (VStr "wait")
             Listing.world_first).
    intros r. vm_compute. discriminate.
Defined.

(** C6, as stated, fails. The menu that lists what it is asked for was
    sent for "first1". A render of it for the same chat whose loader does
    not settle throws the timeout error; the chat's map is then the one
    the send left, and a press on the button of the first message is not
    passed on: its handler is called. *)
Lemma C6_counterexample :
  fst (render "list00" Example.ctx_command (VStr "wait") Listing.world_first)
  = Throw (new_Error "The action took too long to execute")
  ∧ dynamic_of "list00" "42"
      (snd (render "list00" Example.ctx_command (VStr "wait")
              Listing.world_first))
    = dynamic_of "list00" "42" Listing.world_first
  ∧ dynamic_of "list00" "42"
      (snd (render "list00" Example.ctx_command (VStr "wait")
              Listing.world_first))
      ≫= (λ map, map !! Listing.first_token)
    = Some (mkHandler Listing.first_token (Some Listing.open_item))
  ∧ fst (middleware "list00" (Example.ctx_press Listing.first_token 1)
           (snd (render "list00" Example.ctx_command (VStr "wait")
                   Listing.world_first)))
    = Ok returned
  ∧ log (snd (middleware "list00" (Example.ctx_press Listing.first_token 1)
                (snd (render "list00" Example.ctx_command (VStr "wait")
                        Listing.world_first))))
    = log (snd (render "list00" Example.ctx_command (VStr "wait")
                  Listing.world_first))
      ++ [ev_callback Listing.first_token (VStr "first1");
          ev_answerCallbackQuery None].
Proof. repeat split; vm_compute; reflexivity. Qed.

Lemma C10_chatless_contexts_share_one_registry_witness :
  chat_key Example.ctx_anon = ""
  ∧ (∃ this built,
       dynamic_of "main00" ""
         (snd (buildLayout "main00" Example.ctx_anon VNull Example.world0))
       = Some (by_action (dynamicHandlers built))
       ∧ lookup_handler
           (with_dynamic Example.main_menu ""
              (by_action
                 [mkHandler "eijdfwof:main00:call:xxxxxx"
                            (Some Example.do_refresh);
                  mkHandler "eijdfwof:main00:call:yyyyyy"
                            (Some Example.do_throw)]))
           (Example.ctx_of None "other"
              (Some (mkCallbackQuery (Some "eijdfwof:main00:call:xxxxxx")
                                     None)))
         = match staticActionHandlersByAction this
                   !! "eijdfwof:main00:call:xxxxxx" with
           | Some h => Some h
           | None => by_action (dynamicHandlers built)
                       !! "eijdfwof:main00:call:xxxxxx"
           end)
  ∧ lookup_handler Example.main_menu Example.ctx_anon = None.
Proof.
  split; [|split].
  - apply (proj1 C10_chatless_contexts_share_one_registry). reflexivity.
  - destruct (proj1 (proj2 C10_chatless_contexts_share_one_registry)
      "main00" Example.ctx_anon VNull Example.world0
      (mkRendered "main" Example.main_keyboard None)
      (snd (buildLayout "main00" Example.ctx_anon VNull Example.world0)))
      as (this & loaded & built & wa & wb & _ & _ & Hd & Hshare).
    + reflexivity.
    + vm_compute. reflexivity.
    + exists this, built. split; [exact Hd|].
      apply (Hshare (Example.ctx_of None "other"
                       (Some (mkCallbackQuery
                                (Some "eijdfwof:main00:call:xxxxxx") None)))).
      * reflexivity.
      * vm_compute. reflexivity.
  - rewrite (proj2 (proj2 C10_chatless_contexts_share_one_registry)
               Example.main_menu Example.ctx_anon); [|reflexivity].
    vm_compute. reflexivity.
Defined.

(** ** Refresh *)

Section RefreshFacts.

Lemma render_Ok_log self ctx args w u w' :
  render self ctx args w = (Ok u, w') →
  ∃ text other,
    log w' = log w ++ [ev_loader self args; ev_editMessageText text other].
Proof.
  intros H. unfold render in H. unbind H as r w1 Hb.
  destruct (buildLayout_Ok_inv _ _ _ _ _ _ Hb)
    as (this & loaded & built & wa & wb & _ & _ & _ & _ & Hlog & _).
  rewrite call_edit_unfold in H. injection H as _ <-.
  exists (rendered_text r),
         (mkOther (rendered_parseMode r) (rendered_keyboard r)).
  simpl. rewrite Hlog. by rewrite <- (assoc_L (++)).
Qed.

Lemma spread2_lookup a b :
  ∃ props, spread2 a b = VObj props
    ∧ ∀ k, props !! k = match own_props b !! k with
                        | Some v => Some v
                        | None => own_props a !! k
                        end.
Proof.
  exists (own_props b ∪ own_props a). split; [done|].
  intros k. rewrite lookup_union.
  by destruct (own_props b !! k), (own_props a !! k).
Qed.

End RefreshFacts.

(** C9. [refresh(args)] reads the loader arguments the session holds and
    renders this menu through [render], the path that edits the message,
    with these arguments: when the held arguments are a non-null object, the
    object with every property of the override (of nothing, when the
    override is null or undefined) and, for the other keys, the properties
    of the held arguments; otherwise the override, unless it is null or
    undefined, and then the held arguments. When the refresh succeeds, the
    loader of this menu has been called with exactly these arguments, and
    the message has been edited, not sent. Held [{resetCount: false, other:
    "x"}] and override [{resetCount: true}] give [{resetCount: true, other:
    "x"}]. *)
Theorem C9_refresh_merges_arguments :
  (∀ self ctx args w ms,
     _menu (session_of ctx w) = Some ms →
     let previous := activeMenuLoaderArgs ms in
     let merged := refresh_args previous args in
     refresh (getCallbackActions self ctx) args w = render self ctx merged w
     ∧ (is_object previous = true →
        ∃ props,
          merged = VObj props
          ∧ ∀ k, props !! k =
                   match own_props (coalesce args (VObj ∅)) !! k with
                   | Some v => Some v
                   | None => own_props previous !! k
                   end)
     ∧ (is_object previous = false →
        merged = if nullish args then previous else args)
     ∧ (∀ u w',
          refresh (getCallbackActions self ctx) args w = (Ok u, w') →
          ∃ text other,
            log w' = log w ++ [ev_loader self merged;
                               ev_editMessageText text other]))
  ∧ refresh_args Example.previous_args Example.reset_true
    = Example.merged_args.
Proof.
  split; [|vm_compute; reflexivity].
  intros self ctx args w ms Hms previous merged.
  assert (refresh (getCallbackActions self ctx) args w
          = render self ctx merged w) as Heq.
  { simpl. erewrite bind_ok; [done|].
    unfold the_menu_session. by rewrite Hms. }
  split; [exact Heq|]. split; [|split].
  - intros Hobj. unfold merged, refresh_args. rewrite Hobj.
    apply spread2_lookup.
  - intros Hobj. unfold merged, refresh_args. by rewrite Hobj.
  - intros u w' H. rewrite Heq in H. by eapply render_Ok_log.
Qed.

Lemma C9_refresh_merges_arguments_witness :
  refresh (getCallbackActions "main00" Example.ctx_command)
          Example.reset_true Example.world1
  = render "main00" Example.ctx_command Example.merged_args Example.world1
  ∧ (∃ props,
       Example.merged_args = VObj props
       ∧ props !! "resetCount" = Some (VBool true)
       ∧ props !! "other" = Some (VStr "x"))
  ∧ (∃ text other,
       log (snd (refresh (getCallbackActions "main00" Example.ctx_command)
                   Example.reset_true Example.world1))
       = log Example.world1 ++ [ev_loader "main00" Example.merged_args;
                                ev_editMessageText text other])
  ∧ refresh_args (VNum 5) Example.reset_true = Example.reset_true.
Proof.
  destruct (proj1 C9_refresh_merges_arguments "main00" Example.ctx_command
    Example.reset_true Example.world1
    (mkMenuSession (Some 1%Z) Example.previous_args Example.previous_args
                   {["main00" := mkSlot VUndefined]}))
    as (H1 & H2 & _ & H4).
  { vm_compute. reflexivity. }
  destruct (proj1 C9_refresh_merges_arguments "main00" Example.ctx_command
    Example.reset_true
    (snd (send "main00" Example.ctx_command (VNum 5) Example.world0))
    (mkMenuSession (Some 1%Z) (VNum 5) (VNum 5)
                   {["main00" := mkSlot VUndefined]}))
    as (_ & _ & H3 & _).
  { vm_compute. reflexivity. }
  split; [exact H1|]. split; [|split].
  - destruct H2 as (props & Hprops & Hlook); [reflexivity|].
    exists props. split; [exact Hprops|].
    split; [by rewrite Hlook|by rewrite Hlook].
  - apply (H4 tt (snd (refresh (getCallbackActions "main00" Example.ctx_command)
                         Example.reset_true Example.world1))).
    vm_compute. reflexivity.
  - apply H3. reflexivity.
Defined.

(** ** Errors while rendering *)

Section RenderErrors.

(** A loader that has not settled when the timer fires. *)
Lemma buildLayout_timeout self ctx args w this w5 st :
  before_loader self ctx w = (Ok this, w5) →
  loaderFn this ctx args
    (visible_state ctx (snd (emit (ev_loader self args) w5))) = (st, Pending) →
  fires_first (timeout_ms this) w5 = true →
  buildLayout self ctx args w =
    (Throw (new_Error (timeout_text this)),
     with_timers (expiry (timeout_ms this) w5) (due w5)
       (store_state ctx st (snd (emit (ev_loader self args) w5)))).
Proof.
  intros Hbefore Hload Hfirst. rewrite buildLayout_unfold.
  rewrite (bind_ok _ _ _ _ _ Hbefore). apply bind_throw.
  rewrite race_untimed by apply untimed_loader.
  rewrite bind_emit. unfold await_user, await_then.
  by rewrite Hload, Hfirst.
Qed.

End RenderErrors.

(** C7, as the code has it. [send] catches whatever its [try] block throws
    -- an error of [buildLayout], such as the timeout error of a loader
    that did not settle, or the rejection of the message it sends -- and
    replies with the error's message; [send] itself throws only what that
    second reply is rejected with. [render], the body of [navigate] and
    [refresh], has no [catch]: an error of [buildLayout] (a loader timeout
    among them) or of [editMessageText] is thrown to its caller as it is,
    and [render] does nothing more. The loader's timer fires, at the end of
    its delay, unless the render is awaited in a race whose timer fires
    first. *)
Theorem C7_send_recovers_and_render_propagates :
  (∀ self ctx args w e w1,
     send_try self ctx args w = (Throw e, w1) →
     send self ctx args w =
       (match reply ctx (log w1) (message e) None with
        | inr _ => Ok tt
        | inl e' => Throw e'
        end, snd (emit (ev_reply (message e) None) w1)))
  ∧ (∀ self ctx args w e w1,
       buildLayout self ctx args w = (Throw e, w1) →
       send_try self ctx args w = (Throw e, w1)
       ∧ render self ctx args w = (Throw e, w1))
  ∧ (∀ self ctx args w r w1 e,
       buildLayout self ctx args w = (Ok r, w1) →
       let other := mkOther (rendered_parseMode r) (rendered_keyboard r) in
       (reply ctx (log w1) (Some (rendered_text r)) (Some other) = inl e →
        send_try self ctx args w =
          (Throw e,
           snd (emit (ev_reply (Some (rendered_text r)) (Some other)) w1)))
       ∧ (editMessageText ctx (log w1) (rendered_text r) other = inl e →
          render self ctx args w =
            (Throw e,
             snd (emit (ev_editMessageText (rendered_text r) other) w1))))
  ∧ (∀ self ctx args w this w5 st,
       before_loader self ctx w = (Ok this, w5) →
       loaderFn this ctx args
         (visible_state ctx (snd (emit (ev_loader self args) w5)))
         = (st, Pending) →
       fires_first (timeout_ms this) w5 = true →
       buildLayout self ctx args w =
         (Throw (new_Error (timeout_text this)),
          with_timers (expiry (timeout_ms this) w5) (due w5)
            (store_state ctx st (snd (emit (ev_loader self args) w5)))))
  ∧ (∀ self ctx args w e',
       fst (send self ctx args w) = Throw e' →
       ∃ e w1,
         send_try self ctx args w = (Throw e, w1)
         ∧ reply ctx (log w1) (message e) None = inl e').
Proof.
  split; [|split; [|split; [|split]]].
  - intros self ctx args w e w1 Htry. unfold send, try_catch. rewrite Htry.
    unfold bind. rewrite call_reply_unfold.
    by destruct (reply ctx (log w1) (message e) None).
  - intros self ctx args w e w1 Hb. split.
    + unfold send_try. by apply bind_throw.
    + unfold render. by apply bind_throw.
  - intros self ctx args w r w1 e Hb other. split.
    + intros Hr. unfold send_try. rewrite (bind_ok _ _ _ _ _ Hb).
      apply bind_throw. rewrite call_reply_unfold. fold other. by rewrite Hr.
    + intros He. unfold render. rewrite (bind_ok _ _ _ _ _ Hb).
      rewrite call_edit_unfold. fold other. by rewrite He.
  - intros self ctx args w this w5 st. apply buildLayout_timeout.
  - intros self ctx args w e' H. unfold send, try_catch in H.
    destruct (send_try self ctx args w) as [[u|e|] w1] eqn:Htry;
      [done| |done].
    exists e, w1. split; [done|].
    unfold bind in H. rewrite call_reply_unfold in H.
    destruct (reply ctx (log w1) (message e) None) as [e0|m]; [|done].
    simpl in H. by injection H as ->.
Qed.

Lemma C7_send_recovers_and_render_propagates_witness :
  send "slow00" Example.ctx_command VUndefined Example.world0
  = (Ok tt,
     mkWorld (menus Example.world0)
       (sessions (snd (buildLayout "slow00" Example.ctx_command VUndefined
                         Example.world0)))
       None
       [ev_loader "slow00" VUndefined;
        ev_reply (Some "The action took too long to execute") None]
       10000 None)
  ∧ render "slow00" Example.ctx_command VUndefined Example.world0
  = (Throw (new_Error "The action took too long to execute"),
     snd (buildLayout "slow00" Example.ctx_command VUndefined Example.world0))
  ∧ fst (send_try "main00" Example.ctx_offline VNull Example.world0)
  = Throw (new_Error "network down")
  ∧ fst (render "main00" Example.ctx_offline VNull Example.world0)
  = Throw (new_Error "network down").
Proof.
  pose proof C7_send_recovers_and_render_propagates
    as (H1 & H2 & H3 & H4 & _).
  assert (buildLayout "slow00" Example.ctx_command VUndefined Example.world0
          = (Throw (new_Error "The action took too long to execute"),
             snd (buildLayout "slow00" Example.ctx_command VUndefined
                    Example.world0))) as Hb.
  { apply (H4 "slow00" Example.ctx_command VUndefined Example.world0
              Example.slow_menu
              (snd (before_loader "slow00" Example.ctx_command Example.world0))
              VUndefined).
    - vm_compute. reflexivity.
    - reflexivity.
    - reflexivity. }
  destruct (H2 _ _ _ _ _ _ Hb) as [Htry Hrender].
  destruct (H3 "main00" Example.ctx_offline VNull Example.world0
              (mkRendered "main" Example.main_keyboard None)
              (snd (buildLayout "main00" Example.ctx_offline VNull
                      Example.world0))
              (new_Error "network down")) as [Hsend Hedit].
  { vm_compute. reflexivity. }
  split; [|split; [exact Hrender|split]].
  - rewrite (H1 _ _ _ _ _ _ Htry). vm_compute. reflexivity.
  - rewrite Hsend; reflexivity.
  - rewrite Hedit; reflexivity.
Defined.

(** C7, as stated, fails. Navigating to a menu whose loader does not settle
    throws the timeout error to the caller and replies nothing; and when
    the host cannot send, [send] throws as well. *)
Lemma C7_counterexample :
  (∃ w',
     render "slow00" Example.ctx_command VUndefined Example.world0
       = (Throw (new_Error "The action took too long to execute"), w')
     ∧ filter is_reply (log w') = [])
  ∧ fst (send "main00" Example.ctx_offline VUndefined Example.world0)
    = Throw (new_Error "network down").
Proof.
  split.
  - eexists. split; [vm_compute; reflexivity|]. vm_compute. reflexivity.
  - vm_compute. reflexivity.
Qed.

(** * Further properties of the code *)

Import Shape Sound.

(** ** The shape of a built keyboard *)

Section GridFacts.

Implicit Types kb above dyn init pre : list (list InlineKeyboardButton).

Lemma push_last_app pre row kb :
  kb ≠ [] → push_last row (pre ++ kb) = pre ++ push_last row kb.
Proof.
  intros Hne. unfold push_last. rewrite length_app.
  replace (length pre + length kb - 1)%nat
    with (length pre + (length kb - 1))%nat
    by (destruct kb; simpl in *; [done|lia]).
  apply alter_app_r.
Qed.

Lemma push_last_snoc row init last :
  push_last row (init ++ [last]) = init ++ [last ++ row].
Proof. by rewrite push_last_app. Qed.

Lemma push_last_not_nil row kb : kb ≠ [] → push_last row kb ≠ [].
Proof.
  intros Hne E. apply (f_equal length) in E.
  unfold push_last, Keyboard in E. rewrite length_alter in E. by destruct kb.
Qed.

Lemma push_last_twice row1 row2 kb :
  push_last row2 (push_last row1 kb) = push_last (row1 ++ row2) kb.
Proof.
  induction kb as [|last init _] using rev_ind; [done|].
  by rewrite !push_last_snoc, (assoc_L (++)).
Qed.

Lemma concat_push_last row kb :
  kb ≠ [] → concat (push_last row kb) = concat kb ++ row.
Proof.
  induction kb as [|last init _] using rev_ind; [done|]. intros _.
  rewrite push_last_snoc, !concat_app. simpl.
  by rewrite !app_nil_r, (assoc_L (++)).
Qed.

Lemma add_item_not_nil kb item : kb ≠ [] → add_item kb item ≠ [].
Proof.
  destruct item as [b|row]; simpl; intros Hne.
  - by apply push_last_not_nil.
  - by destruct kb.
Qed.

Lemma foldl_add_item_not_nil items : ∀ kb,
  kb ≠ [] → foldl add_item kb items ≠ [].
Proof.
  induction items as [|item items IH]; intros kb Hne; simpl; [done|].
  apply IH. by apply add_item_not_nil.
Qed.

Lemma splice_not_nil kb dyn : kb ≠ [] → splice kb dyn ≠ [].
Proof.
  destruct dyn as [|row rest]; simpl; [done|]. intros Hne E.
  apply app_eq_nil in E as [E _]. by apply push_last_not_nil in E.
Qed.

Lemma concat_add_item kb item :
  kb ≠ [] → concat (add_item kb item) = concat kb ++ item_buttons item.
Proof.
  destruct item as [b|row]; simpl; intros Hne.
  - by apply concat_push_last.
  - rewrite concat_app. simpl. by rewrite app_nil_r.
Qed.

Lemma concat_foldl_add_item items : ∀ kb,
  kb ≠ [] →
  concat (foldl add_item kb items) = concat kb ++ (items ≫= item_buttons).
Proof.
  induction items as [|item items IH]; intros kb Hne; simpl.
  - by rewrite app_nil_r.
  - rewrite IH by by apply add_item_not_nil.
    rewrite concat_add_item by done. by rewrite (assoc_L (++)).
Qed.

Lemma concat_splice kb dyn :
  kb ≠ [] → concat (splice kb dyn) = concat kb ++ concat dyn.
Proof.
  destruct dyn as [|row rest]; simpl; intros Hne.
  - by rewrite app_nil_r.
  - rewrite concat_app, concat_push_last by done.
    by rewrite (assoc_L (++)).
Qed.

Lemma concat_filter_rows kb :
  concat (filter (λ row, row ≠ []) kb) = concat kb.
Proof.
  induction kb as [|row kb IH]; [done|].
  destruct row as [|b row].
  - rewrite filter_cons_False by (by intros ?). done.
  - rewrite filter_cons_True by done. simpl. by rewrite IH.
Qed.

(** Splicing is associative, and what the loop does to a keyboard it does
    to the keyboard spliced under another. *)
Lemma add_item_splice above kb item :
  above ≠ [] → kb ≠ [] →
  add_item (splice above kb) item = splice above (add_item kb item).
Proof.
  intros Ha Hk. destruct kb as [|row rest]; [done|].
  destruct item as [b|new]; cbn [add_item].
  - destruct rest as [|r rest _] using rev_ind.
    + change (push_last [b] [row]) with [row ++ [b]]. cbn [splice].
      rewrite !app_nil_r. apply push_last_twice.
    + change (row :: rest ++ [r]) with ((row :: rest) ++ [r]).
      rewrite push_last_snoc. cbn [splice app].
      by rewrite (assoc_L (++)), push_last_snoc, (assoc_L (++)).
  - cbn [splice app]. by rewrite (assoc_L (++)).
Qed.

Lemma foldl_add_item_splice items :
  ∀ above kb,
  above ≠ [] → kb ≠ [] →
  foldl add_item (splice above kb) items
    = splice above (foldl add_item kb items).
Proof.
  induction items as [|item items IH]; intros above kb Ha Hk; simpl; [done|].
  rewrite add_item_splice by done. apply IH; [done|].
  by apply add_item_not_nil.
Qed.

Lemma splice_assoc above kb dyn :
  above ≠ [] → kb ≠ [] →
  splice (splice above kb) dyn = splice above (splice kb dyn).
Proof.
  intros Ha Hk. destruct dyn as [|drow drest]; [done|].
  destruct kb as [|row rest]; [done|]. cbn [splice].
  destruct rest as [|r rest _] using rev_ind.
  - change (push_last drow [row]) with [row ++ drow]. cbn [splice app].
    rewrite !app_nil_r. by rewrite push_last_twice.
  - change (row :: rest ++ [r]) with ((row :: rest) ++ [r]).
    rewrite push_last_snoc. cbn [splice app].
    rewrite (assoc_L (++) (push_last row above)), push_last_snoc.
    by rewrite <- !(assoc_L (++)).
Qed.

End GridFacts.

Section BuildShape.

Lemma for_of_app {A S} (body : A → S → M S) l1 l2 s w :
  for_of body (l1 ++ l2) s w = bind (for_of body l1 s) (for_of body l2) w.
Proof.
  revert s w. induction l1 as [|x l1 IH]; intros s w; [done|].
  cbn [app]. rewrite !for_of_cons. unfold bind.
  destruct (body x s w) as [[s'|e|] w1]; [|done|done].
  exact (IH s' w1).
Qed.

Lemma push_last_nil (kb : list (list InlineKeyboardButton)) :
  push_last [] kb = kb.
Proof. unfold push_last. apply list_alter_id. intros x. apply app_nil_r. Qed.

Lemma joined_start acc : joined acc start = acc.
Proof.
  destruct acc as [kb sh dh]. unfold joined, start. cbn.
  by rewrite push_last_nil, !app_nil_r.
Qed.

Lemma build_step_not_nil ctx data step acc w r w' :
  keyboard acc ≠ [] →
  build_step ctx data step acc w = (Ok r, w') →
  keyboard r ≠ [].
Proof.
  intros Hne H. destruct step as [buttons handler|f]; cbn [build_step] in H.
  - inv_ret H. cbn. by apply foldl_add_item_not_nil.
  - apply await_then_Ok_inv in H as (st & nested & _ & H).
    inv_bind H. inv_ret H. cbn. by apply splice_not_nil.
Qed.

Lemma for_of_not_nil ctx data steps acc w r w' :
  keyboard acc ≠ [] →
  for_of (build_step ctx data) steps acc w = (Ok r, w') →
  keyboard r ≠ [].
Proof.
  intros Hne H.
  eapply (for_of_invariant (λ acc, keyboard acc ≠ [])); [|exact Hne|exact H].
  intros x _ s w0 s' w0' Hs Hb. by eapply build_step_not_nil.
Qed.

(** A turn of the loop does to an accumulator continued from another what
    it does to the accumulator itself. *)
Lemma build_step_joined ctx data step above acc w :
  keyboard above ≠ [] → keyboard acc ≠ [] →
  build_step ctx data step (joined above acc) w =
    match build_step ctx data step acc w with
    | (Ok r, w') => (Ok (joined above r), w')
    | (Throw e, w') => (Throw e, w')
    | (Hang, w') => (Hang, w')
    end.
Proof.
  intros Ha Hk. destruct step as [buttons handler|f].
  - rewrite !build_step_static. unfold ret, joined. cbn.
    by rewrite foldl_add_item_splice, (assoc_L (++)).
  - cbn [build_step]. unfold await_then.
    destruct (f ctx data (visible_state ctx w)) as [st [nested|e|]];
      [|done|done].
    unfold bind.
    destruct (for_of (build_step ctx data) nested start _)
      as [[built|e|] w1]; [|done|done].
    unfold ret, joined. cbn.
    rewrite splice_assoc by done. by rewrite <- (assoc_L (++)).
Qed.

Lemma for_of_joined ctx data steps above : ∀ acc w,
  keyboard above ≠ [] → keyboard acc ≠ [] →
  for_of (build_step ctx data) steps (joined above acc) w =
    match for_of (build_step ctx data) steps acc w with
    | (Ok r, w') => (Ok (joined above r), w')
    | (Throw e, w') => (Throw e, w')
    | (Hang, w') => (Hang, w')
    end.
Proof.
  induction steps as [|step steps IH]; intros acc w Ha Hk; [done|].
  rewrite !for_of_cons. unfold bind. rewrite build_step_joined by done.
  destruct (build_step ctx data step acc w) as [[r|e|] w1] eqn:E;
    [|done|done].
  apply IH; [done|]. by eapply build_step_not_nil.
Qed.

(** The loop from any accumulator, in terms of the loop from the start. *)
Lemma for_of_continue ctx data steps acc w r w' :
  keyboard acc ≠ [] →
  for_of (build_step ctx data) steps start w = (Ok r, w') →
  for_of (build_step ctx data) steps acc w = (Ok (joined acc r), w').
Proof.
  intros Hne H. rewrite <- (joined_start acc) at 1.
  rewrite for_of_joined by done. by rewrite H.
Qed.

End BuildShape.

Section StaticLayouts.

(** The loop over steps that are all static is a fold over their items. *)
Lemma for_of_static ctx data steps :
  Forall is_static steps →
  ∀ acc w,
    for_of (build_step ctx data) steps acc w =
      (Ok (mkBuild
             (foldl add_item (keyboard acc)
                (steps ≫= λ step, match step with
                                  | static_step buttons _ => buttons
                                  | dynamic_step _ => []
                                  end))
             (staticHandlers acc ++ omap handler_of steps)
             (dynamicHandlers acc)), w).
Proof.
  induction 1 as [|step steps Hstep _ IH]; intros acc w.
  - cbn. rewrite app_nil_r. by destruct acc.
  - destruct step as [buttons handler|f]; [|done].
    rewrite for_of_cons, build_step_static, bind_ret, IH. cbn.
    rewrite foldl_app. do 3 f_equal.
    rewrite <- (assoc_L (++)). f_equal. by destruct handler.
Qed.

Lemma bind_item_buttons_app (l1 l2 : list ButtonItem) :
  (l1 ++ l2) ≫= item_buttons = (l1 ≫= item_buttons) ++ (l2 ≫= item_buttons).
Proof. apply bind_app. Qed.

Lemma static_items_buttons steps :
  (steps ≫= λ step, match step with
                    | static_step buttons _ => buttons
                    | dynamic_step _ => []
                    end) ≫= item_buttons
  = steps ≫= step_buttons.
Proof.
  induction steps as [|step steps IH]; [done|].
  cbn. rewrite bind_item_buttons_app. f_equal; [|exact IH].
  by destruct step.
Qed.

End StaticLayouts.

(** X1. A layout made of static steps only ([callback], [copy], [url], [row];
    no [dynamic]) builds to one and the same result for every context,
    loader data and state of the world: the build never fails, never waits
    and changes nothing; its keyboard holds exactly the declared buttons in
    the order of declaration, its static handlers are the handlers of the
    steps in order, and it reports no dynamic handler. *)
Theorem X1_static_layout_builds_the_same_everywhere steps :
  Forall is_static steps →
  ∃ kb,
    concat kb = steps ≫= step_buttons
    ∧ ∀ ctx data w,
        build_steps ctx data steps w =
          (Ok (mkBuild kb (omap handler_of steps) []), w).
Proof.
  intros Hsteps.
  exists (filter (λ row, row ≠ [])
            (foldl add_item [[]]
               (steps ≫= λ step, match step with
                                 | static_step buttons _ => buttons
                                 | dynamic_step _ => []
                                 end))).
  split.
  - rewrite concat_filter_rows, concat_foldl_add_item by done.
    cbn [concat app]. apply static_items_buttons.
  - intros ctx data w. unfold build_steps.
    erewrite bind_ok; [|by apply for_of_static]. done.
Qed.

Lemma X1_static_layout_builds_the_same_everywhere_witness :
  ∃ kb,
    concat kb = [text_button "A" "eijdfwof:main00:call:aaaaaa";
                 url_button "B" "https://example.org"]
    ∧ ∀ ctx data w,
        build_steps ctx data
          [callback_step "main00" "A" "aaaaaa" None;
           static_step [an_array []] None;
           static_step [a_button (url_button "B" "https://example.org")] None]
          w
        = (Ok (mkBuild kb
                 [mkHandler "eijdfwof:main00:call:aaaaaa" None] []), w).
Proof.
  apply (X1_static_layout_builds_the_same_everywhere
    [callback_step "main00" "A" "aaaaaa" None;
     static_step [an_array []] None;
     static_step [a_button (url_button "B" "https://example.org")] None]).
  repeat constructor.
Defined.

(** X2. [callback], [copy] and [url] never start a row: a layout that only
    uses these three, at least once, builds to a single row holding their
    buttons in the order of declaration. *)
Theorem X2_buttons_share_a_row_until_row_is_called ctx data steps w :
  steps ≠ [] →
  Forall (λ step, is_Some (single_button step)) steps →
  build_steps ctx data steps w =
    (Ok (mkBuild [omap single_button steps] (omap handler_of steps) []), w).
Proof.
  intros Hne Hsteps.
  assert (Forall is_static steps) as Hstatic.
  { eapply Forall_impl; [exact Hsteps|]. by intros [buttons handler|f] [b Hb]. }
  assert (∀ row : list InlineKeyboardButton,
            foldl add_item [row]
              (steps ≫= λ step, match step with
                                | static_step buttons _ => buttons
                                | dynamic_step _ => []
                                end)
            = [row ++ omap single_button steps]) as Hfold.
  { clear Hne Hstatic.
    induction Hsteps as [|step steps [b Hb] _ IH]; intros row.
    - cbn. by rewrite app_nil_r.
    - destruct step as [[|[b'|?] [|??]] handler|f]; try done.
      injection Hb as ->. cbn [mbind list_bind app foldl omap single_button].
      change (add_item [row] (a_button b)) with [row ++ [b]].
      rewrite IH. by rewrite <- (assoc_L (++)). }
  unfold build_steps. erewrite bind_ok; [|by apply for_of_static].
  unfold ret, finish. cbn [keyboard staticHandlers dynamicHandlers start].
  rewrite Hfold. cbn [app]. unfold Keyboard.
  rewrite filter_cons_True; [done|].
  destruct Hsteps as [|step steps [b Hb] _]; [done|].
  simpl. by rewrite Hb.
Qed.

Lemma X2_buttons_share_a_row_until_row_is_called_witness :
  build_steps Example.ctx_command VNull
    [callback_step "main00" "A" "aaaaaa" None;
     static_step [a_button (copy_text_button "B" "text")] None;
     static_step [a_button (url_button "C" "https://example.org")] None]
    Example.world0
  = (Ok (mkBuild [[text_button "A" "eijdfwof:main00:call:aaaaaa";
                   copy_text_button "B" "text";
                   url_button "C" "https://example.org"]]
           [mkHandler "eijdfwof:main00:call:aaaaaa" None] []),
     Example.world0).
Proof.
  apply (X2_buttons_share_a_row_until_row_is_called Example.ctx_command VNull
    [callback_step "main00" "A" "aaaaaa" None;
     static_step [a_button (copy_text_button "B" "text")] None;
     static_step [a_button (url_button "C" "https://example.org")] None]
    Example.world0).
  - discriminate.
  - repeat constructor; by eexists.
Defined.

(** X3. Building a layout in two parts, one after the other, tells what
    building the whole gives: when the build of the first steps returns
    and, in the world it leaves, the build of the remaining steps returns,
    then the build of all the steps returns in that last world; its buttons
    are those of the first part followed by those of the second, and so are
    its static and its dynamic handlers. (Only the grouping in rows can
    differ: the second part goes on in the row the first part ended in.) *)
Theorem X3_build_in_two_parts ctx data first second w r1 w1 r2 w2 :
  build_steps ctx data first w = (Ok r1, w1) →
  build_steps ctx data second w1 = (Ok r2, w2) →
  ∃ r,
    build_steps ctx data (first ++ second) w = (Ok r, w2)
    ∧ concat (keyboard r) = concat (keyboard r1) ++ concat (keyboard r2)
    ∧ staticHandlers r = staticHandlers r1 ++ staticHandlers r2
    ∧ dynamicHandlers r = dynamicHandlers r1 ++ dynamicHandlers r2.
Proof.
  unfold build_steps. intros H1 H2.
  unbind H1 as a1 wa H1'. inv_ret H1. unbind H2 as a2 wb H2'. inv_ret H2.
  assert (keyboard a1 ≠ []) as Hk1
    by (eapply for_of_not_nil; [|exact H1']; done).
  assert (keyboard a2 ≠ []) as Hk2
    by (eapply for_of_not_nil; [|exact H2']; done).
  exists (finish (joined a1 a2)). split; [|split; [|done]].
  - rewrite (bind_ok _ _ _ (joined a1 a2) w2); [done|].
    rewrite for_of_app, (bind_ok _ _ _ _ _ H1').
    by apply for_of_continue.
  - cbn. rewrite !concat_filter_rows. by apply concat_splice.
Qed.

Lemma X3_build_in_two_parts_witness :
  ∃ r,
    build_steps Example.ctx_command VNull
      ([callback_step "main00" "A" "aaaaaa" (Some Example.go_slow)]
       ++ [dynamic_step Example.two_buttons]) Example.world0
    = (Ok r, Example.world0)
    ∧ concat (keyboard r)
      = concat [[text_button "A" "eijdfwof:main00:call:aaaaaa"]]
        ++ concat [[text_button "X" "eijdfwof:main00:call:xxxxxx";
                    text_button "Y" "eijdfwof:main00:call:yyyyyy"]]
    ∧ staticHandlers r
      = [mkHandler "eijdfwof:main00:call:aaaaaa" (Some Example.go_slow)] ++ []
    ∧ dynamicHandlers r
      = [] ++ [mkHandler "eijdfwof:main00:call:xxxxxx" (Some Example.do_refresh);
               mkHandler "eijdfwof:main00:call:yyyyyy" (Some Example.do_throw)].
Proof.
  apply (X3_build_in_two_parts Example.ctx_command VNull
    [callback_step "main00" "A" "aaaaaa" (Some Example.go_slow)]
    [dynamic_step Example.two_buttons]
    Example.world0
    (mkBuild [[text_button "A" "eijdfwof:main00:call:aaaaaa"]]
       [mkHandler "eijdfwof:main00:call:aaaaaa" (Some Example.go_slow)] [])
    Example.world0
    (mkBuild [[text_button "X" "eijdfwof:main00:call:xxxxxx";
               text_button "Y" "eijdfwof:main00:call:yyyyyy"]]
       []
       [mkHandler "eijdfwof:main00:call:xxxxxx" (Some Example.do_refresh);
        mkHandler "eijdfwof:main00:call:yyyyyy" (Some Example.do_throw)])
    Example.world0).
  - reflexivity.
  - reflexivity.
Defined.

(** X4. [row()] separates: when the build of a builder returns and, in the
    world it leaves, the build of further steps returns, then the build of
    the builder after [row()] followed by those further steps returns the
    rows of the first build with the rows of the second under them, and the
    handlers of the first followed by the handlers of the second. So
    [callback A; row; callback B] builds to the rows [[A]; [B]], and two
    calls of [row()] in a row leave no empty row. *)
Theorem X4_row_stacks_the_parts b ctx data after w above w1 below w2 :
  build b ctx data w = (Ok above, w1) →
  build (mkBuilder (menuId b) after) ctx data w1 = (Ok below, w2) →
  build (mkBuilder (menuId b) (steps (Builder.row b) ++ after)) ctx data w
    = (Ok (stack above below), w2).
Proof.
  unfold build, build_steps. cbn [steps Builder.row Builder.push].
  intros H1 H2.
  unbind H1 as a1 wa H1'. inv_ret H1. unbind H2 as a2 wb H2'. inv_ret H2.
  assert (keyboard a1 ≠ []) as Hk1
    by (eapply for_of_not_nil; [|exact H1']; done).
  assert (keyboard a2 ≠ []) as Hk2
    by (eapply for_of_not_nil; [|exact H2']; done).
  rewrite (bind_ok _ _ _
    (joined (mkBuild (keyboard a1 ++ [[]]) (staticHandlers a1 ++ [])
                     (dynamicHandlers a1)) a2) w2).
  - unfold ret, finish, stack, joined. cbn. do 2 f_equal.
    rewrite app_nil_r. f_equal.
    destruct (keyboard a2) as [|row rest]; [done|]. cbn [splice].
    rewrite push_last_snoc. cbn [app]. unfold Keyboard.
    rewrite <- (assoc_L (++)). cbn [app]. by rewrite filter_app.
  - rewrite <- (assoc_L (++)), for_of_app, (bind_ok _ _ _ _ _ H1').
    cbn [app]. rewrite for_of_cons, build_step_static, bind_ret.
    apply for_of_continue; [|done]. cbn. by destruct (keyboard a1).
Qed.

Lemma X4_row_stacks_the_parts_witness :
  build (mkBuilder "main00"
           (steps (Builder.row
                     (Builder.row
                        (Builder.callback "A" None "aaaaaa"
                           (mkBuilder "main00" []))))
            ++ [callback_step "main00" "B" "bbbbbb" None]))
        Example.ctx_command VNull Example.world0
  = (Ok (stack
           (mkBuild [[text_button "A" "eijdfwof:main00:call:aaaaaa"]]
                    [mkHandler "eijdfwof:main00:call:aaaaaa" None] [])
           (mkBuild [[text_button "B" "eijdfwof:main00:call:bbbbbb"]]
                    [mkHandler "eijdfwof:main00:call:bbbbbb" None] [])),
     Example.world0).
Proof.
  apply (X4_row_stacks_the_parts
    (Builder.row (Builder.callback "A" None "aaaaaa" (mkBuilder "main00" [])))
    Example.ctx_command VNull
    [callback_step "main00" "B" "bbbbbb" None]
    Example.world0
    (mkBuild [[text_button "A" "eijdfwof:main00:call:aaaaaa"]]
             [mkHandler "eijdfwof:main00:call:aaaaaa" None] [])
    Example.world0
    (mkBuild [[text_button "B" "eijdfwof:main00:call:bbbbbb"]]
             [mkHandler "eijdfwof:main00:call:bbbbbb" None] [])
    Example.world0).
  - reflexivity.
  - reflexivity.
Defined.

Section Origins.

Lemma build_step_origin ctx data step :
  ∀ acc w r w',
    keyboard acc ≠ [] →
    build_step ctx data step acc w = (Ok r, w') →
    ∀ b, b ∈ concat (keyboard r) →
         b ∈ concat (keyboard acc) ∨ offers step b.
Proof.
  induction step as [buttons handler|f IH] using BuildStep_induction;
    intros acc w r w' Hne H b Hb.
  - rewrite build_step_static in H. inv_ret H. cbn in Hb.
    rewrite concat_foldl_add_item in Hb by done.
    apply elem_of_app in Hb as [Hb|Hb]; [by left|right; by constructor].
  - cbn [build_step] in H.
    apply await_then_Ok_inv in H as (st & nested & Hf & H).
    unbind H as built w1 Hloop. inv_ret H. cbn in Hb.
    rewrite concat_splice, concat_filter_rows in Hb by done.
    apply elem_of_app in Hb as [Hb|Hb]; [by left|right].
    assert (keyboard built ≠ []
            ∧ ∀ b, b ∈ concat (keyboard built) →
                   ∃ step, step ∈ nested ∧ offers step b) as [_ Hall].
    { eapply (for_of_invariant
        (λ acc, keyboard acc ≠ []
                ∧ ∀ b, b ∈ concat (keyboard acc) →
                       ∃ step, step ∈ nested ∧ offers step b));
        [| |exact Hloop].
      - intros x Hx s w0 s' w0' [Hs Hall] Hbx.
        split; [by eapply build_step_not_nil|]. intros b' Hb'.
        specialize (IH _ _ _ _ _ Hf). rewrite Forall_forall in IH.
        destruct (IH x Hx _ _ _ _ Hs Hbx b' Hb') as [?|?];
          [by apply Hall|by exists x].
      - split; [done|]. intros b' Hb'. cbn in Hb'.
        by apply elem_of_nil in Hb'. }
    destruct (Hall b Hb) as (step & Hin & Hoff).
    by eapply offers_dynamic.
Qed.

End Origins.

(** X5. A build never invents a button: every button of the keyboard it returns
    is a button of one of the static steps, or a button that the generator
    of one of the dynamic steps (or of a section nested in it) left in its
    builder. *)
Theorem X5_build_never_invents_a_button ctx data steps w r w' b :
  build_steps ctx data steps w = (Ok r, w') →
  b ∈ concat (keyboard r) →
  ∃ step, step ∈ steps ∧ offers step b.
Proof.
  unfold build_steps. intros H Hb. unbind H as built w1 Hloop. inv_ret H.
  cbn in Hb. rewrite concat_filter_rows in Hb.
  assert (keyboard built ≠ []
          ∧ ∀ b, b ∈ concat (keyboard built) →
                 ∃ step, step ∈ steps ∧ offers step b) as [_ Hall].
  { eapply (for_of_invariant
      (λ acc, keyboard acc ≠ []
              ∧ ∀ b, b ∈ concat (keyboard acc) →
                     ∃ step, step ∈ steps ∧ offers step b));
      [| |exact Hloop].
    - intros x Hx s w0 s' w0' [Hs Hall] Hbx.
      split; [by eapply build_step_not_nil|]. intros b' Hb'.
      destruct (build_step_origin _ _ _ _ _ _ _ Hs Hbx b' Hb') as [?|?];
        [by apply Hall|by exists x].
    - split; [done|]. intros b' Hb'. cbn in Hb'.
      by apply elem_of_nil in Hb'. }
  by apply Hall.
Qed.

Lemma X5_build_never_invents_a_button_witness :
  ∃ step,
    step ∈ steps (builder Example.main_menu)
    ∧ offers step (text_button "Y" "eijdfwof:main00:call:yyyyyy").
Proof.
  apply (X5_build_never_invents_a_button Example.ctx_command VNull
    (steps (builder Example.main_menu)) Example.world0
    (mkBuild Example.main_keyboard
       [mkHandler "eijdfwof:main00:call:aaaaaa" (Some Example.go_slow)]
       [mkHandler "eijdfwof:main00:call:xxxxxx" (Some Example.do_refresh);
        mkHandler "eijdfwof:main00:call:yyyyyy" (Some Example.do_throw)])
    Example.world0).
  - reflexivity.
  - by_evaluation.
Defined.

Section Coverage.

Lemma keyboard_tokens_spec (kb : list (list InlineKeyboardButton)) token :
  token ∈ keyboard_tokens kb ↔ ∃ text, text_button text token ∈ concat kb.
Proof.
  unfold keyboard_tokens. rewrite list_elem_of_omap. split.
  - intros ([text d| |] & Hin & Hb); try done. injection Hb as ->. eauto.
  - intros [text Hin]. by exists (text_button text token).
Qed.

Lemma covered_start : covered start.
Proof. intros token H. cbn in H. by apply elem_of_nil in H. Qed.

Lemma covered_finish acc : covered acc → covered (finish acc).
Proof.
  intros H token Ht. apply H. unfold keyboard_tokens in *. cbn in Ht.
  by rewrite concat_filter_rows in Ht.
Qed.

Lemma covered_static acc button handler :
  keyboard acc ≠ [] → covered acc →
  (∀ token, button_token button = Some token →
            token ∈ action <$> option_list handler) →
  covered (mkBuild (foldl add_item (keyboard acc) [a_button button])
                   (staticHandlers acc ++ option_list handler)
                   (dynamicHandlers acc)).
Proof.
  intros Hne Hacc Hb token. unfold keyboard_tokens. cbn.
  rewrite concat_push_last by done. rewrite omap_app, elem_of_app.
  rewrite !fmap_app, !elem_of_app.
  intros [Ht|Ht].
  - apply Hacc in Ht. rewrite fmap_app, elem_of_app in Ht. tauto.
  - cbn in Ht. destruct (button_token button) as [t|] eqn:E.
    + apply list_elem_of_singleton in Ht as ->. left. right. by apply Hb.
    + by apply elem_of_nil in Ht.
Qed.

Lemma build_step_covered menuId ctx data step :
  built_by menuId step →
  ∀ acc w r w',
    keyboard acc ≠ [] → covered acc →
    build_step ctx data step acc w = (Ok r, w') →
    covered r.
Proof.
  revert step.
  apply (built_by_induction menuId
    (λ step, ∀ acc w r w', keyboard acc ≠ [] → covered acc →
       build_step ctx data step acc w = (Ok r, w') → covered r)).
  - intros text targetId fn _ acc w r w' Hne Hacc H.
    unfold callback_step in H. rewrite build_step_static in H. inv_ret H.
    refine (covered_static acc (text_button text _)
              (Some (mkHandler _ fn)) Hne Hacc _).
    intros token [= <-]. cbn. by left.
  - intros text content acc w r w' Hne Hacc H.
    rewrite build_step_static in H. inv_ret H.
    by refine (covered_static acc (copy_text_button text content) None
                 Hne Hacc _).
  - intros text url acc w r w' Hne Hacc H.
    rewrite build_step_static in H. inv_ret H.
    by refine (covered_static acc (url_button text url) None Hne Hacc _).
  - intros acc w r w' Hne Hacc H.
    rewrite build_step_static in H. inv_ret H.
    intros token. unfold keyboard_tokens. cbn.
    rewrite concat_app. cbn. rewrite !app_nil_r. apply Hacc.
  - intros f IH acc w r w' Hne Hacc H. cbn [build_step] in H.
    apply await_then_Ok_inv in H as (st & nested & Hf & H).
    unbind H as built w1 Hloop. inv_ret H.
    assert (keyboard built ≠ [] ∧ covered built) as [_ Hbuilt].
    { eapply (for_of_invariant (λ acc, keyboard acc ≠ [] ∧ covered acc));
        [| |exact Hloop].
      - intros x Hx s w0 s' w0' [Hs Hc] Hbx.
        split; [by eapply build_step_not_nil|].
        specialize (IH _ _ _ _ _ Hf). rewrite Forall_forall in IH.
        by eapply IH.
      - split; [done|apply covered_start]. }
    apply covered_finish in Hbuilt.
    intros token. unfold keyboard_tokens. cbn.
    rewrite concat_splice by done. rewrite omap_app, elem_of_app.
    rewrite !fmap_app, !elem_of_app.
    intros [Ht|Ht].
    + apply Hacc in Ht. rewrite fmap_app, elem_of_app in Ht. tauto.
    + apply Hbuilt in Ht. cbn in Ht.
      rewrite fmap_app, elem_of_app in Ht. tauto.
Qed.

Lemma build_steps_covered menuId ctx data steps w r w' :
  Forall (built_by menuId) steps →
  build_steps ctx data steps w = (Ok r, w') →
  covered r.
Proof.
  unfold build_steps. intros Hsteps H. unbind H as built w1 Hloop. inv_ret H.
  apply covered_finish.
  assert (keyboard built ≠ [] ∧ covered built) as [_ Hbuilt]; [|done].
  eapply (for_of_invariant (λ acc, keyboard acc ≠ [] ∧ covered acc));
    [| |exact Hloop].
  - intros x Hx s w0 s' w0' [Hs Hc] Hbx.
    split; [by eapply build_step_not_nil|].
    rewrite Forall_forall in Hsteps.
    by eapply build_step_covered; [apply Hsteps| | |].
  - split; [done|apply covered_start].
Qed.

End Coverage.

(** X6. No button without its handler: when the steps of a layout were pushed
    by the builder's methods (the generators of dynamic sections using the
    same methods), every button of a built keyboard that carries callback
    data carries the token of a handler that the same build reports,
    as static or as dynamic. *)
Theorem X6_every_button_has_its_handler menuId ctx data steps w r w' text token :
  Forall (built_by menuId) steps →
  build_steps ctx data steps w = (Ok r, w') →
  text_button text token ∈ concat (keyboard r) →
  ∃ h, h ∈ staticHandlers r ++ dynamicHandlers r ∧ action h = token.
Proof.
  intros Hsteps Hbuild Hin.
  pose proof (build_steps_covered _ _ _ _ _ _ _ Hsteps Hbuild token) as Hc.
  destruct (proj1 (list_elem_of_fmap _ _ _) (Hc (proj2 (keyboard_tokens_spec _ _)
    (ex_intro _ text Hin)))) as (h & -> & Hh).
  by exists h.
Qed.

Lemma X6_every_button_has_its_handler_witness :
  ∃ h,
    h ∈ [mkHandler "eijdfwof:main00:call:aaaaaa" (Some Example.go_slow)]
        ++ [mkHandler "eijdfwof:main00:call:xxxxxx" (Some Example.do_refresh);
            mkHandler "eijdfwof:main00:call:yyyyyy" (Some Example.do_throw)]
    ∧ action h = "eijdfwof:main00:call:yyyyyy".
Proof.
  apply (X6_every_button_has_its_handler "main00" Example.ctx_command VNull
    (steps (builder Example.main_menu)) Example.world0
    (mkBuild Example.main_keyboard
       [mkHandler "eijdfwof:main00:call:aaaaaa" (Some Example.go_slow)]
       [mkHandler "eijdfwof:main00:call:xxxxxx" (Some Example.do_refresh);
        mkHandler "eijdfwof:main00:call:yyyyyy" (Some Example.do_throw)])
    Example.world0 "Y").
  - cbn. constructor; [apply by_callback; by_evaluation|].
    constructor; [|constructor].
    apply by_dynamic. intros ctx data st st' nested [= _ <-].
    constructor; [apply by_callback; by_evaluation|].
    constructor; [apply by_callback; by_evaluation|constructor].
  - reflexivity.
  - by_evaluation.
Defined.

(** X7. What the constructor registered is what every build reports as static:
    for a menu made by [createMenu], the static handlers of any build of
    its layout that returns are the handlers [prepare] gave the
    constructor, and the keys of the menu's static map are exactly their
    tokens. Handlers of dynamic sections are never among them. *)
Theorem X7_constructor_registers_what_builds_report
    loader onEnter layout state options menuId ctx data w r w' :
  let m := createMenu loader onEnter layout state options menuId in
  build (builder m) ctx data w = (Ok r, w') →
  staticHandlers r = Builder.prepare (builder m)
  ∧ ∀ token,
      staticActionHandlersByAction m !! token = None
      ↔ token ∉ action <$> staticHandlers r.
Proof.
  intros m Hbuild.
  pose proof (build_static_handlers _ _ _ _ _ _ Hbuild) as Hs.
  split; [done|]. intros token. rewrite Hs. apply by_action_None_iff.
Qed.

Lemma X7_constructor_registers_what_builds_report_witness :
  [mkHandler "eijdfwof:main00:call:aaaaaa" (Some Example.go_slow)]
    = Builder.prepare (builder Example.main_menu)
  ∧ ∀ token,
      staticActionHandlersByAction Example.main_menu !! token = None
      ↔ token ∉ action <$>
          [mkHandler "eijdfwof:main00:call:aaaaaa" (Some Example.go_slow)].
Proof.
  apply (X7_constructor_registers_what_builds_report
    (λ _ args st, (st, Resolved (mkLoaded "main" args None)))
    None Example.main_layout None None "main00"
    Example.ctx_command VNull Example.world0
    (mkBuild Example.main_keyboard
       [mkHandler "eijdfwof:main00:call:aaaaaa" (Some Example.go_slow)]
       [mkHandler "eijdfwof:main00:call:xxxxxx" (Some Example.do_refresh);
        mkHandler "eijdfwof:main00:call:yyyyyy" (Some Example.do_throw)])
    Example.world0).
  reflexivity.
Defined.

(** ** Sound worlds *)

Global Instance keeps_sound_refl : Reflexive keeps_sound.
Proof. intros w Hs. exact Hs. Qed.
Global Instance keeps_sound_trans : Transitive keeps_sound.
Proof. intros w1 w2 w3 H1 H2 Hs. by apply H2, H1. Qed.
Global Instance same_objects_refl : Reflexive same_objects.
Proof. by intros w self. Qed.
Global Instance same_objects_trans : Transitive same_objects.
Proof. intros w1 w2 w3 H1 H2 self. by rewrite H2, H1. Qed.

Section SoundFacts.

Lemma same_menus_sound w w' : menus w' = menus w → keeps_sound w w'.
Proof. intros Heq Hs self this. rewrite Heq. apply Hs. Qed.

End SoundFacts.

Section SoundSteps.

Lemma sound_menu_with_dynamic this key handlers :
  sound_menu this →
  Forall (λ h, decodes_to (id this) (action h)) handlers →
  sound_menu (with_dynamic this key (by_action handlers)).
Proof.
  intros (Hid & Hsteps & Hstatic & Hdyn) Hall.
  split; [done|]. split; [done|]. split; [done|].
  intros key' map token h. cbn.
  destruct (decide (key = key')) as [<-|Hne].
  - rewrite lookup_insert_eq. intros [= <-] Hlook.
    apply by_action_lookup in Hlook as [Hin <-]. split; [done|].
    rewrite Forall_forall in Hall. by apply Hall.
  - rewrite lookup_insert_ne by done. apply Hdyn.
Qed.

Lemma buildLayout_keeps_sound self ctx args :
  keeps keeps_sound (buildLayout self ctx args).
Proof.
  intros w Hs.
  destruct (buildLayout_returns_or_leaves_menus self ctx args w)
    as [[r Hr]|Hm]; [|by eapply same_menus_sound].
  destruct (buildLayout self ctx args w) as [res w1] eqn:Hb.
  cbn in Hr. subst res. cbn.
  destruct (buildLayout_Ok_inv _ _ _ _ _ _ Hb)
    as (this & loaded & built & wa & wb & Hthis & Hbuild & _ & Hm & _).
  intros self' this'. rewrite Hm.
  destruct (decide (self = self')) as [<-|Hne].
  - rewrite lookup_insert_eq. intros [= <-].
    pose proof (Hs _ _ Hthis) as Hsound.
    apply sound_menu_with_dynamic; [done|].
    destruct Hsound as (Hid & Hsteps & _).
    destruct (build_steps_tokens _ _ _ _ _ _ _ Hid Hsteps Hbuild)
      as [Hh _].
    by apply Forall_app in Hh as [_ Hh].
  - rewrite lookup_insert_ne by done. apply Hs.
Qed.

Lemma keeps_sound_emit ev w : keeps_sound w (snd (emit ev w)).
Proof. by apply same_menus_sound. Qed.

Lemma keeps_sound_store ctx v w : keeps_sound w (store_state ctx v w).
Proof. apply same_menus_sound, store_state_menus. Qed.

Lemma render_keeps_sound self ctx args : keeps keeps_sound (render self ctx args).
Proof.
  unfold render. apply keeps_bind; [apply _|apply buildLayout_keeps_sound|].
  intros r. apply frame_call_edit; try apply _. apply keeps_sound_emit.
Qed.

Lemma send_keeps_sound self ctx args : keeps keeps_sound (send self ctx args).
Proof.
  unfold send, send_try. apply keeps_try_catch; [apply _| |].
  - apply keeps_bind; [apply _|apply buildLayout_keeps_sound|]. intros r.
    apply keeps_bind; [apply _| |].
    + apply frame_call_reply; try apply _. apply keeps_sound_emit.
    + intros message_id w. unfold bind, the_menu_session.
      destruct (_menu (session_of ctx w)); cbn; [|reflexivity].
      by apply same_menus_sound.
  - intros error. apply keeps_bind; [apply _| |intros _; apply (keeps_ret keeps_sound)].
    apply frame_call_reply; try apply _. apply keeps_sound_emit.
Qed.

Lemma run_callback_keeps_sound self ctx p :
  keeps keeps_sound (run_callback (getCallbackActions self ctx) ctx p).
Proof.
  apply frame_run_callback; try apply _.
  - apply keeps_sound_store.
  - intros menu args. apply render_keeps_sound.
  - intros args. cbn. intros w. unfold bind, the_menu_session.
    destruct (_menu (session_of ctx w)); cbn;
      [apply render_keeps_sound|reflexivity].
Qed.

Lemma middleware_keeps_sound self ctx : keeps keeps_sound (middleware self ctx).
Proof.
  assert (∀ other, keeps keeps_sound (call_answerCallbackQuery ctx other))
    as Hanswer.
  { intros other. apply frame_call_answer; try apply _.
    apply keeps_sound_emit. }
  unfold middleware.
  apply keeps_bind; [apply _|apply (frame_this_menu keeps_sound)|]. intros this.
  destruct (parseAction _ ≫= Codec.action) as [act|];
    [|apply (keeps_ret keeps_sound)].
  destruct (lookup_handler this ctx) as [actionHandler|];
    [|apply (keeps_ret keeps_sound)].
  destruct (bool_decide _); [apply (keeps_ret keeps_sound)|].
  apply keeps_if.
  - apply keeps_bind; [apply _| |intros _; apply (keeps_ret keeps_sound)].
    by apply keeps_swallow; [apply _|apply _|].
  - apply keeps_try_catch; [apply _| |].
    + unfold try_block. apply keeps_bind; [apply _| |].
      * destruct act. destruct (callbackFn actionHandler) as [f|];
          [|apply (keeps_ret keeps_sound)].
        apply keeps_bind; [apply _| |].
        { apply frame_enter_callback; try apply _.
          - intros owner w. by apply same_menus_sound.
          - intros ctx' ms' w _. by apply same_menus_sound. }
        intros data.
        apply (keeps_race keeps_sound);
          [intros t d w; by apply same_menus_sound|].
        apply keeps_bind; [apply _|intros w; apply keeps_sound_emit|].
        intros _. apply run_callback_keeps_sound.
      * intros _. apply keeps_bind; [apply _| |intros _; apply (keeps_ret keeps_sound)].
        by apply keeps_swallow; [apply _|apply _|].
    + intros error. apply frame_catch_block; try apply _.
      apply keeps_sound_emit.
Qed.

(** What the lookup of a sound menu finds is stored under the pressed
    token, and that token is one of the menu's own. *)
Lemma lookup_handler_sound this ctx h :
  sound_menu this →
  lookup_handler this ctx = Some h →
  action h = pressed ctx ∧ decodes_to (id this) (pressed ctx).
Proof.
  intros (Hid & Hsteps & Hstatic & Hdyn). unfold lookup_handler.
  destruct (staticActionHandlersByAction this !! pressed ctx) as [h'|] eqn:E.
  - intros [= ->]. rewrite Hstatic in E.
    apply by_action_lookup in E as [Hin Ha]. split; [done|].
    rewrite <- Ha.
    pose proof (prepare_tokens (id this) (steps (builder this)) Hid Hsteps)
      as Hall.
    rewrite Forall_forall in Hall. by apply Hall.
  - destruct (dynamicActionHandlersByActionByChatId this !! chat_key ctx)
      as [map|] eqn:Em; [|done].
    cbn. intros Hlook. by eapply Hdyn.
Qed.

Lemma try_block_Ok_inv self this ctx act h w l w' :
  try_block self this ctx act h w = (Ok l, w') → l = returned.
Proof.
  unfold try_block. intros H. unbind H as u1 w1 H1. unbind H as u2 w2 H2.
  by inv_ret H.
Qed.

Lemma catch_block_not_Ok ctx e w l w' : catch_block ctx e w ≠ (Ok l, w').
Proof.
  unfold catch_block. intros H. unbind H as u1 w1 H1. done.
Qed.

End SoundSteps.

Section SoundMenus.

Lemma createMenu_sound loader onEnter layout state options menuId :
  well_formed_id menuId →
  Forall (built_by menuId) (steps (layout (mkBuilder menuId []))) →
  sound_menu (createMenu loader onEnter layout state options menuId).
Proof.
  intros Hid Hsteps. split; [done|]. split; [done|]. split; [done|].
  intros key map token h Hkey. cbn in Hkey. by rewrite lookup_empty in Hkey.
Qed.

Lemma perform_keeps_sound op w : sound w → sound (perform w op).
Proof.
  destruct op as [self ctx args|self ctx|self ctx args]; cbn.
  - apply render_keeps_sound.
  - apply middleware_keeps_sound.
  - apply send_keeps_sound.
Qed.

(** Nothing but the per-chat maps of a menu object is ever written. *)
Lemma same_menus_objects w w' : menus w' = menus w → same_objects w w'.
Proof. intros Heq self. by rewrite Heq. Qed.

Lemma same_objects_dynamic self key map w :
  same_objects w (snd (set_dynamic self key map w)).
Proof.
  unfold set_dynamic. destruct (menus w !! self) as [this|] eqn:E; [|done].
  intros self'. cbn. destruct (decide (self = self')) as [<-|Hne].
  - by rewrite lookup_insert_eq, E.
  - by rewrite lookup_insert_ne.
Qed.

Lemma render_same_objects self ctx args :
  keeps same_objects (render self ctx args).
Proof.
  apply frame_render; try apply _.
  - intros ctx' v w. apply same_menus_objects, store_state_menus.
  - by intros owner w.
  - by intros ctx' ms' w _.
  - by intros ev w.
  - apply same_objects_dynamic.
  - by intros t d w.
Qed.

Lemma middleware_same_objects self ctx :
  keeps same_objects (middleware self ctx).
Proof.
  apply frame_middleware; try apply _.
  - intros ctx' v w. apply same_menus_objects, store_state_menus.
  - by intros owner w.
  - by intros ctx' ms' w _.
  - by intros ev w.
  - apply same_objects_dynamic.
  - by intros t d w.
Qed.

Lemma run_callback_same_objects self ctx p :
  keeps same_objects (run_callback (getCallbackActions self ctx) ctx p).
Proof.
  apply frame_run_callback; try apply _.
  - intros ctx' v w. apply same_menus_objects, store_state_menus.
  - intros menu args. apply render_same_objects.
  - intros args. cbn. intros w. unfold bind, the_menu_session.
    destruct (_menu (session_of ctx w)); cbn;
      [apply render_same_objects|reflexivity].
Qed.

Lemma send_same_objects self ctx args : keeps same_objects (send self ctx args).
Proof.
  assert (∀ text other, keeps same_objects (call_reply ctx text other))
    as Hreply.
  { intros text other. apply frame_call_reply; try apply _. by intros ev w. }
  unfold send, send_try. apply keeps_try_catch; [apply _| |].
  - apply keeps_bind; [apply _| |].
    { apply frame_buildLayout; try apply _.
      - intros ctx' v w. apply same_menus_objects, store_state_menus.
      - by intros owner w.
      - by intros ctx' ms' w _.
      - by intros ev w.
      - apply same_objects_dynamic.
      - by intros t d w. }
    intros r. apply keeps_bind; [apply _|apply Hreply|].
    intros message_id w. unfold bind, the_menu_session.
    by destruct (_menu (session_of ctx w)).
  - intros error.
    apply keeps_bind; [apply _|apply Hreply|intros _; by apply keeps_ret].
Qed.

Lemma perform_same_objects op w : same_objects w (perform w op).
Proof.
  destruct op as [self ctx args|self ctx|self ctx args]; cbn.
  - apply render_same_objects.
  - apply middleware_same_objects.
  - apply send_same_objects.
Qed.

(** The example bot is sound, before and after its first send. *)
Lemma main_layout_built_by :
  Forall (built_by "main00")
         (steps (Example.main_layout (mkBuilder "main00" []))).
Proof.
  cbn. constructor; [apply by_callback; by_evaluation|].
  constructor; [|constructor].
  apply by_dynamic. intros ctx data st st' nested [= _ <-].
  constructor; [apply by_callback; by_evaluation|].
  constructor; [apply by_callback; by_evaluation|constructor].
Qed.

Lemma main_menu_sound : sound_menu Example.main_menu.
Proof.
  apply createMenu_sound; [by_evaluation|apply main_layout_built_by].
Qed.

Lemma slow_menu_sound : sound_menu Example.slow_menu.
Proof. apply createMenu_sound; [by_evaluation|constructor]. Qed.

Lemma world0_sound : sound Example.world0.
Proof.
  intros self this Hlook. unfold Example.world0 in Hlook. cbn in Hlook.
  apply lookup_insert_Some in Hlook as [[_ <-]|[_ Hlook]].
  - apply main_menu_sound.
  - apply lookup_singleton_Some in Hlook as [_ <-]. apply slow_menu_sound.
Qed.

Lemma main_menu_rendered_sound :
  sound_menu
    (with_dynamic Example.main_menu "42"
       (by_action
          [mkHandler "eijdfwof:main00:call:xxxxxx" (Some Example.do_refresh);
           mkHandler "eijdfwof:main00:call:yyyyyy" (Some Example.do_throw)])).
Proof.
  apply sound_menu_with_dynamic; [apply main_menu_sound|].
  repeat constructor; by eexists.
Qed.

End SoundMenus.

(** X8. Handler maps stay as the library makes them. A menu that [createMenu]
    makes from a well-formed identifier and a layout that uses the
    builder's methods has its static handlers stored under their own
    tokens, all of them tokens of this menu, and no dynamic handlers; and
    whatever sequence of renders, sends and interactions follows, with
    whatever the handlers do in them, no menu object comes or goes, every
    menu object keeps its identifier, its functions, its layout, its
    options and its static map -- every field but the per-chat maps --
    and holds in its per-chat maps only handlers stored under their own
    token, a token of that menu. *)
Theorem X8_handler_maps_stay_sound :
  (∀ loader onEnter layout state options menuId,
     well_formed_id menuId →
     Forall (built_by menuId) (steps (layout (mkBuilder menuId []))) →
     sound_menu (createMenu loader onEnter layout state options menuId))
  ∧ (∀ ops w,
       same_objects w (foldl perform w ops)
       ∧ (sound w → sound (foldl perform w ops)))
  ∧ (∀ self ctx p w,
       let w' := snd (run_callback (getCallbackActions self ctx) ctx p w) in
       same_objects w w' ∧ (sound w → sound w')).
Proof.
  split; [exact createMenu_sound|]. split.
  - intros ops. induction ops as [|op ops IH]; intros w; [done|].
    cbn. destruct (IH (perform w op)) as [Hsame Hsound]. split.
    + etrans; [apply perform_same_objects|exact Hsame].
    + intros Hs. by apply Hsound, perform_keeps_sound.
  - intros self ctx p w. split.
    + apply run_callback_same_objects.
    + apply run_callback_keeps_sound.
Qed.

(** The first bot, sent, pressed and navigated: its two menus are there as
    they were made, and sound. *)
Lemma X8_handler_maps_stay_sound_witness :
  sound (foldl perform Example.world0
           [op_send "main00" Example.ctx_command Example.previous_args;
            op_interaction "main00"
              (Example.ctx_press "eijdfwof:main00:call:xxxxxx" 1);
            op_navigate "slow00" Example.ctx_command VUndefined])
  ∧ as_constructed <$>
      menus (foldl perform Example.world0
               [op_send "main00" Example.ctx_command Example.previous_args;
                op_interaction "main00"
                  (Example.ctx_press "eijdfwof:main00:call:xxxxxx" 1);
                op_navigate "slow00" Example.ctx_command VUndefined])
      !! "main00"
    = Some Example.main_menu.
Proof.
  destruct X8_handler_maps_stay_sound as (Hnew & Hops & _).
  destruct (Hops
    [op_send "main00" Example.ctx_command Example.previous_args;
     op_interaction "main00"
       (Example.ctx_press "eijdfwof:main00:call:xxxxxx" 1);
     op_navigate "slow00" Example.ctx_command VUndefined] Example.world0)
    as [Hsame Hsound].
  split.
  - apply Hsound. intros self this Hlook.
    unfold Example.world0 in Hlook. cbn in Hlook.
    apply lookup_insert_Some in Hlook as [[_ <-]|[_ Hlook]].
    + apply Hnew; [by_evaluation|apply main_layout_built_by].
    + apply lookup_singleton_Some in Hlook as [_ <-].
      apply Hnew; [by_evaluation|constructor].
  - rewrite (Hsame "main00"). vm_compute. reflexivity.
Defined.

(** X9. A menu never passes on an interaction for one of its own registered
    tokens. When the lookup of a sound menu (static map first, then the
    chat's map) finds a handler for the pressed token, that handler is the
    one stored under this very token, the token decodes to this menu, and
    the middleware does not leave by [next()]: it answers the interaction
    as stale, or runs the handler and returns, or throws. *)
Theorem X9_own_tokens_are_never_passed_on self ctx w this h :
  menus w !! self = Some this →
  sound_menu this →
  lookup_handler this ctx = Some h →
  action h = pressed ctx
  ∧ decodes_to (id this) (pressed ctx)
  ∧ fst (middleware self ctx w) ≠ Ok via_next.
Proof.
  intros Hthis Hsound Hh.
  destruct (lookup_handler_sound _ _ _ Hsound Hh) as [Ha Hd].
  split; [done|]. split; [done|].
  destruct Hd as [targetId Hp]. rewrite <- Ha in Hp.
  rewrite (middleware_owned _ _ _ _ _ _ callback Hthis Hh Hp eq_refl eq_refl).
  destruct (stale ctx w).
  - erewrite bind_ok; [|apply swallow_answer]. done.
  - unfold try_catch.
    destruct (try_block self this ctx callback h w) as [[l|e|] w1] eqn:Htry.
    + apply try_block_Ok_inv in Htry as ->. done.
    + destruct (catch_block ctx e w1) as [[l|e'|] w2] eqn:Hcatch; [|done|done].
      by apply catch_block_not_Ok in Hcatch.
    + done.
Qed.

Lemma X9_own_tokens_are_never_passed_on_witness :
  action (mkHandler "eijdfwof:main00:call:xxxxxx" (Some Example.do_refresh))
    = pressed (Example.ctx_press "eijdfwof:main00:call:xxxxxx" 1)
  ∧ decodes_to "main00" "eijdfwof:main00:call:xxxxxx"
  ∧ fst (middleware "main00"
           (Example.ctx_press "eijdfwof:main00:call:xxxxxx" 1) Example.world1)
    ≠ Ok via_next.
Proof.
  apply (X9_own_tokens_are_never_passed_on "main00"
    (Example.ctx_press "eijdfwof:main00:call:xxxxxx" 1) Example.world1
    (with_dynamic Example.main_menu "42"
       (by_action
          [mkHandler "eijdfwof:main00:call:xxxxxx" (Some Example.do_refresh);
           mkHandler "eijdfwof:main00:call:yyyyyy" (Some Example.do_throw)]))
    (mkHandler "eijdfwof:main00:call:xxxxxx" (Some Example.do_refresh))).
  - vm_compute. reflexivity.
  - apply main_menu_rendered_sound.
  - vm_compute. reflexivity.
Defined.

(** X10. A menu passes on, untouched, every update that is not for it. When the
    pressed data is not a token of a sound menu -- the update is not a
    button press at all, or the data is no token, or it is the token of
    another menu -- the middleware of that menu leaves by [next()], makes
    no Bot API call and changes nothing, so menus registered side by side
    never handle each other's buttons. *)
Theorem X10_foreign_updates_are_passed_on self ctx w this :
  menus w !! self = Some this →
  sound_menu this →
  (¬ decodes_to (id this) (pressed ctx) →
   middleware self ctx w = (Ok via_next, w))
  ∧ (callbackQuery ctx = None → middleware self ctx w = (Ok via_next, w))
  ∧ (∀ other,
       decodes_to other (pressed ctx) → other ≠ id this →
       middleware self ctx w = (Ok via_next, w)).
Proof.
  intros Hthis Hsound.
  assert (¬ decodes_to (id this) (pressed ctx) →
          middleware self ctx w = (Ok via_next, w)) as Hnot.
  { intros Hnot. eapply middleware_unresolved; [done|].
    destruct (lookup_handler this ctx) as [h|] eqn:Hh; [|done].
    by destruct (lookup_handler_sound _ _ _ Hsound Hh) as [_ Hd]. }
  split; [exact Hnot|]. split.
  - intros Hq. apply Hnot. unfold pressed. rewrite Hq. by intros [t Ht].
  - intros other [t Ht] Hne. apply Hnot. intros [t' Ht'].
    rewrite Ht in Ht'. by injection Ht'.
Qed.

Lemma X10_foreign_updates_are_passed_on_witness :
  middleware "slow00"
    (Example.ctx_press "eijdfwof:main00:call:aaaaaa" 1) Example.world1
  = (Ok via_next, Example.world1)
  ∧ middleware "main00" Example.ctx_command Example.world1
  = (Ok via_next, Example.world1).
Proof.
  split.
  - apply (proj2 (proj2 (X10_foreign_updates_are_passed_on "slow00"
      (Example.ctx_press "eijdfwof:main00:call:aaaaaa" 1) Example.world1
      Example.slow_menu ltac:(vm_compute; reflexivity) slow_menu_sound))
      "main00").
    + by eexists.
    + discriminate.
  - apply (proj1 (proj2 (X10_foreign_updates_are_passed_on "main00"
      Example.ctx_command Example.world1 _
      ltac:(vm_compute; reflexivity) main_menu_rendered_sound))).
    reflexivity.
Defined.

(** X11. No dead buttons. After a [buildLayout] of a sound menu that returns,
    every button of the keyboard it returns that carries callback data
    is resolved by the menu's lookup for any update of the same chat that
    presses it: the handler found is stored under that token, a token of
    this menu, so the middleware does not pass such a press on. *)
Theorem X11_rendered_buttons_resolve self ctx args w r w1 text token ctx' :
  sound w →
  buildLayout self ctx args w = (Ok r, w1) →
  text_button text token ∈ concat (rendered_keyboard r) →
  chat_key ctx' = chat_key ctx →
  pressed ctx' = token →
  ∃ this1 h,
    menus w1 !! self = Some this1
    ∧ lookup_handler this1 ctx' = Some h
    ∧ action h = token
    ∧ decodes_to (id this1) token
    ∧ ∀ w', menus w' = menus w1 → fst (middleware self ctx' w') ≠ Ok via_next.
Proof.
  intros Hs Hb Hin Hkey Hpressed.
  destruct (buildLayout_dynamic _ _ _ _ _ _ Hb)
    as (this & loaded & built & wa & wb & Hthis & Hbuild & Hk & Hm).
  pose proof (Hs _ _ Hthis) as Hsound.
  pose proof Hsound as (Hid & Hsteps & Hstatic & _).
  destruct (build_steps_tokens _ _ _ _ _ _ _ Hid Hsteps Hbuild) as [Hh _].
  assert (sound_menu (with_dynamic this (chat_key ctx)
                        (by_action (dynamicHandlers built)))) as Hsound1.
  { apply sound_menu_with_dynamic; [done|].
    by apply Forall_app in Hh as [_ Hh]. }
  rewrite Hk in Hin.
  pose proof (build_steps_covered _ _ _ _ _ _ _ Hsteps Hbuild token
    (proj2 (keyboard_tokens_spec _ _) (ex_intro _ text Hin))) as Hc.
  assert (is_Some (lookup_handler
            (with_dynamic this (chat_key ctx)
               (by_action (dynamicHandlers built))) ctx')) as [h Hlook].
  { rewrite lookup_handler_with_dynamic by done. rewrite Hpressed.
    destruct (staticActionHandlersByAction this !! token) as [h|] eqn:E;
      [by eexists|].
    rewrite Hstatic in E. apply by_action_None_iff in E.
    rewrite <- (build_static_handlers _ _ _ _ _ _ Hbuild) in E.
    rewrite fmap_app, elem_of_app in Hc. destruct Hc as [Hc|Hc]; [done|].
    apply by_action_foldl_Some. by left. }
  exists (with_dynamic this (chat_key ctx) (by_action (dynamicHandlers built))),
         h.
  split; [exact Hm|]. split; [exact Hlook|].
  destruct (lookup_handler_sound _ _ _ Hsound1 Hlook) as [Ha Hd].
  rewrite Hpressed in Ha, Hd. split; [done|]. split; [done|].
  intros w' Hw'.
  assert (menus w' !! self
          = Some (with_dynamic this (chat_key ctx)
                    (by_action (dynamicHandlers built)))) as Hthis'
    by by rewrite Hw'.
  destruct Hd as [targetId Hp]. rewrite <- Ha in Hp.
  rewrite (middleware_owned _ _ _ _ _ _ callback Hthis' Hlook Hp
             eq_refl eq_refl).
  destruct (stale ctx' w').
  - erewrite bind_ok; [|apply swallow_answer]. done.
  - unfold try_catch.
    destruct (try_block self _ ctx' callback h w') as [[l|e|] w2] eqn:Htry.
    + apply try_block_Ok_inv in Htry as ->. done.
    + destruct (catch_block ctx' e w2) as [[l|e'|] w3] eqn:Hcatch;
        [|done|done].
      by apply catch_block_not_Ok in Hcatch.
    + done.
Qed.

Lemma X11_rendered_buttons_resolve_witness :
  ∃ this1 h,
    menus Example.world1 !! "main00" = Some this1
    ∧ lookup_handler this1 (Example.ctx_press "eijdfwof:main00:call:yyyyyy" 1)
      = Some h
    ∧ action h = "eijdfwof:main00:call:yyyyyy"
    ∧ decodes_to (id this1) "eijdfwof:main00:call:yyyyyy"
    ∧ ∀ w', menus w' = menus Example.world1 →
            fst (middleware "main00"
                   (Example.ctx_press "eijdfwof:main00:call:yyyyyy" 1) w')
            ≠ Ok via_next.
Proof.
  assert (menus Example.world1
          = menus (snd (buildLayout "main00" Example.ctx_command
                          Example.previous_args Example.world0))) as ->
    by (vm_compute; reflexivity).
  apply (X11_rendered_buttons_resolve "main00" Example.ctx_command
    Example.previous_args Example.world0
    (mkRendered "main" Example.main_keyboard None)
    (snd (buildLayout "main00" Example.ctx_command Example.previous_args
            Example.world0))
    "Y" "eijdfwof:main00:call:yyyyyy"
    (Example.ctx_press "eijdfwof:main00:call:yyyyyy" 1)).
  - apply world0_sound.
  - vm_compute. reflexivity.
  - by_evaluation.
  - reflexivity.
  - reflexivity.
Defined.

(** X12. A [buildLayout] that does not return -- the state initialiser, the
    [onEnter] hook, the loader or a dynamic section failed or did not
    settle -- has not touched any menu object: the handler maps of every
    menu, the chat's dynamic map among them, are what they were. *)
Theorem X12_failed_buildLayout_leaves_the_handler_maps self ctx args w :
  (∀ r, fst (buildLayout self ctx args w) ≠ Ok r) →
  menus (snd (buildLayout self ctx args w)) = menus w.
Proof.
  intros Hfail.
  destruct (buildLayout_returns_or_leaves_menus self ctx args w)
    as [[r Hr]|Hm]; [|done].
  by destruct (Hfail r).
Qed.

Lemma X12_failed_buildLayout_leaves_the_handler_maps_witness :
  menus (snd (buildLayout "slow00" Example.ctx_command VUndefined
                Example.world1))
  = menus Example.world1.
Proof.
  apply (X12_failed_buildLayout_leaves_the_handler_maps "slow00"
    Example.ctx_command VUndefined Example.world1).
  intros r. vm_compute. discriminate.
Defined.

(** ** The session: state, loader data, the active message *)

Section SessionFacts.

Lemma the_slot_Ok_inv ctx id w slot w' :
  the_slot ctx id w = (Ok slot, w') →
  w' = w ∧ ∃ ms, _menu (session_of ctx w) = Some ms ∧ slots ms !! id = Some slot.
Proof.
  unfold the_slot. intros H. unbind H as ms w1 Hms.
  apply the_menu_session_Ok_inv in Hms as [-> Hms].
  destruct (slots ms !! id) as [slot'|] eqn:E; [|done].
  inv_ret H. eauto.
Qed.

(** What [getState] leaves in the session: the three fixed properties and
    the other menus' entries as they were. *)
Lemma getState_session self ctx w o w1 ms :
  getState self ctx w = (Ok o, w1) →
  _menu (session_of ctx w) = Some ms →
  ∃ ms1,
    _menu (session_of ctx w1) = Some ms1
    ∧ activeMessageId ms1 = activeMessageId ms
    ∧ activeMenuLoaderArgs ms1 = activeMenuLoaderArgs ms
    ∧ activeMenuLoaderData ms1 = activeMenuLoaderData ms.
Proof.
  unfold getState. intros H Hms. unbind H as this w0 Hthis.
  apply this_menu_Ok_inv in Hthis as [-> Hthis].
  unbind H as slot w0 Hslot.
  apply the_slot_Ok_inv in Hslot as [-> (ms' & Hms' & Hslot)].
  assert (ms' = ms) as -> by congruence.
  assert (∀ v u w2,
            (let* _ := set_slot_state ctx (id this) v in
             ret (Some (id this))) w = (Ok u, w2) →
            ∃ ms1, _menu (session_of ctx w2) = Some ms1
              ∧ activeMessageId ms1 = activeMessageId ms
              ∧ activeMenuLoaderArgs ms1 = activeMenuLoaderArgs ms
              ∧ activeMenuLoaderData ms1 = activeMenuLoaderData ms) as Hset.
  { intros v u w2 H'. unbind H' as u1 w3 Hs. inv_ret H'.
    unfold set_slot_state in Hs. unbind Hs as ms2 w4 Hms2.
    apply the_menu_session_Ok_inv in Hms2 as [-> Hms2].
    assert (ms2 = ms) as -> by congruence.
    rewrite Hslot in Hs. unfold put_menu_session in Hs.
    injection Hs as _ <-.
    rewrite session_of_set_session. eauto. }
  destruct (initStateFn this) as [[v|e|]|]; destruct (falsy (state slot));
    try (by (inv_ret H; eauto)); cbn [await_outcome] in H; try done.
  rewrite bind_ret in H. by eapply Hset.
Qed.

(** The handler's second argument is the loader data the session holds. *)
Lemma enter_callback_data self ctx w d w1 ms :
  enter_callback self ctx w = (Ok d, w1) →
  _menu (session_of ctx w) = Some ms →
  d = activeMenuLoaderData ms.
Proof.
  unfold enter_callback. intros H Hms.
  unbind H as u0 w0 H0. unfold install_state in H0. injection H0 as _ <-.
  unbind H as state ws H2.
  destruct (getState_session _ _ _ _ _ ms H2 Hms)
    as (ms1 & Hms1 & _ & _ & Hdata).
  unbind H as u3 w3 H3.
  assert (_menu (session_of ctx w3) = Some ms1) as Hms3.
  { destruct state; cbn in H3.
    - unfold install_state in H3. by injection H3 as _ <-.
    - by inv_ret H3. }
  unbind H as ms4 w4 H4.
  apply the_menu_session_Ok_inv in H4 as [-> H4]. inv_ret H. congruence.
Qed.

(** A [buildLayout] that returns has awaited its loader, and the session
    then holds the loader's data and the arguments. *)
Lemma buildLayout_loaded self ctx args w r w1 :
  buildLayout self ctx args w = (Ok r, w1) →
  ∃ this loaded st st',
    menus w !! self = Some this
    ∧ loaderFn this ctx args st = (st', Resolved loaded)
    ∧ rendered_text r = text loaded
    ∧ rendered_parseMode r = parseMode loaded
    ∧ ∃ ms, _menu (session_of ctx w1) = Some ms
            ∧ activeMenuLoaderArgs ms = args
            ∧ activeMenuLoaderData ms = loaded_data loaded.
Proof.
  intros H. rewrite buildLayout_unfold in H.
  unbind H as this w5 Hbefore.
  destruct (before_loader_Ok_inv _ _ _ _ _ Hbefore) as (Hthis & _ & _).
  unbind H as loaded w6 Hload.
  apply race_Ok_inv in Hload; [|apply untimed_loader].
  rewrite bind_emit in Hload. unfold await_user in Hload.
  apply await_then_Ok_inv in Hload as (st' & loaded' & Hf & Hret).
  inv_ret Hret.
  unbind H as built w7 Hbuild. unbind H as u8 w8 Hset.
  unbind H as ms w9 Hms. unbind H as u10 w10 Hput.
  unfold put_menu_session in Hput. injection Hput as _ <-. inv_ret H.
  exists this. do 3 eexists. split; [done|]. split; [exact Hf|].
  split; [done|]. split; [done|].
  rewrite session_of_set_session. cbn. eauto.
Qed.

End SessionFacts.

(** X13. What a handler is given as its second argument is the data the loader
    of the latest render returned. When a [buildLayout] returns, it has
    awaited the menu's loader on the arguments, what it returns is the
    loader's text and parse mode, and the session holds the arguments and
    the loader's data; and in any later world in which that session is
    unchanged, the value the middleware of any menu hands to a handler as
    data -- whether of the menu that rendered or of another one -- is
    that loader data. *)
Theorem X13_handler_is_given_the_loaded_data self ctx args w r w1 :
  buildLayout self ctx args w = (Ok r, w1) →
  ∃ this loaded st st',
    menus w !! self = Some this
    ∧ loaderFn this ctx args st = (st', Resolved loaded)
    ∧ rendered_text r = text loaded
    ∧ rendered_parseMode r = parseMode loaded
    ∧ ∀ self' ctx' w' d w2,
        sessions w' !! session_key ctx' = sessions w1 !! session_key ctx →
        enter_callback self' ctx' w' = (Ok d, w2) →
        d = loaded_data loaded.
Proof.
  intros Hb.
  destruct (buildLayout_loaded _ _ _ _ _ _ Hb)
    as (this & loaded & st & st' & Hthis & Hf & Ht & Hp & ms & Hms & _ & Hd).
  exists this, loaded, st, st'. repeat (split; [done|]).
  intros self' ctx' w' d w2 Hsame Henter. rewrite <- Hd.
  eapply enter_callback_data; [exact Henter|].
  unfold session_of in *. by rewrite Hsame.
Qed.

Lemma X13_handler_is_given_the_loaded_data_witness :
  ∃ this loaded st st',
    menus Example.world0 !! "main00" = Some this
    ∧ loaderFn this Example.ctx_command Example.previous_args st
      = (st', Resolved loaded)
    ∧ "main" = text loaded
    ∧ None = parseMode loaded
    ∧ ∀ self' ctx' w' d w2,
        sessions w' !! session_key ctx'
          = sessions (snd (buildLayout "main00" Example.ctx_command
                             Example.previous_args Example.world0))
              !! session_key Example.ctx_command →
        enter_callback self' ctx' w' = (Ok d, w2) →
        d = loaded_data loaded.
Proof.
  apply (X13_handler_is_given_the_loaded_data "main00" Example.ctx_command
    Example.previous_args Example.world0
    (mkRendered "main" Example.main_keyboard None)
    (snd (buildLayout "main00" Example.ctx_command Example.previous_args
            Example.world0))).
  vm_compute. reflexivity.
Defined.

Section SendOutcomes.

Lemma buildLayout_same_active self ctx args :
  keeps same_active (buildLayout self ctx args).
Proof.
  apply frame_buildLayout; try apply _.
  - apply same_active_store.
  - intros owner w. apply same_active_menus.
  - apply same_active_put.
  - intros ev w. apply same_active_menus.
  - apply same_active_dynamic.
  - intros t d w. apply same_active_menus.
Qed.

Lemma call_reply_same_active ctx text other :
  keeps same_active (call_reply ctx text other).
Proof.
  apply frame_call_reply; try apply _. intros ev w. apply same_active_menus.
Qed.

(** Unless the [try] block of [send] completes, it leaves the active
    message alone. *)
Lemma send_try_same_active self ctx args w res w' :
  send_try self ctx args w = (res, w') → res ≠ Ok tt → same_active w w'.
Proof.
  unfold send_try. intros H Hfail. unfold bind at 1 in H.
  pose proof (buildLayout_same_active self ctx args w) as Hb.
  destruct (buildLayout self ctx args w) as [[r|e|] w1]; cbn in Hb;
    [|injection H as <- <-; exact Hb|injection H as <- <-; exact Hb].
  unfold bind at 1 in H.
  pose proof (call_reply_same_active ctx (Some (rendered_text r))
    (Some (mkOther (rendered_parseMode r) (rendered_keyboard r))) w1) as Hr.
  destruct (call_reply ctx _ _ w1) as [[message_id|e|] w2]; cbn in Hr;
    [|injection H as <- <-; by (etrans; [exact Hb|exact Hr])
     |injection H as <- <-; by (etrans; [exact Hb|exact Hr])].
  unfold bind, the_menu_session in H.
  destruct (_menu (session_of ctx w2)); cbn in H; injection H as <- <-.
  - by destruct Hfail.
  - etrans; [exact Hb|exact Hr].
Qed.

End SendOutcomes.

(** X14. A [send] that fails leaves the active message as it was. When the
    [try] block of [send] does not complete -- the layout could not be
    built, or the message could not be sent -- [activeMessageId] is, in
    every session, what it was before the [send], also after the reply
    that reports the error: the menu message that was live stays live. *)
Theorem X14_failed_send_keeps_the_active_message self ctx args w key :
  fst (send_try self ctx args w) ≠ Ok tt →
  active_of key (snd (send self ctx args w)) = active_of key w.
Proof.
  intros Hfail. unfold send, try_catch.
  destruct (send_try self ctx args w) as [res w1] eqn:Htry. cbn in Hfail.
  pose proof (send_try_same_active _ _ _ _ _ _ Htry Hfail) as Hsame.
  destruct res as [[]|e|]; [done| |apply Hsame].
  cbn. rewrite <- Hsame.
  pose proof (call_reply_same_active ctx (message e) None w1) as Hr.
  unfold bind. destruct (call_reply ctx (message e) None w1) as [[m|e'|] w2];
    apply Hr.
Qed.

Lemma X14_failed_send_keeps_the_active_message_witness :
  active_of "42"
    (snd (send "slow00" Example.ctx_command VUndefined Example.world1))
  = Some 1%Z.
Proof.
  change (Some 1%Z) with (active_of "42" Example.world1).
  apply (X14_failed_send_keeps_the_active_message "slow00" Example.ctx_command
           VUndefined Example.world1 "42").
  vm_compute. discriminate.
Defined.

Section StateFacts.

Lemma initContext_unfold self ctx w this :
  menus w !! self = Some this →
  initContext self ctx w =
    (Ok tt,
     set_session ctx
       (mkSession (Some
          (let ms := default (mkMenuSession None VUndefined VUndefined ∅)
                             (_menu (session_of ctx w)) in
           mkMenuSession (activeMessageId ms) (activeMenuLoaderArgs ms)
             (activeMenuLoaderData ms)
             (match slots ms !! id this with
              | Some _ => slots ms
              | None => <[id this := mkSlot VUndefined]> (slots ms)
              end)))) w).
Proof.
  intros Hthis. unfold initContext.
  erewrite bind_ok; [|unfold this_menu; by rewrite Hthis]. done.
Qed.

Lemma state_of_set_session id ctx ms w :
  state_of id ctx (set_session ctx (mkSession (Some ms)) w) =
    match slots ms !! id with
    | Some slot => state slot
    | None => VUndefined
    end.
Proof. unfold state_of. by rewrite session_of_set_session. Qed.

End StateFacts.

(** X15. How the state is resolved at the start of a render. After the first
    two statements of [buildLayout] -- [initContext], then [getState] --
    a state the session holds for this menu that is truthy is still
    there, and the accessor is made, without the initialiser;
    a falsy state (none, or [0], [false], the empty string, ...) is
    replaced by what the initialiser resolves to, and without an
    initialiser it stays and no accessor is made. The only failure is the
    initialiser's own: the scaffold [initContext] makes rules out a
    [TypeError]. The state of every other menu is as it was. *)
Theorem X15_state_is_initialised_when_falsy self ctx w this :
  menus w !! self = Some this →
  let current := state_of (id this) ctx w in
  let run := resolve_state self ctx w in
  (falsy current = false →
   fst run = Ok (Some (id this))
   ∧ state_of (id this) ctx (snd run) = current)
  ∧ (falsy current = true →
     match initStateFn this with
     | None => fst run = Ok None ∧ state_of (id this) ctx (snd run) = current
     | Some (Resolved v) =>
         fst run = Ok (Some (id this))
         ∧ state_of (id this) ctx (snd run) = v
     | Some (Rejected e) =>
         fst run = Throw e ∧ state_of (id this) ctx (snd run) = current
     | Some Pending =>
         fst run = Hang ∧ state_of (id this) ctx (snd run) = current
     end)
  ∧ ∀ other, other ≠ id this →
      state_of other ctx (snd run) = state_of other ctx w.
Proof.
  intros Hthis current run. subst current run. unfold resolve_state.
  rewrite (bind_ok _ _ _ _ _ (initContext_unfold self ctx w this Hthis)).
  set (ms := default (mkMenuSession None VUndefined VUndefined ∅)
                     (_menu (session_of ctx w))).
  set (slots1 := match slots ms !! id this with
                 | Some _ => slots ms
                 | None => <[id this := mkSlot VUndefined]> (slots ms)
                 end).
  set (ms1 := mkMenuSession (activeMessageId ms) (activeMenuLoaderArgs ms)
                            (activeMenuLoaderData ms) slots1).
  cbn zeta. fold ms. fold slots1. fold ms1.
  set (w1 := set_session ctx (mkSession (Some ms1)) w).
  assert (∀ other, state_of other ctx w =
                   match slots ms !! other with
                   | Some slot => state slot
                   | None => VUndefined
                   end) as Hstate.
  { intros other. unfold state_of, ms.
    destruct (_menu (session_of ctx w)) as [ms0|]; [done|].
    cbn. by rewrite lookup_empty. }
  assert (∃ slot, slots1 !! id this = Some slot
                  ∧ state slot = state_of (id this) ctx w) as (slot & Hslot & Hs).
  { rewrite Hstate. unfold slots1.
    destruct (slots ms !! id this) as [slot|] eqn:E.
    - exists slot. by rewrite E.
    - exists (mkSlot VUndefined). by rewrite lookup_insert_eq. }
  assert (∀ other, other ≠ id this → slots1 !! other = slots ms !! other)
    as Hother.
  { intros other Hne. unfold slots1.
    destruct (slots ms !! id this); [done|]. by rewrite lookup_insert_ne. }
  assert (menus w1 !! self = Some this) as Hthis1 by done.
  assert (the_slot ctx (id this) w1 = (Ok slot, w1)) as Hthe.
  { unfold the_slot. erewrite bind_ok;
      [|unfold the_menu_session, w1; by rewrite session_of_set_session].
    change (slots ms1) with slots1. by rewrite Hslot. }
  unfold getState.
  erewrite bind_ok; [|unfold this_menu; by rewrite Hthis1].
  rewrite (bind_ok _ _ _ _ _ Hthe). rewrite Hs.
  assert (∀ v, (let* _ := set_slot_state ctx (id this) v in
                ret (Some (id this))) w1
               = (Ok (Some (id this)),
                  set_session ctx
                    (mkSession (Some (mkMenuSession (activeMessageId ms1)
                       (activeMenuLoaderArgs ms1) (activeMenuLoaderData ms1)
                       (<[id this := mkSlot v]> (slots ms1))))) w1)) as Hset.
  { intros v. erewrite bind_ok; [done|]. unfold set_slot_state.
    erewrite bind_ok;
      [|unfold the_menu_session, w1; by rewrite session_of_set_session].
    change (slots ms1) with slots1. by rewrite Hslot. }
  assert (state_of (id this) ctx w1 = state_of (id this) ctx w) as Hw1.
  { unfold w1. rewrite state_of_set_session.
    change (slots ms1) with slots1. by rewrite Hslot. }
  split; [|split].
  - intros Hf. rewrite Hf.
    destruct (initStateFn this) as [initState|]; by cbn.
  - intros Hf. rewrite Hf.
    destruct (initStateFn this) as [[v|e|]|]; cbn [await_outcome].
    + rewrite bind_ret, Hset. cbn. split; [done|].
      rewrite state_of_set_session. cbn. by rewrite lookup_insert_eq.
    + done.
    + done.
    + done.
  - intros other Hne.
    assert (state_of other ctx w1 = state_of other ctx w) as Hw1'.
    { unfold w1. rewrite state_of_set_session, Hstate.
      change (slots ms1) with slots1. by rewrite Hother. }
    destruct (initStateFn this) as [[v|e|]|];
      destruct (falsy (state_of (id this) ctx w)); cbn [await_outcome];
      try exact Hw1'.
    rewrite bind_ret, Hset. cbn. rewrite state_of_set_session. cbn.
    rewrite lookup_insert_ne by done. rewrite Hother by done.
    by rewrite Hstate.
Qed.

Lemma X15_state_is_initialised_when_falsy_witness :
  (fst (resolve_state "count0" Example.ctx_command Sample.world)
     = Ok (Some "count0")
   ∧ state_of "count0" Example.ctx_command
       (snd (resolve_state "count0" Example.ctx_command Sample.world))
     = Sample.initial_count)
  ∧ ∀ other, other ≠ "count0" →
      state_of other Example.ctx_command
        (snd (resolve_state "count0" Example.ctx_command Sample.world))
      = state_of other Example.ctx_command Sample.world.
Proof.
  destruct (X15_state_is_initialised_when_falsy "count0" Example.ctx_command
              Sample.world Sample.counter_menu) as (_ & H & Ho).
  - reflexivity.
  - split; [exact (H eq_refl)|exact Ho].
Defined.

Section InteractionFacts.

(** The middleware of a sound menu past its first test. *)
Lemma middleware_sound self ctx w this h :
  menus w !! self = Some this →
  sound_menu this →
  lookup_handler this ctx = Some h →
  middleware self ctx w =
    if stale ctx w then
      (let* _ := swallow (call_answerCallbackQuery ctx
                            (Some (mkAnswer (stale_text this) true))) in
       ret returned) w
    else try_catch (try_block self this ctx callback h) (catch_block ctx) w.
Proof.
  intros Hthis Hsound Hh.
  destruct (lookup_handler_sound _ _ _ Hsound Hh) as [Ha [targetId Hp]].
  rewrite <- Ha in Hp.
  exact (middleware_owned _ _ _ _ _ _ callback Hthis Hh Hp eq_refl eq_refl).
Qed.

Lemma counter_menu_sound : sound_menu Sample.counter_menu.
Proof.
  apply createMenu_sound; [by_evaluation|]. cbn.
  constructor; [apply by_callback; by_evaluation|].
  constructor; [apply by_callback; by_evaluation|constructor].
Qed.

Lemma counter_menu_sent_sound :
  sound_menu (with_dynamic Sample.counter_menu "42" (by_action [])).
Proof.
  apply sound_menu_with_dynamic; [apply counter_menu_sound|constructor].
Qed.

Lemma outer_menu_sent_sound :
  sound_menu (with_dynamic Timers.outer_menu "42" (by_action [])).
Proof.
  apply sound_menu_with_dynamic; [|constructor].
  apply createMenu_sound; [by_evaluation|]. cbn.
  repeat (constructor; [apply by_callback; by_evaluation|]). constructor.
Qed.

End InteractionFacts.

(** X16. An interaction that is handled in time is acknowledged. When the
    pressed token resolves to a handler of a sound menu and the message is
    the session's active one: a handler without a function (a button
    declared by [callback(text)] alone) makes the middleware answer the
    interaction once, without text, and return, with nothing else changed;
    a handler whose function returns before the menu's timer fires makes
    the middleware answer the interaction once, without text, after the
    function has returned, and return; a handler whose function has not
    settled when the menu's timer fires -- also one that awaits, in a
    [try], a render whose own timer fires no earlier -- is not
    acknowledged: the middleware alerts the menu's timeout text at that
    instant and throws the timeout error. *)
Theorem X16_handled_interaction_is_acknowledged self ctx w this h :
  menus w !! self = Some this →
  sound_menu this →
  lookup_handler this ctx = Some h →
  callbackQuery ctx ≫= message_id = active_of (session_key ctx) w →
  (callbackFn h = None →
   middleware self ctx w =
     (Ok returned, snd (emit (ev_answerCallbackQuery None) w)))
  ∧ (∀ f data w1 w2,
       callbackFn h = Some f →
       enter_callback self ctx w = (Ok data, w1) →
       fires_first (timeout_ms this) w1 = true →
       run_callback (getCallbackActions self ctx) ctx (f ctx data)
         (snd (emit (ev_callback (action h) data)
                 (racing (timeout_ms this) w1))) = (Ok tt, w2) →
       middleware self ctx w =
         (Ok returned,
          snd (emit (ev_answerCallbackQuery None)
                 (with_timers (now w2) (due w1) w2))))
  ∧ (∀ f data w1 w2,
       callbackFn h = Some f →
       enter_callback self ctx w = (Ok data, w1) →
       fires_first (timeout_ms this) w1 = true →
       run_callback (getCallbackActions self ctx) ctx (f ctx data)
         (snd (emit (ev_callback (action h) data)
                 (racing (timeout_ms this) w1))) = (Hang, w2) →
       middleware self ctx w =
         (Throw (new_Error (timeout_text this)),
          snd (emit (ev_answerCallbackQuery
                       (Some (mkAnswer (timeout_text this) true)))
                 (with_timers (expiry (timeout_ms this) w1) (due w1) w2)))).
Proof.
  intros Hthis Hsound Hh Hfresh.
  rewrite (middleware_sound _ _ _ _ _ Hthis Hsound Hh).
  rewrite (stale_false _ _ Hfresh). unfold try_catch, try_block.
  split; [|split].
  - intros Hfn. rewrite Hfn. rewrite bind_ret.
    erewrite bind_ok; [|apply swallow_answer]. done.
  - intros f data w1 w2 Hfn Henter Hfirst Hrun. rewrite Hfn.
    erewrite bind_ok.
    + erewrite bind_ok; [|apply swallow_answer]. reflexivity.
    + rewrite (bind_ok _ _ _ _ _ Henter). unfold race.
      by rewrite Hfirst, bind_emit, Hrun.
  - intros f data w1 w2 Hfn Henter Hfirst Hrun. rewrite Hfn.
    erewrite bind_throw; cycle 1.
    { rewrite (bind_ok _ _ _ _ _ Henter). unfold race.
      by rewrite Hfirst, bind_emit, Hrun. }
    unfold catch_block. erewrite bind_ok; [|apply swallow_answer].
    reflexivity.
Qed.

(** Four presses on an active message: a button without a function; a
    button that counts; and, on the menu whose timer is set for three
    seconds, a handler that awaits in a [try] the navigation to a menu
    whose loader never settles -- with a timer of one second, which fires
    first, and with a timer of five seconds, which does not. *)
Lemma X16_handled_interaction_is_acknowledged_witness :
  middleware "count0"
    (Example.ctx_press "eijdfwof:count0:call:noop00" 1) Sample.world_sent
  = (Ok returned,
     snd (emit (ev_answerCallbackQuery None) Sample.world_sent))
  ∧ (fst (middleware "count0"
            (Example.ctx_press "eijdfwof:count0:call:incr00" 1)
            Sample.world_sent) = Ok returned
     ∧ state_of "count0" Example.ctx_command
         (snd (middleware "count0"
                 (Example.ctx_press "eijdfwof:count0:call:incr00" 1)
                 Sample.world_sent))
       = VObj {["count" := VNum 1]})
  ∧ (let after :=
       middleware "outer0"
         (Example.ctx_press "eijdfwof:outer0:call:trybrk" 1)
         Timers.world_sent in
     fst after = Ok returned
     ∧ log (snd after)
       = log Timers.world_sent ++
           [ev_callback "eijdfwof:outer0:call:trybrk" VUndefined;
            ev_loader "brisk0" VUndefined;
            ev_answerCallbackQuery None]
     ∧ now (snd after) = 1000%Z)
  ∧ (let after :=
       middleware "outer0"
         (Example.ctx_press "eijdfwof:outer0:call:tryinn" 1)
         Timers.world_sent in
     fst after = Throw (new_Error "outer too slow")
     ∧ log (snd after)
       = log Timers.world_sent ++
           [ev_callback "eijdfwof:outer0:call:tryinn" VUndefined;
            ev_loader "inner0" VUndefined;
            ev_answerCallbackQuery (Some (mkAnswer "outer too slow" true))]
     ∧ now (snd after) = 3000%Z).
Proof.
  split; [|split; [|split]].
  - apply (proj1 (X16_handled_interaction_is_acknowledged "count0"
      (Example.ctx_press "eijdfwof:count0:call:noop00" 1) Sample.world_sent
      (with_dynamic Sample.counter_menu "42" (by_action []))
      (mkHandler "eijdfwof:count0:call:noop00" None)
      ltac:(vm_compute; reflexivity) counter_menu_sent_sound
      ltac:(vm_compute; reflexivity) ltac:(vm_compute; reflexivity))).
    reflexivity.
  - rewrite (proj1 (proj2 (X16_handled_interaction_is_acknowledged "count0"
      (Example.ctx_press "eijdfwof:count0:call:incr00" 1) Sample.world_sent
      (with_dynamic Sample.counter_menu "42" (by_action []))
      (mkHandler "eijdfwof:count0:call:incr00" (Some Sample.increment))
      ltac:(vm_compute; reflexivity) counter_menu_sent_sound
      ltac:(vm_compute; reflexivity) ltac:(vm_compute; reflexivity)))
      Sample.increment Sample.initial_count
      (snd (enter_callback "count0"
              (Example.ctx_press "eijdfwof:count0:call:incr00" 1)
              Sample.world_sent))
      _
      eq_refl ltac:(vm_compute; reflexivity) eq_refl
      ltac:(vm_compute; reflexivity)).
    split; [reflexivity|vm_compute; reflexivity].
  - rewrite (proj1 (proj2 (X16_handled_interaction_is_acknowledged "outer0"
      (Example.ctx_press "eijdfwof:outer0:call:trybrk" 1) Timers.world_sent
      (with_dynamic Timers.outer_menu "42" (by_action []))
      (mkHandler "eijdfwof:outer0:call:trybrk"
                 (Some (Timers.try_go "brisk0")))
      ltac:(vm_compute; reflexivity) outer_menu_sent_sound
      ltac:(vm_compute; reflexivity) ltac:(vm_compute; reflexivity)))
      (Timers.try_go "brisk0") VUndefined
      (snd (enter_callback "outer0"
              (Example.ctx_press "eijdfwof:outer0:call:trybrk" 1)
              Timers.world_sent))
      _
      eq_refl ltac:(vm_compute; reflexivity) eq_refl
      ltac:(vm_compute; reflexivity)).
    vm_compute. done.
  - rewrite (proj2 (proj2 (X16_handled_interaction_is_acknowledged "outer0"
      (Example.ctx_press "eijdfwof:outer0:call:tryinn" 1) Timers.world_sent
      (with_dynamic Timers.outer_menu "42" (by_action []))
      (mkHandler "eijdfwof:outer0:call:tryinn"
                 (Some (Timers.try_go "inner0")))
      ltac:(vm_compute; reflexivity) outer_menu_sent_sound
      ltac:(vm_compute; reflexivity) ltac:(vm_compute; reflexivity)))
      (Timers.try_go "inner0") VUndefined
      (snd (enter_callback "outer0"
              (Example.ctx_press "eijdfwof:outer0:call:tryinn" 1)
              Timers.world_sent))
      _
      eq_refl ltac:(vm_compute; reflexivity) eq_refl
      ltac:(vm_compute; reflexivity)).
    vm_compute. done.
Defined.

(** X17. An interaction on a session that has seen no render. When the session
    has no [_menu] yet and the pressed token resolves to a handler of a
    sound menu: a press that comes with a message is stale, and is
    answered with the stale text; a press that comes without a message
    (its message identifier is [undefined], as [activeMessageId] is) is
    not stale, and for a handler with a function the middleware then fails
    on the missing [_menu]: it shows the [TypeError]'s message as an alert
    and throws that error. The handler is not called in either case. *)
Theorem X17_interaction_on_a_fresh_session self ctx w this h :
  menus w !! self = Some this →
  sound_menu this →
  lookup_handler this ctx = Some h →
  _menu (session_of ctx w) = None →
  (∀ m, callbackQuery ctx ≫= message_id = Some m →
        middleware self ctx w =
          (Ok returned,
           snd (emit (ev_answerCallbackQuery
                        (Some (mkAnswer (stale_text this) true))) w)))
  ∧ (∀ f, callbackQuery ctx ≫= message_id = None →
          callbackFn h = Some f →
          middleware self ctx w =
            (Throw (TypeError (id this)),
             mkWorld (menus w) (sessions w) None
               (log w ++
                  [ev_answerCallbackQuery
                     (Some (mkAnswer
                              ("Cannot read properties of undefined (reading '"
                               +:+ id this +:+ "')") true))])
               (now w) (due w))).
Proof.
  intros Hthis Hsound Hh Hms.
  rewrite (middleware_sound _ _ _ _ _ Hthis Hsound Hh).
  assert (active_of (session_key ctx) w = None) as Hactive.
  { rewrite active_of_session. by rewrite Hms. }
  split.
  - intros m Hm. rewrite stale_true by (rewrite Hm, Hactive; done).
    erewrite bind_ok; [|apply swallow_answer]. done.
  - intros f Hm Hfn. rewrite stale_false by (by rewrite Hm, Hactive).
    assert (try_block self this ctx callback h w
            = (Throw (TypeError (id this)),
               mkWorld (menus w) (sessions w) None (log w) (now w) (due w)))
      as Htry.
    { unfold try_block. rewrite Hfn. apply bind_throw. apply bind_throw.
      unfold enter_callback. rewrite bind_ok with (a := tt)
        (w1 := mkWorld (menus w) (sessions w) None (log w) (now w) (due w))
        by done.
      apply bind_throw. unfold getState.
      erewrite bind_ok; [|unfold this_menu; cbn; by rewrite Hthis].
      apply bind_throw. unfold the_slot. apply bind_throw.
      unfold the_menu_session.
      change (session_of ctx (mkWorld (menus w) (sessions w) None (log w)
                                      (now w) (due w)))
        with (session_of ctx w).
      by rewrite Hms. }
    unfold try_catch. rewrite Htry. unfold catch_block.
    erewrite bind_ok; [|apply swallow_answer]. done.
Qed.

Lemma X17_interaction_on_a_fresh_session_witness :
  middleware "main00"
    (Example.ctx_press "eijdfwof:main00:call:aaaaaa" 1) Example.world0
  = (Ok returned,
     snd (emit (ev_answerCallbackQuery
                  (Some (mkAnswer "The menu is stalled" true)))
               Example.world0))
  ∧ middleware "main00"
      (Sample.ctx_inline "eijdfwof:main00:call:aaaaaa") Example.world0
    = (Throw (TypeError "main00"),
       mkWorld (menus Example.world0) (sessions Example.world0) None
         [ev_answerCallbackQuery
            (Some (mkAnswer
                     "Cannot read properties of undefined (reading 'main00')"
                     true))]
         0 None).
Proof.
  split.
  - apply (proj1 (X17_interaction_on_a_fresh_session "main00"
      (Example.ctx_press "eijdfwof:main00:call:aaaaaa" 1) Example.world0
      Example.main_menu
      (mkHandler "eijdfwof:main00:call:aaaaaa" (Some Example.go_slow))
      ltac:(vm_compute; reflexivity) main_menu_sound
      ltac:(vm_compute; reflexivity) ltac:(vm_compute; reflexivity)) 1%Z).
    reflexivity.
  - apply (proj2 (X17_interaction_on_a_fresh_session "main00"
      (Sample.ctx_inline "eijdfwof:main00:call:aaaaaa") Example.world0
      Example.main_menu
      (mkHandler "eijdfwof:main00:call:aaaaaa" (Some Example.go_slow))
      ltac:(vm_compute; reflexivity) main_menu_sound
      ltac:(vm_compute; reflexivity) ltac:(vm_compute; reflexivity))
      Example.go_slow).
    + reflexivity.
    + reflexivity.
Defined.

(** ** More on the codec *)

Section TokenFacts.

Lemma split_append x y : split (x +:+ String colon y) = split x ++ split y.
Proof.
  induction x as [|c x IH].
  - rewrite append_nil. cbn [split]. by case_decide.
  - rewrite append_cons. cbn [split]. case_decide as Hc.
    + by rewrite IH.
    + rewrite IH. pose proof (split_not_nil x) as Hne.
      by destruct (split x).
Qed.

Lemma buildAction_effective a s t :
  buildAction a s t = buildAction a s (effective t).
Proof.
  unfold buildAction, effective. by destruct t as [[|c t]|].
Qed.

Lemma effective_ok t :
  (∀ x, t = Some x → no_colon x) →
  ∀ x, effective t = Some x → x ≠ "" ∧ no_colon x.
Proof.
  intros Ht x. unfold effective. destruct t as [[|c t]|]; try done.
  cbn. intros [= <-]. split; [done|]. by apply Ht.
Qed.

End TokenFacts.

(** X18. Tokens tell buttons apart. For owner ids that are not empty and hold
    no delimiter, and instance ids that hold no delimiter, two calls of
    [buildAction] give the same token exactly when they were given the
    same action kind, the same owner id and the same instance id, an empty
    instance id counting as none. *)
Theorem X18_equal_tokens_have_equal_fields a s t a' s' t' :
  well_formed_id s → well_formed_id s' →
  (∀ x, t = Some x → no_colon x) →
  (∀ x, t' = Some x → no_colon x) →
  buildAction a s t = buildAction a' s' t'
  ↔ a = a' ∧ s = s' ∧ effective t = effective t'.
Proof.
  intros [Hs Hsc] [Hs' Hsc'] Ht Ht'. split.
  - intros Heq. apply (f_equal parseAction) in Heq.
    rewrite (buildAction_effective a s t) in Heq.
    rewrite (buildAction_effective a' s' t') in Heq.
    rewrite !decode_encode in Heq by (done || by apply effective_ok).
    destruct a, a'. by injection Heq as -> Heq.
  - intros (-> & -> & Heq).
    by rewrite (buildAction_effective a' s' t), Heq, <- buildAction_effective.
Qed.

Lemma X18_equal_tokens_have_equal_fields_witness :
  (buildAction callback "main00" (Some "aaaaaa")
     = buildAction callback "main00" (Some "bbbbbb")
   ↔ callback = callback ∧ "main00" = "main00"
     ∧ effective (Some "aaaaaa") = effective (Some "bbbbbb"))
  ∧ (buildAction callback "main00" (Some "")
       = buildAction callback "main00" None
     ↔ callback = callback ∧ "main00" = "main00"
       ∧ effective (Some "") = effective None).
Proof.
  split.
  - apply (X18_equal_tokens_have_equal_fields callback "main00" (Some "aaaaaa")
             callback "main00" (Some "bbbbbb")).
    + by_evaluation.
    + by_evaluation.
    + intros x [= <-]. by_evaluation.
    + intros x [= <-]. by_evaluation.
  - apply (X18_equal_tokens_have_equal_fields callback "main00" (Some "")
             callback "main00" None).
    + by_evaluation.
    + by_evaluation.
    + intros x [= <-]. by_evaluation.
    + intros x [=].
Defined.

(** X19. [parseAction] reads the first four fields and nothing else: whatever
    follows a further delimiter after a string of at least four fields
    does not change the result. In particular a token minted with an
    instance id still decodes to its three parts with anything appended
    after a delimiter. *)
Theorem X19_parseAction_reads_four_fields :
  (∀ s junk,
     (4 ≤ length (split s))%nat →
     parseAction (s +:+ ":" +:+ junk) = parseAction s)
  ∧ (∀ a s t junk,
       well_formed_id s → well_formed_id t →
       parseAction (buildAction a s (Some t) +:+ ":" +:+ junk)
         = Some (mkParsed (Some a) s (Some t))).
Proof.
  assert (∀ s junk,
     (4 ≤ length (split s))%nat →
     parseAction (s +:+ ":" +:+ junk) = parseAction s) as Hfour.
  { intros s junk Hlen. unfold parseAction.
    change (s +:+ ":" +:+ junk) with (s +:+ String colon junk).
    rewrite split_append.
    destruct (split s) as [|p0 [|p1 [|p2 [|p3 tl]]]]; cbn in Hlen; try lia.
    done. }
  split; [exact Hfour|].
  intros a s t junk [Hs Hsc] [Ht Htc].
  rewrite Hfour.
  - apply decode_encode; [done|done|]. by intros x [= <-].
  - rewrite split_buildAction; [|done|by intros x [= <-]].
    rewrite truthy_Some by done. cbn. lia.
Qed.

Lemma X19_parseAction_reads_four_fields_witness :
  parseAction "eijdfwof:main00:call:aaaaaa:and:more"
    = parseAction "eijdfwof:main00:call:aaaaaa"
  ∧ parseAction (buildAction callback "main00" (Some "aaaaaa") +:+ ":" +:+ "x")
    = Some (mkParsed (Some callback) "main00" (Some "aaaaaa")).
Proof.
  split.
  - apply (proj1 X19_parseAction_reads_four_fields
             "eijdfwof:main00:call:aaaaaa" "and:more").
    vm_compute. lia.
  - apply (proj2 X19_parseAction_reads_four_fields callback "main00" "aaaaaa" "x");
      by_evaluation.
Defined.

(** ** Handler maps, arguments, options *)

(** X20. When several handlers carry the same token, the last one declared is
    the one registered: the map the constructor makes of the static
    handlers, and the map [buildLayout] makes of the dynamic ones, hold
    under each token the last handler of the list that carries it, and
    nothing under a token no handler carries. *)
Theorem X20_last_handler_wins handlers token :
  by_action handlers !! token
    = last (filter (λ h, action h = token) handlers).
Proof.
  induction handlers as [|h handlers IH] using rev_ind; [done|].
  unfold by_action in *. rewrite foldl_app. cbn [foldl].
  rewrite filter_app.
  destruct (decide (action h = token)) as [Heq|Hne].
  - rewrite Heq, lookup_insert_eq.
    rewrite filter_cons_True, filter_nil by done. by rewrite last_snoc.
  - rewrite lookup_insert_ne by done.
    rewrite filter_cons_False, filter_nil by done. by rewrite app_nil_r.
Qed.

(** X21. [refresh] renders with the arguments of the latest render in the
    session, whichever menu that render was of. After a [buildLayout] of a
    menu on arguments [a] has returned, and as long as the session is
    unchanged, [refresh(x)] of any menu for a context of that session is
    the render of that menu on [a] merged with [x]. *)
Theorem X21_refresh_uses_the_latest_arguments menu ctx a w r w1 :
  buildLayout menu ctx a w = (Ok r, w1) →
  ∀ self ctx' x w',
    sessions w' !! session_key ctx' = sessions w1 !! session_key ctx →
    refresh (getCallbackActions self ctx') x w'
      = render self ctx' (refresh_args a x) w'.
Proof.
  intros Hb self ctx' x w' Hsame.
  destruct (buildLayout_Ok_inv _ _ _ _ _ _ Hb)
    as (this & loaded & built & wa & wb & _ & _ & _ & _ & _ & ms & Hms & Ha & _).
  cbn. erewrite bind_ok; [by rewrite Ha|].
  unfold the_menu_session, session_of in *. by rewrite Hsame, Hms.
Qed.

Lemma X21_refresh_uses_the_latest_arguments_witness :
  refresh (getCallbackActions "slow00" Example.ctx_command) Example.reset_true
    (snd (buildLayout "main00" Example.ctx_command Example.previous_args
            Example.world0))
  = render "slow00" Example.ctx_command
      (refresh_args Example.previous_args Example.reset_true)
      (snd (buildLayout "main00" Example.ctx_command Example.previous_args
              Example.world0)).
Proof.
  apply (X21_refresh_uses_the_latest_arguments "main00" Example.ctx_command
    Example.previous_args Example.world0
    (mkRendered "main" Example.main_keyboard None)
    (snd (buildLayout "main00" Example.ctx_command Example.previous_args
            Example.world0))).
  - vm_compute. reflexivity.
  - reflexivity.
Defined.

Import Factory.

(** X22. The options of a menu made by a factory. Each of the three options is
    the menu's own value when its options object gives one; the built-in
    default when its options object has the property with the value
    [undefined], even if the factory was given a default for it; otherwise
    the factory's default when there is one, and otherwise the built-in
    default. In everything but its options the menu is the one [createMenu]
    makes. *)
Theorem X22_factory_options_take_precedence
    defaultOptions loader onEnter layout state options menuId :
  let m := createMenuFactory defaultOptions loader onEnter layout state
             options menuId in
  stale_text m
    = resolved (field_of options staleErrorText_field)
               (field_of defaultOptions staleErrorText_field)
               default_staleErrorText
  ∧ timeout_text m
    = resolved (field_of options timeoutErrorText_field)
               (field_of defaultOptions timeoutErrorText_field)
               default_timeoutErrorText
  ∧ timeout_ms m
    = resolved (field_of options timeoutMs_field)
               (field_of defaultOptions timeoutMs_field)
               default_timeoutMs
  ∧ ∀ other,
      createMenu loader onEnter layout state other menuId
      = mkMenu (id m) (loaderFn m) (initStateFn m) (onEnterFn m)
               (staticActionHandlersByAction m)
               (dynamicActionHandlersByActionByChatId m) (builder m) other.
Proof.
  intros m. subst m. unfold stale_text, timeout_text, timeout_ms. cbn.
  split; [|split; [|split; [|done]]].
  - destruct options as [[[| |?] ? ?]|], defaultOptions as [[[| |?] ? ?]|];
      reflexivity.
  - destruct options as [[? [| |?] ?]|], defaultOptions as [[? [| |?] ?]|];
      reflexivity.
  - destruct options as [[? ? [| |?]]|], defaultOptions as [[? ? [| |?]]|];
      reflexivity.
Qed.

(** X23. The two versions of [createMenuFactory] agree on the options: the
    older one, which hands no options object on when it is given none,
    makes a menu with the same stale text, timeout text and timeout as the
    newer one makes from the same options. *)
Theorem X23_both_factories_resolve_options_alike
    defaultOptions loader onEnter layout state options menuId :
  let newer := createMenuFactory defaultOptions loader onEnter layout state
                 options menuId in
  let older := createMenuFactory_older defaultOptions loader layout state
                 options menuId in
  stale_text older = stale_text newer
  ∧ timeout_text older = timeout_text newer
  ∧ timeout_ms older = timeout_ms newer
  ∧ staticActionHandlersByAction older = staticActionHandlersByAction newer
  ∧ builder older = builder newer.
Proof.
  intros newer older. subst newer older.
  unfold stale_text, timeout_text, timeout_ms.
  by destruct options, defaultOptions.
Qed.

(** ** The state accessor *)

Section AccessorFacts.

Lemma state_of_object id ctx w props :
  state_of id ctx w = VObj props →
  ∃ ms slot,
    _menu (session_of ctx w) = Some ms
    ∧ slots ms !! id = Some slot
    ∧ state slot = VObj props.
Proof.
  unfold state_of. destruct (_menu (session_of ctx w)) as [ms|]; [|done].
  destruct (slots ms !! id) as [slot|] eqn:E; [|done]. eauto.
Qed.

Lemma the_slot_unfold ctx id w ms slot :
  _menu (session_of ctx w) = Some ms →
  slots ms !! id = Some slot →
  the_slot ctx id w = (Ok slot, w).
Proof.
  intros Hms Hslot. unfold the_slot.
  erewrite bind_ok; [|unfold the_menu_session; by rewrite Hms].
  by rewrite Hslot.
Qed.

Lemma set_slot_state_unfold ctx id v w ms slot :
  _menu (session_of ctx w) = Some ms →
  slots ms !! id = Some slot →
  set_slot_state ctx id v w =
    (Ok tt,
     set_session ctx
       (mkSession (Some (mkMenuSession (activeMessageId ms)
          (activeMenuLoaderArgs ms) (activeMenuLoaderData ms)
          (<[id := mkSlot v]> (slots ms))))) w).
Proof.
  intros Hms Hslot. unfold set_slot_state.
  erewrite bind_ok; [|unfold the_menu_session; by rewrite Hms].
  by rewrite Hslot.
Qed.

Lemma state_of_written id ctx v w ms :
  state_of id ctx
    (set_session ctx
       (mkSession (Some (mkMenuSession (activeMessageId ms)
          (activeMenuLoaderArgs ms) (activeMenuLoaderData ms)
          (<[id := mkSlot v]> (slots ms))))) w) = v.
Proof. rewrite state_of_set_session. cbn. by rewrite lookup_insert_eq. Qed.

Lemma state_of_written_other id other ctx v w ms :
  _menu (session_of ctx w) = Some ms →
  other ≠ id →
  state_of other ctx
    (set_session ctx
       (mkSession (Some (mkMenuSession (activeMessageId ms)
          (activeMenuLoaderArgs ms) (activeMenuLoaderData ms)
          (<[id := mkSlot v]> (slots ms))))) w) = state_of other ctx w.
Proof.
  intros Hms Hne. rewrite state_of_set_session. cbn.
  rewrite lookup_insert_ne by done. unfold state_of. by rewrite Hms.
Qed.

Lemma active_of_written key id ctx v w ms :
  _menu (session_of ctx w) = Some ms →
  active_of key
    (set_session ctx
       (mkSession (Some (mkMenuSession (activeMessageId ms)
          (activeMenuLoaderArgs ms) (activeMenuLoaderData ms)
          (<[id := mkSlot v]> (slots ms))))) w) = active_of key w.
Proof.
  intros Hms. rewrite active_of_set_session. case_decide as Hk; [|done].
  subst key. rewrite active_of_session. by rewrite Hms.
Qed.

End AccessorFacts.

(** X24. What is set can be got. On a state that is a plain object, with an
    engine that reads the properties an object has and writes any property
    but [__proto__]: [set(key, v)] with a [v] that is not a function
    returns and leaves the state object with [v] under [key] and its other
    properties as they were, so that [get(key)] then returns [v] and
    [get] of another property the object had returns what it held; the
    states of the other menus and the active message are untouched; and
    when the accessor is the one installed on the context, the world is
    the one the model of user code writes that state object to. *)
Theorem X24_set_then_get_returns_the_value
    get_property set_property id ctx key v w props :
  Accessor.reads_own get_property →
  Accessor.writes_own set_property →
  key ≠ "__proto__" →
  state_of id ctx w = VObj props →
  let w1 := snd (Accessor.set get_property set_property id ctx key (inl v) w) in
  fst (Accessor.set get_property set_property id ctx key (inl v) w) = Ok tt
  ∧ state_of id ctx w1 = VObj (<[key := v]> props)
  ∧ Accessor.get get_property id ctx key w1 = (Ok v, w1)
  ∧ (∀ key' v', key' ≠ key → props !! key' = Some v' →
       Accessor.get get_property id ctx key' w1 = (Ok v', w1))
  ∧ (∀ other, other ≠ id → state_of other ctx w1 = state_of other ctx w)
  ∧ (∀ session, active_of session w1 = active_of session w)
  ∧ (ctx_menu_state w = Some id →
     w1 = store_state ctx (VObj (<[key := v]> props)) w).
Proof.
  intros Hget Hset Hkey Hstate.
  destruct (state_of_object _ _ _ _ Hstate) as (ms & slot & Hms & Hslot & Hs).
  assert (Accessor.set get_property set_property id ctx key (inl v) w
          = (Ok tt,
             set_session ctx
               (mkSession (Some (mkMenuSession (activeMessageId ms)
                  (activeMenuLoaderArgs ms) (activeMenuLoaderData ms)
                  (<[id := mkSlot (VObj (<[key := v]> props))]> (slots ms)))))
               w)) as Hrun.
  { unfold Accessor.set.
    rewrite (bind_ok _ _ _ _ _ (the_slot_unfold _ _ _ _ _ Hms Hslot)).
    rewrite Hs, (Hset props key v Hkey). cbn [settle]. rewrite bind_ret.
    by eapply set_slot_state_unfold. }
  rewrite Hrun. cbn [fst snd].
  set (w1 := set_session ctx _ w).
  assert (∀ key' v', <[key := v]> props !! key' = Some v' →
            Accessor.get get_property id ctx key' w1 = (Ok v', w1)) as Hread.
  { intros key' v' Hlook. unfold Accessor.get.
    rewrite (bind_ok _ _ _ (mkSlot (VObj (<[key := v]> props))) w1).
    - cbn [state]. by rewrite (Hget _ _ _ Hlook).
    - eapply the_slot_unfold.
      + unfold w1. by rewrite session_of_set_session.
      + cbn. by rewrite lookup_insert_eq. }
  split; [done|]. split; [apply state_of_written|].
  split; [apply Hread; by rewrite lookup_insert_eq|].
  split; [intros key' v' Hne Hlook; apply Hread; by rewrite lookup_insert_ne|].
  split; [intros other Hne; by apply state_of_written_other|].
  split; [intros session; by apply active_of_written|].
  intros Howner. unfold store_state. by rewrite Howner, Hms, Hslot.
Qed.

Lemma X24_set_then_get_returns_the_value_witness :
  let w := snd (resolve_state "count0" Example.ctx_command Sample.world) in
  let w1 := snd (Accessor.set Accessor.plain_get Accessor.plain_set
                   "count0" Example.ctx_command "count" (inl (VNum 5)) w) in
  fst (Accessor.set Accessor.plain_get Accessor.plain_set
         "count0" Example.ctx_command "count" (inl (VNum 5)) w) = Ok tt
  ∧ state_of "count0" Example.ctx_command w1
    = VObj (<["count" := VNum 5]> {["count" := VNum 0]})
  ∧ Accessor.get Accessor.plain_get "count0" Example.ctx_command "count" w1
    = (Ok (VNum 5), w1).
Proof.
  intros w w1.
  destruct (X24_set_then_get_returns_the_value Accessor.plain_get Accessor.plain_set
    "count0" Example.ctx_command "count" (VNum 5) w {["count" := VNum 0]})
    as (H1 & H2 & H3 & _).
  - intros props key v Hlook. cbn. by rewrite Hlook.
  - intros props key v _. reflexivity.
  - discriminate.
  - vm_compute. reflexivity.
  - split; [exact H1|]. split; [exact H2|exact H3].
Defined.

(** X25. [set] with a function updates: on a state that is a plain object which
    has the property, with such an engine, [set(key, f)] calls [f] on what
    the property holds and leaves what [f] returns under [key]; when [f]
    throws, [set] throws the same and the state is as it was. *)
Theorem X25_set_with_a_function_updates
    get_property set_property id ctx key updater w props old :
  Accessor.reads_own get_property →
  Accessor.writes_own set_property →
  key ≠ "__proto__" →
  state_of id ctx w = VObj props →
  props !! key = Some old →
  let run := Accessor.set get_property set_property id ctx key (inr updater) w in
  match updater old with
  | inr new =>
      fst run = Ok tt
      ∧ state_of id ctx (snd run) = VObj (<[key := new]> props)
      ∧ Accessor.get get_property id ctx key (snd run) = (Ok new, snd run)
  | inl e => run = (Throw e, w)
  end.
Proof.
  intros Hget Hset Hkey Hstate Hold.
  destruct (state_of_object _ _ _ _ Hstate) as (ms & slot & Hms & Hslot & Hs).
  cbn zeta. unfold Accessor.set.
  rewrite (bind_ok _ _ _ _ _ (the_slot_unfold _ _ _ _ _ Hms Hslot)).
  rewrite Hs, (Hget _ _ _ Hold). cbn [settle]. rewrite bind_ret.
  destruct (updater old) as [e|new]; cbn [settle]; [done|].
  rewrite bind_ret, (Hset props key new Hkey). cbn [settle]. rewrite bind_ret.
  rewrite (set_slot_state_unfold _ _ _ _ _ _ Hms Hslot). cbn [fst snd].
  set (w1 := set_session ctx _ w).
  split; [done|]. split; [apply state_of_written|].
  unfold Accessor.get.
  rewrite (bind_ok _ _ _ (mkSlot (VObj (<[key := new]> props))) w1).
  - cbn [state]. rewrite (Hget (<[key := new]> props) key new); [done|].
    by rewrite lookup_insert_eq.
  - eapply the_slot_unfold.
    + unfold w1. by rewrite session_of_set_session.
    + cbn. by rewrite lookup_insert_eq.
Qed.

Lemma X25_set_with_a_function_updates_witness :
  let w := snd (resolve_state "count0" Example.ctx_command Sample.world) in
  let run := Accessor.set Accessor.plain_get Accessor.plain_set
               "count0" Example.ctx_command "count"
               (inr (λ previous,
                       match previous with
                       | VNum n => inr (VNum (n + 1))
                       | _ => inl (new_Error "not a number")
                       end)) w in
  fst run = Ok tt
  ∧ state_of "count0" Example.ctx_command (snd run)
    = VObj (<["count" := VNum 1]> {["count" := VNum 0]})
  ∧ Accessor.get Accessor.plain_get "count0" Example.ctx_command "count"
      (snd run) = (Ok (VNum 1), snd run).
Proof.
  intros w.
  apply (X25_set_with_a_function_updates Accessor.plain_get Accessor.plain_set
    "count0" Example.ctx_command "count"
    (λ previous, match previous with
                 | VNum n => inr (VNum (n + 1))
                 | _ => inl (new_Error "not a number")
                 end)
    w {["count" := VNum 0]} (VNum 0)).
  - intros props key v Hlook. cbn. by rewrite Hlook.
  - intros props key v _. reflexivity.
  - discriminate.
  - vm_compute. reflexivity.
  - reflexivity.
Defined.

(** X26. [reset] starts the state over. For a menu whose entry the session
    has: with an initialiser that resolves, [reset()] returns and leaves
    what the initialiser resolved to as the state, whatever the state was;
    without an initialiser it leaves [undefined]; when the initialiser
    rejects, [reset()] rejects with the same error and the state is as it
    was. The states of the other menus and the active message are
    untouched. *)
Theorem X26_reset_starts_the_state_over self ctx w this ms slot :
  menus w !! self = Some this →
  _menu (session_of ctx w) = Some ms →
  slots ms !! id this = Some slot →
  let run := Accessor.reset self ctx w in
  match initStateFn this with
  | Some (Resolved v) =>
      fst run = Ok tt ∧ state_of (id this) ctx (snd run) = v
  | None =>
      fst run = Ok tt ∧ state_of (id this) ctx (snd run) = VUndefined
  | Some (Rejected e) => run = (Throw e, w)
  | Some Pending => run = (Hang, w)
  end
  ∧ (∀ other, other ≠ id this →
       state_of other ctx (snd run) = state_of other ctx w)
  ∧ (∀ session, active_of session (snd run) = active_of session w).
Proof.
  intros Hthis Hms Hslot. cbn zeta. unfold Accessor.reset.
  erewrite bind_ok; [|unfold this_menu; by rewrite Hthis].
  erewrite bind_ok; [|unfold the_menu_session; by rewrite Hms].
  destruct (initStateFn this) as [[v|e|]|]; cbn [await_outcome];
    try (split; [done|split; done]).
  - rewrite bind_ret, (set_slot_state_unfold _ _ _ _ _ _ Hms Hslot).
    cbn [fst snd]. split; [split; [done|apply state_of_written]|].
    split; [intros other Hne; by apply state_of_written_other|].
    intros session; by apply active_of_written.
  - rewrite bind_ret, (set_slot_state_unfold _ _ _ _ _ _ Hms Hslot).
    cbn [fst snd]. split; [split; [done|apply state_of_written]|].
    split; [intros other Hne; by apply state_of_written_other|].
    intros session; by apply active_of_written.
Qed.

Lemma X26_reset_starts_the_state_over_witness :
  let w := snd (Accessor.set Accessor.plain_get Accessor.plain_set
                  "count0" Example.ctx_command "count" (inl (VNum 5))
                  (snd (resolve_state "count0" Example.ctx_command
                          Sample.world))) in
  state_of "count0" Example.ctx_command w
    = VObj (<["count" := VNum 5]> {["count" := VNum 0]})
  ∧ fst (Accessor.reset "count0" Example.ctx_command w) = Ok tt
  ∧ state_of "count0" Example.ctx_command
      (snd (Accessor.reset "count0" Example.ctx_command w))
    = Sample.initial_count.
Proof.
  intros w. split; [vm_compute; reflexivity|].
  edestruct (X26_reset_starts_the_state_over "count0" Example.ctx_command w
               Sample.counter_menu) as [H _].
  - reflexivity.
  - reflexivity.
  - reflexivity.
  - exact H.
Defined.

(** ** What a send makes the host do *)

Section SendEvents.

Lemma before_loader_quiet self ctx : keeps quiet (before_loader self ctx).
Proof.
  unfold before_loader.
  apply keeps_bind; [apply _| |].
  { apply frame_initContext; try apply _. by intros. }
  intros _. apply keeps_bind; [apply _| |].
  { apply frame_getState; try apply _. by intros. }
  intros state. apply keeps_bind; [apply _| |].
  { apply frame_install_if; try apply _. by intros. }
  intros _. apply keeps_bind; [apply _|by apply frame_this_menu|].
  intros this. apply keeps_bind; [apply _| |intros _; by apply keeps_ret].
  destruct (onEnterFn this); [|by apply keeps_ret].
  apply quiet_await_user.
Qed.

(** What the race of the loader leaves in the list of events. *)
Lemma loader_race_log ctx text ms ev (f : UserFn LoaderResult) w :
  log (snd (race text ms (let* _ := emit ev in await_user ctx f) w))
  = log w ++ [ev].
Proof.
  rewrite race_untimed by apply untimed_loader. rewrite bind_emit.
  pose proof (quiet_await_user ctx f (snd (emit ev w))) as [_ Hq].
  destruct (await_user ctx f _) as [[?|?|] w2]; cbn in *; [done|done|].
  by destruct (fires_first ms w).
Qed.

(** Whichever way [buildLayout] ends, the only event it has added is the
    call of the loader, if it got that far. *)
Lemma buildLayout_log self ctx args w :
  log (snd (buildLayout self ctx args w)) = log w
  ∨ log (snd (buildLayout self ctx args w)) = log w ++ [ev_loader self args].
Proof.
  destruct (buildLayout self ctx args w) as [res w'] eqn:Hb. cbn.
  rewrite buildLayout_unfold in Hb. unfold bind at 1 in Hb.
  pose proof (before_loader_quiet self ctx w) as [_ Hl1].
  destruct (before_loader self ctx w) as [[this|e|] w1] eqn:H1;
    cbn in Hl1;
    [|injection Hb as <- <-; by left|injection Hb as <- <-; by left].
  right. unfold bind at 1 in Hb.
  pose proof (loader_race_log ctx (timeout_text this) (timeout_ms this)
                (ev_loader self args) (loaderFn this ctx args) w1) as Hl2.
  rewrite Hl1 in Hl2.
  destruct (race _ _ _ w1) as [[loaded|e|] w2] eqn:H2; cbn in Hl2;
    [|by injection Hb as <- <-|by injection Hb as <- <-].
  unfold bind at 1 in Hb.
  pose proof (quiet_build (builder this) ctx (loaded_data loaded) w2)
    as [_ Hl3].
  destruct (build _ _ _ w2) as [[built|e|] w3] eqn:H3; cbn in Hl3;
    [|injection Hb as <- <-; congruence|injection Hb as <- <-; congruence].
  unfold bind, set_dynamic, the_menu_session, put_menu_session, ret in Hb.
  destruct (menus w3 !! self); [|injection Hb as <- <-; congruence].
  cbn in Hb.
  destruct (_menu (session_of ctx _)); injection Hb as <- <-; cbn; congruence.
Qed.

(** A [send] whose [buildLayout] is not settled is not settled either, and
    has done nothing more. *)
Lemma send_unsettled self ctx args w w1 :
  buildLayout self ctx args w = (Hang, w1) →
  send self ctx args w = (Hang, w1).
Proof.
  intros Hb. unfold send, try_catch, send_try.
  by rewrite (bind_hang _ _ _ _ Hb).
Qed.

(** After [initContext] the session has an entry for the menu, holding the
    state it held before, if any. *)
Lemma initContext_slot self ctx w this :
  menus w !! self = Some this →
  ∃ w1 slot,
    initContext self ctx w = (Ok tt, w1)
    ∧ menus w1 = menus w
    ∧ log w1 = log w
    ∧ the_slot ctx (id this) w1 = (Ok slot, w1)
    ∧ state slot = state_of (id this) ctx w.
Proof.
  intros Hthis. rewrite (initContext_unfold self ctx w this Hthis).
  set (ms := default (mkMenuSession None VUndefined VUndefined ∅)
                     (_menu (session_of ctx w))).
  set (slots1 := match slots ms !! id this with
                 | Some _ => slots ms
                 | None => <[id this := mkSlot VUndefined]> (slots ms)
                 end).
  cbn zeta. fold ms. fold slots1.
  assert (∃ slot, slots1 !! id this = Some slot
                  ∧ state slot = state_of (id this) ctx w)
    as (slot & Hslot & Hs).
  { unfold state_of, slots1, ms.
    destruct (_menu (session_of ctx w)) as [ms0|]; cbn.
    - destruct (slots ms0 !! id this) as [slot|] eqn:E.
      + exists slot. by rewrite E.
      + exists (mkSlot VUndefined). by rewrite lookup_insert_eq.
    - rewrite lookup_empty. exists (mkSlot VUndefined).
      by rewrite lookup_insert_eq. }
  eexists _, slot. do 3 (split; [done|]). split; [|done].
  unfold the_slot. erewrite bind_ok;
    [|unfold the_menu_session; by rewrite session_of_set_session].
  cbn. by rewrite Hslot.
Qed.

(** A state initialiser that has not settled: [buildLayout] waits for it,
    before anything is called. *)
Lemma buildLayout_awaits_state self ctx args w this :
  menus w !! self = Some this →
  initStateFn this = Some Pending →
  falsy (state_of (id this) ctx w) = true →
  ∃ w1, buildLayout self ctx args w = (Hang, w1) ∧ log w1 = log w.
Proof.
  intros Hthis Hinit Hf.
  destruct (initContext_slot self ctx w this Hthis)
    as (w1 & slot & Hctx & Hm & Hl & Hslot & Hs).
  exists w1. split; [|done].
  unfold buildLayout. rewrite (bind_ok _ _ _ _ _ Hctx).
  apply bind_hang. unfold getState.
  erewrite bind_ok; [|unfold this_menu; by rewrite Hm, Hthis].
  rewrite (bind_ok _ _ _ _ _ Hslot). by rewrite Hinit, Hs, Hf.
Qed.

(** An [onEnter] hook that has not settled: [buildLayout] waits for it,
    before the loader is called. *)
Lemma buildLayout_awaits_onEnter self ctx args w this state w2 onEnter st :
  menus w !! self = Some this →
  resolve_state self ctx w = (Ok state, w2) →
  onEnterFn this = Some onEnter →
  onEnter ctx (visible_state ctx (snd (install_if state w2))) = (st, Pending) →
  ∃ w3, buildLayout self ctx args w = (Hang, w3) ∧ log w3 = log w.
Proof.
  intros Hthis Hres Hon Hpending.
  assert (before_loader self ctx w
          = (Hang, store_state ctx st (snd (install_if state w2)))) as Hbefore.
  { unfold resolve_state in Hres. unbind Hres as u1 w1 H1.
    assert (menus w2 = menus w) as Hm2.
    { pose proof (keeps_apply _ _ _ _ _
        (frame_initContext same_menus (λ ctx' ms' w _, eq_refl) self ctx) H1)
        as Ha.
      pose proof (keeps_apply _ _ _ _ _
        (frame_getState same_menus (λ ctx' ms' w _, eq_refl) self ctx) Hres)
        as Hb.
      unfold same_menus in *. congruence. }
    unfold before_loader.
    rewrite (bind_ok _ _ _ _ _ H1), (bind_ok _ _ _ _ _ Hres).
    assert (install_if state w2 = (Ok tt, snd (install_if state w2))) as Hi
      by (by destruct state).
    rewrite (bind_ok _ _ _ _ _ Hi).
    assert (menus (snd (install_if state w2)) = menus w2) as Hm3
      by (by destruct state).
    erewrite bind_ok; [|unfold this_menu; by rewrite Hm3, Hm2, Hthis].
    apply bind_hang. rewrite Hon. unfold await_user, await_then.
    by rewrite Hpending. }
  eexists. split.
  - rewrite buildLayout_unfold. by apply bind_hang.
  - pose proof (keeps_apply _ _ _ _ _ (before_loader_quiet self ctx) Hbefore)
      as [_ Hl]. exact Hl.
Qed.

(** A layout whose build is not settled after the loader has answered. *)
Lemma buildLayout_awaits_build self ctx args w this w5 st loaded :
  before_loader self ctx w = (Ok this, w5) →
  loaderFn this ctx args
    (visible_state ctx (snd (emit (ev_loader self args) w5)))
    = (st, Resolved loaded) →
  fst (build (builder this) ctx (loaded_data loaded)
         (store_state ctx st (snd (emit (ev_loader self args) w5)))) = Hang →
  ∃ w7, buildLayout self ctx args w = (Hang, w7)
        ∧ log w7 = log w ++ [ev_loader self args].
Proof.
  intros Hbefore Hload Hbuild.
  pose proof (keeps_apply _ _ _ _ _ (before_loader_quiet self ctx) Hbefore)
    as [_ Hl5].
  set (w6 := store_state ctx st (snd (emit (ev_loader self args) w5))) in *.
  destruct (build (builder this) ctx (loaded_data loaded) w6)
    as [res w7] eqn:Hb. cbn in Hbuild. subst res.
  exists w7. split.
  - rewrite buildLayout_unfold. rewrite (bind_ok _ _ _ _ _ Hbefore).
    erewrite bind_ok; [by apply bind_hang|].
    rewrite race_untimed by apply untimed_loader.
    rewrite bind_emit. unfold await_user, await_then. by rewrite Hload.
  - pose proof (keeps_apply _ _ _ _ _ (quiet_build _ _ _) Hb) as [_ Hl7].
    rewrite Hl7. unfold w6.
    destruct (quiet_store ctx st (snd (emit (ev_loader self args) w5)))
      as [_ ->].
    cbn. by rewrite Hl5.
Qed.

(** A dynamic section that is not settled -- its generator, or the build
    of the steps its generator declared -- leaves the build of the layout
    unsettled, whatever comes after it. *)
Lemma build_steps_awaits_section ctx data pre f post w r1 w1 st :
  build_steps ctx data pre w = (Ok r1, w1) →
  f ctx data (visible_state ctx w1) = (st, Pending)
  ∨ (∃ nested,
       f ctx data (visible_state ctx w1) = (st, Resolved nested)
       ∧ fst (build_steps ctx data nested (store_state ctx st w1)) = Hang) →
  fst (build_steps ctx data (pre ++ dynamic_step f :: post) w) = Hang.
Proof.
  unfold build_steps. intros Hpre Hsection.
  unbind Hpre as a1 wa Hpre'. inv_ret Hpre.
  unfold bind at 1. rewrite for_of_app, (bind_ok _ _ _ _ _ Hpre').
  rewrite for_of_cons. unfold bind at 1. cbn [build_step]. unfold await_then.
  destruct Hsection as [->|(nested & -> & Hnested)]; [done|].
  unfold bind at 1 in Hnested. unfold bind at 1.
  by destruct (for_of (build_step ctx data) nested start _) as [[?|?|] ?].
Qed.

End SendEvents.

(** X27. With a host on which sending a message succeeds, a [send] that comes
    back has sent exactly one message -- the menu, or the text of the
    error that kept the menu from being built -- and has not thrown; a
    [send] that is not settled has sent nothing. Besides, the only other
    event is the call of the loader. What keeps a [send] from coming
    back is a state initialiser, an [onEnter] hook or a dynamic section
    that does not settle: the initialiser is awaited when the state the
    session holds for the menu is falsy, the hook after that, and the
    sections after the loader has answered, a section being unsettled
    when its generator is, or when the build of the steps it declared is.
    For only the loader is raced against the timer: when it is the loader
    that does not settle, the timer fires (unless the [send] is itself
    awaited in a race whose timer fires first), and the [send] comes back
    having sent the timeout text. *)
Theorem X27_send_sends_one_message_or_never_returns self ctx args w :
  (∀ history text other, ∃ m, reply ctx history text other = inr m) →
  let sent := send self ctx args w in
  ((fst sent = Ok tt
    ∧ ∃ text other,
        log (snd sent) = log w ++ [ev_reply text other]
        ∨ log (snd sent) = log w ++ [ev_loader self args; ev_reply text other])
   ∨ (fst sent = Hang
      ∧ (log (snd sent) = log w
         ∨ log (snd sent) = log w ++ [ev_loader self args])))
  ∧ (∀ this,
       menus w !! self = Some this →
       initStateFn this = Some Pending →
       falsy (state_of (id this) ctx w) = true →
       fst sent = Hang ∧ log (snd sent) = log w)
  ∧ (∀ this state w2 onEnter st,
       menus w !! self = Some this →
       resolve_state self ctx w = (Ok state, w2) →
       onEnterFn this = Some onEnter →
       onEnter ctx (visible_state ctx (snd (install_if state w2)))
         = (st, Pending) →
       fst sent = Hang ∧ log (snd sent) = log w)
  ∧ (∀ this w5 st loaded,
       before_loader self ctx w = (Ok this, w5) →
       loaderFn this ctx args
         (visible_state ctx (snd (emit (ev_loader self args) w5)))
         = (st, Resolved loaded) →
       fst (build (builder this) ctx (loaded_data loaded)
              (store_state ctx st (snd (emit (ev_loader self args) w5))))
         = Hang →
       fst sent = Hang ∧ log (snd sent) = log w ++ [ev_loader self args])
  ∧ (∀ data pre f post w0 r1 w1 st,
       build_steps ctx data pre w0 = (Ok r1, w1) →
       f ctx data (visible_state ctx w1) = (st, Pending)
       ∨ (∃ nested,
            f ctx data (visible_state ctx w1) = (st, Resolved nested)
            ∧ fst (build_steps ctx data nested (store_state ctx st w1))
              = Hang) →
       fst (build_steps ctx data (pre ++ dynamic_step f :: post) w0) = Hang)
  ∧ (∀ this w5 st,
       before_loader self ctx w = (Ok this, w5) →
       loaderFn this ctx args
         (visible_state ctx (snd (emit (ev_loader self args) w5)))
         = (st, Pending) →
       fires_first (timeout_ms this) w5 = true →
       fst sent = Ok tt
       ∧ log (snd sent)
         = log w ++ [ev_loader self args;
                     ev_reply (Some (timeout_text this)) None]).
Proof.
  intros Hreply sent.
  assert (∀ w1, buildLayout self ctx args w = (Hang, w1) →
                fst sent = Hang ∧ log (snd sent) = log w1) as Hunsettled.
  { intros w1 Hb. unfold sent. by rewrite (send_unsettled _ _ _ _ _ Hb). }
  assert (∀ e w1, buildLayout self ctx args w = (Throw e, w1) →
                  fst sent = Ok tt
                  ∧ log (snd sent) = log w1 ++ [ev_reply (message e) None])
    as Hthrown.
  { intros e w1 Hb.
    assert (send_try self ctx args w = (Throw e, w1)) as Htry
      by (unfold send_try; by apply bind_throw).
    unfold sent, send, try_catch. rewrite Htry.
    unfold bind. rewrite call_reply_unfold.
    by destruct (Hreply (log w1) (message e) None) as [m ->]. }
  split; [|split; [|split; [|split; [|split]]]].
  - pose proof (buildLayout_log self ctx args w) as Hlog.
    destruct (buildLayout self ctx args w) as [[r|e|] w1] eqn:Hb; cbn in Hlog.
    + destruct (buildLayout_Ok_inv _ _ _ _ _ _ Hb)
        as (_ & _ & _ & _ & _ & _ & _ & _ & _ & Hl & _).
      destruct (Hreply (log w1) (Some (rendered_text r))
                  (Some (mkOther (rendered_parseMode r)
                                 (rendered_keyboard r))))
        as [m Hm].
      destruct (send_try_ok _ _ _ _ _ _ _ Hb Hm) as (ms & _ & Htry).
      left. unfold sent, send, try_catch. rewrite Htry. cbn. split; [done|].
      eexists _, _. right. rewrite Hl. by rewrite <- (assoc_L (++)).
    + destruct (Hthrown e w1 eq_refl) as [Hok Hl]. left. split; [done|].
      exists (message e), None. rewrite Hl.
      destruct Hlog as [->| ->]; [by left|right].
      by rewrite <- (assoc_L (++)).
    + destruct (Hunsettled w1 eq_refl) as [Hh Hl]. right. split; [done|].
      by rewrite Hl.
  - intros this Hthis Hinit Hf.
    destruct (buildLayout_awaits_state self ctx args w this Hthis Hinit Hf)
      as (w1 & Hb & Hl).
    destruct (Hunsettled w1 Hb) as [Hh Hl']. by rewrite Hl', Hl.
  - intros this state w2 onEnter st Hthis Hres Hon Hpending.
    destruct (buildLayout_awaits_onEnter self ctx args w this state w2
                onEnter st Hthis Hres Hon Hpending) as (w3 & Hb & Hl).
    destruct (Hunsettled w3 Hb) as [Hh Hl']. by rewrite Hl', Hl.
  - intros this w5 st loaded Hbefore Hload Hbuild.
    destruct (buildLayout_awaits_build self ctx args w this w5 st loaded
                Hbefore Hload Hbuild) as (w7 & Hb & Hl).
    destruct (Hunsettled w7 Hb) as [Hh Hl']. by rewrite Hl', Hl.
  - intros data pre f post w0 r1 w1 st. apply build_steps_awaits_section.
  - intros this w5 st Hbefore Hload Hfirst.
    pose proof (buildLayout_timeout _ _ _ _ _ _ _ Hbefore Hload Hfirst) as Hb.
    destruct (Hthrown _ _ Hb) as [Hok Hl]. split; [done|].
    rewrite Hl. cbn [log with_timers].
    destruct (quiet_store ctx st (snd (emit (ev_loader self args) w5)))
      as [_ ->].
    pose proof (keeps_apply _ _ _ _ _ (before_loader_quiet self ctx) Hbefore)
      as [_ Hl5].
    cbn. rewrite Hl5. by rewrite <- (assoc_L (++)).
Qed.

(** Four sends on a host that delivers: of a menu whose state initialiser
    never settles, of one whose [onEnter] never settles, of one with a
    dynamic section that never settles, and of one whose loader never
    settles. *)
Lemma X27_send_sends_one_message_or_never_returns_witness :
  (fst (send "stuck0" Example.ctx_command VUndefined Timers.world) = Hang
   ∧ log (snd (send "stuck0" Example.ctx_command VUndefined Timers.world))
     = [])
  ∧ (fst (send "stuck1" Example.ctx_command VUndefined Timers.world) = Hang
     ∧ log (snd (send "stuck1" Example.ctx_command VUndefined Timers.world))
       = [])
  ∧ (fst (send "stuck2" Example.ctx_command VUndefined Timers.world) = Hang
     ∧ log (snd (send "stuck2" Example.ctx_command VUndefined Timers.world))
       = [ev_loader "stuck2" VUndefined])
  ∧ (fst (send "inner0" Example.ctx_command VUndefined Timers.world) = Ok tt
     ∧ log (snd (send "inner0" Example.ctx_command VUndefined Timers.world))
       = [ev_loader "inner0" VUndefined;
          ev_reply (Some "inner too slow") None]).
Proof.
  assert (∀ history text other,
            ∃ m, reply Example.ctx_command history text other = inr m)
    as Hreply by (intros history text other; by eexists).
  split; [|split; [|split]].
  - destruct (X27_send_sends_one_message_or_never_returns "stuck0"
      Example.ctx_command VUndefined Timers.world Hreply)
      as (_ & Hstate & _).
    apply (Hstate Timers.stuck_state_menu); reflexivity.
  - destruct (X27_send_sends_one_message_or_never_returns "stuck1"
      Example.ctx_command VUndefined Timers.world Hreply)
      as (_ & _ & Henter & _).
    apply (Henter Timers.stuck_enter_menu None
             (snd (resolve_state "stuck1" Example.ctx_command Timers.world))
             (λ _ st, (st, Pending)) VUndefined); reflexivity.
  - destruct (X27_send_sends_one_message_or_never_returns "stuck2"
      Example.ctx_command VUndefined Timers.world Hreply)
      as (_ & _ & _ & Hbuild & Hsection & _).
    apply (Hbuild Timers.stuck_section_menu
             (snd (before_loader "stuck2" Example.ctx_command Timers.world))
             VUndefined (mkLoaded "stuck" VUndefined None));
      [reflexivity|reflexivity|].
    eapply (Hsection VUndefined [] (λ _ _ st, (st, Pending)) []);
      [reflexivity|].
    left. reflexivity.
  - destruct (X27_send_sends_one_message_or_never_returns "inner0"
      Example.ctx_command VUndefined Timers.world Hreply)
      as (_ & _ & _ & _ & _ & Hloader).
    apply (Hloader Timers.inner_menu
             (snd (before_loader "inner0" Example.ctx_command Timers.world))
             VUndefined); reflexivity.
Defined.

(** ** Chats *)

Section ChatKeys.

Lemma pretty_N_go_not_empty x : ∀ s, s ≠ "" → pretty_N_go x s ≠ "".
Proof.
  induction (N.lt_wf_0 x) as [x _ IH]. intros s Hs.
  destruct (decide (x = 0%N)) as [->|Hx].
  - by rewrite pretty_N_go_0.
  - rewrite pretty_N_go_step by lia. apply IH; [|done].
    apply N.div_lt; lia.
Qed.

Lemma pretty_positive_not_empty (p : positive) : pretty p ≠ "".
Proof.
  unfold pretty, pretty_positive, pretty, pretty_N.
  rewrite decide_False by done.
  rewrite pretty_N_go_step by lia. by apply pretty_N_go_not_empty.
Qed.

Lemma pretty_Z_not_empty (z : Z) : pretty z ≠ "".
Proof.
  destruct z as [|p|p]; [done|apply pretty_positive_not_empty|done].
Qed.

Lemma chat_key_differs ctx ctx' a :
  chat ctx = Some a → chat ctx' ≠ Some a → chat_key ctx' ≠ chat_key ctx.
Proof.
  unfold chat_key. intros -> Hne.
  destruct (chat ctx') as [b|].
  - intros Heq. apply (inj pretty) in Heq. congruence.
  - intros Heq. by apply (pretty_Z_not_empty a).
Qed.

End ChatKeys.

(** X28. Chats have registries of their own. The key of a context that belongs
    to a chat is never the empty string, the key of the contexts that
    belong to none, and two contexts have the same key only when they
    belong to the same chat. So a [buildLayout] for a context of one chat
    changes nothing for the presses that come from another chat, or from no
    chat: the menu's lookup for them finds what it found before. *)
Theorem X28_chats_have_registries_of_their_own :
  (∀ ctx a, chat ctx = Some a → chat_key ctx ≠ "")
  ∧ (∀ ctx ctx' a b,
       chat ctx = Some a → chat ctx' = Some b →
       chat_key ctx = chat_key ctx' → a = b)
  ∧ (∀ self ctx args w r w1 a ctx' this this1,
       buildLayout self ctx args w = (Ok r, w1) →
       chat ctx = Some a → chat ctx' ≠ Some a →
       menus w !! self = Some this →
       menus w1 !! self = Some this1 →
       lookup_handler this1 ctx' = lookup_handler this ctx').
Proof.
  split; [|split].
  - intros ctx a Ha. unfold chat_key. rewrite Ha. apply pretty_Z_not_empty.
  - intros ctx ctx' a b Ha Hb. unfold chat_key. rewrite Ha, Hb.
    apply (inj pretty).
  - intros self ctx args w r w1 a ctx' this this1 Hb Ha Hne Hthis Hthis1.
    destruct (buildLayout_dynamic _ _ _ _ _ _ Hb)
      as (this' & loaded & built & wa & wb & Hthis' & _ & _ & Hm).
    assert (this' = this) as -> by congruence.
    rewrite Hm in Hthis1. injection Hthis1 as <-.
    unfold lookup_handler. cbn.
    rewrite lookup_insert_ne; [done|].
    intros Heq. by eapply chat_key_differs.
Qed.

Lemma X28_chats_have_registries_of_their_own_witness :
  chat_key Example.ctx_command ≠ ""
  ∧ lookup_handler
      (with_dynamic Example.main_menu "42"
         (by_action
            [mkHandler "eijdfwof:main00:call:xxxxxx" (Some Example.do_refresh);
             mkHandler "eijdfwof:main00:call:yyyyyy" (Some Example.do_throw)]))
      (Example.ctx_of (Some 7%Z) "7"
         (Some (mkCallbackQuery (Some "eijdfwof:main00:call:xxxxxx") (Some 1%Z))))
    = lookup_handler Example.main_menu
        (Example.ctx_of (Some 7%Z) "7"
           (Some (mkCallbackQuery (Some "eijdfwof:main00:call:xxxxxx")
                                  (Some 1%Z)))).
Proof.
  destruct X28_chats_have_registries_of_their_own as (Hkey & _ & Hother).
  split.
  - apply (Hkey Example.ctx_command 42%Z). reflexivity.
  - apply (Hother "main00" Example.ctx_command Example.previous_args
      Example.world0 (mkRendered "main" Example.main_keyboard None)
      (snd (buildLayout "main00" Example.ctx_command Example.previous_args
              Example.world0))
      42%Z).
    + vm_compute. reflexivity.
    + reflexivity.
    + discriminate.
    + vm_compute. reflexivity.
    + vm_compute. reflexivity.
Defined.

(** X29. Reading the state right after a reset. With the newer [reset], which
    awaits the initialiser, a [get] that follows in the same handler
    returns what the initial state holds under the key. With the older
    [reset], which deletes the state, the entry has no state until the next
    render: a [get] that follows in the same handler reads a property of
    [undefined], and throws what the engine throws for that. *)
Theorem X29_get_after_reset get_property self ctx w this ms slot props key v e :
  Accessor.reads_own get_property →
  get_property VUndefined key = inl e →
  menus w !! self = Some this →
  _menu (session_of ctx w) = Some ms →
  slots ms !! id this = Some slot →
  initStateFn this = Some (Resolved (VObj props)) →
  props !! key = Some v →
  fst ((let* _ := Accessor.reset self ctx in
        Accessor.get get_property (id this) ctx key) w) = Ok v
  ∧ fst ((let* _ := Accessor.reset_older (id this) ctx in
          Accessor.get get_property (id this) ctx key) w) = Throw e
  ∧ state_of (id this) ctx (snd (Accessor.reset_older (id this) ctx w))
    = VUndefined.
Proof.
  intros Hget Hundef Hthis Hms Hslot Hinit Hkey.
  assert (∀ x,
    Accessor.get get_property (id this) ctx key
      (set_session ctx
         (mkSession (Some (mkMenuSession (activeMessageId ms)
            (activeMenuLoaderArgs ms) (activeMenuLoaderData ms)
            (<[id this := mkSlot x]> (slots ms))))) w)
    = (match get_property x key with inr a => Ok a | inl e => Throw e end,
       set_session ctx
         (mkSession (Some (mkMenuSession (activeMessageId ms)
            (activeMenuLoaderArgs ms) (activeMenuLoaderData ms)
            (<[id this := mkSlot x]> (slots ms))))) w)) as Hread.
  { intros x. set (w1 := set_session ctx _ w). unfold Accessor.get.
    rewrite (bind_ok _ _ _ (mkSlot x) w1).
    - cbn [state]. by destruct (get_property x key).
    - eapply the_slot_unfold.
      + unfold w1. by rewrite session_of_set_session.
      + cbn. by rewrite lookup_insert_eq. }
  split; [|split].
  - assert (Accessor.reset self ctx w
            = (Ok tt,
               set_session ctx
                 (mkSession (Some (mkMenuSession (activeMessageId ms)
                    (activeMenuLoaderArgs ms) (activeMenuLoaderData ms)
                    (<[id this := mkSlot (VObj props)]> (slots ms))))) w))
      as Hreset.
    { unfold Accessor.reset.
      erewrite bind_ok; [|unfold this_menu; by rewrite Hthis].
      erewrite bind_ok; [|unfold the_menu_session; by rewrite Hms].
      rewrite Hinit. cbn [await_outcome]. rewrite bind_ret.
      by eapply set_slot_state_unfold. }
    rewrite (bind_ok _ _ _ _ _ Hreset), Hread.
    by rewrite (Hget _ _ _ Hkey).
  - unfold Accessor.reset_older.
    rewrite (bind_ok _ _ _ _ _ (set_slot_state_unfold _ _ VUndefined _ _ _
                                  Hms Hslot)).
    by rewrite Hread, Hundef.
  - unfold Accessor.reset_older.
    rewrite (set_slot_state_unfold _ _ VUndefined _ _ _ Hms Hslot).
    apply state_of_written.
Qed.

Lemma X29_get_after_reset_witness :
  fst ((let* _ := Accessor.reset "count0" Example.ctx_command in
        Accessor.get Accessor.plain_get "count0" Example.ctx_command "count")
         (snd (resolve_state "count0" Example.ctx_command Sample.world)))
    = Ok (VNum 0)
  ∧ fst ((let* _ := Accessor.reset_older "count0" Example.ctx_command in
          Accessor.get Accessor.plain_get "count0" Example.ctx_command "count")
           (snd (resolve_state "count0" Example.ctx_command Sample.world)))
    = Throw (TypeError "count")
  ∧ state_of "count0" Example.ctx_command
      (snd (Accessor.reset_older "count0" Example.ctx_command
              (snd (resolve_state "count0" Example.ctx_command Sample.world))))
    = VUndefined.
Proof.
  eapply (X29_get_after_reset Accessor.plain_get "count0" Example.ctx_command
            (snd (resolve_state "count0" Example.ctx_command Sample.world))
            Sample.counter_menu _ _ {["count" := VNum 0]} "count" (VNum 0)
            (TypeError "count")).
  - intros props key v Hlook. cbn. by rewrite Hlook.
  - reflexivity.
  - reflexivity.
  - reflexivity.
  - reflexivity.
  - reflexivity.
  - reflexivity.
Defined.
